(** * LLM-Service-Factory: a shallow embedding of the Python sources

    The development follows the layout of the repository:

    - [Py]                  the fragment of the Python runtime the sources
                            rely on (exceptions, [print], [time.sleep],
                            truthiness, [in]);
    - [Retry]               [utils/retry_logic.py];
    - [TokenTracker]        [utils/token_tracker.py], the cost in exact
                            arithmetic;
    - [TokenTracker64]      [utils/token_tracker.py], the cost in the
                            arithmetic of Python;
    - [World]               the state of the process and the world outside
                            (environment, vendor APIs, files);
    - [LLMService]          [llm_services/llm_interface.py];
    - [AzureOpenAIService]  [llm_services/azure_openai_service.py], with
                            [utils/image_encoding.py];
    - [HuggingFaceService]  [llm_services/huggingface_service.py];
    - [OpenAIService]       [llm_services/openai_service.py], which the
                            factory imports and the sources do not contain;
    - [LLMServiceFactory]   [LLMServiceFactory.py].

    Each module of definitions is followed by a module of facts about it.

    Numbers.  Python [int] is [Z].  A temperature is a Python [float]
    object: a binary64 value ([PrimFloat], with its NaN, infinities and
    signed zeros) together with the identity of the object, which the
    registry of the factory consults for NaN.  The waiting time of
    [retry_request] is modelled by its exact rational value in [Q].  The
    usage tracker comes twice: [TokenTracker] keeps the rates and the
    cost as exact rationals, an abstraction in which the order properties
    of the cost are stated; [TokenTracker64] follows the arithmetic of
    Python itself, [int] and binary64 [float], operation by operation. *)

From Stdlib Require Import ZArith QArith Lia Lqa String List.
From Stdlib Require Import PrimFloat SpecFloat FloatOps FloatAxioms.
From stdpp Require Import base option list gmap strings pretty.

Open Scope string_scope.
Open Scope Z_scope.

(* ===================================================================== *)
(** * The Python runtime fragment                                          *)
(* ===================================================================== *)
Module Py.

(** Exception classes raised by the sources or by the libraries they call.
    [KeyboardInterrupt] and [SystemExit] derive from [BaseException] only,
    so [except Exception] does not catch them. *)
Inductive exn_class :=
| ValueError
| RuntimeError
| NotImplementedError
| EnvironmentError
| TypeError
| KeyError
| OverflowError
| IndexError
| FileNotFoundError
| APIError
| KeyboardInterrupt
| SystemExit.

Definition is_Exception (c : exn_class) : bool :=
  match c with
  | KeyboardInterrupt | SystemExit => false
  | _ => true
  end.

(** An exception object: class, [str(e)], and the implicit [__context__]
    set when it is raised while another exception is being handled. *)
#[local] Set Warnings "-register-all".
Inductive exn :=
| Exn (cls : exn_class) (msg : string) (context : option exn).

Definition exn_cls (e : exn) : exn_class := let 'Exn c _ _ := e in c.
Definition exn_str (e : exn) : string := let 'Exn _ m _ := e in m.
Definition exn_context (e : exn) : option exn := let 'Exn _ _ c := e in c.

(** [except Exception as e] matches [e]. *)
Definition catchable (e : exn) : bool := is_Exception (exn_cls e).

(** Raising [e] inside an [except] block that handles [handled]. *)
Definition raised_while_handling (handled : exn) (e : exn) : exn :=
  let 'Exn c m _ := e in Exn c m (Some handled).

(** Outcome of a call: a value or a raised exception. *)
Inductive result (A : Type) :=
| Return (a : A)
| Raise (e : exn).
Arguments Return {A} a.
Arguments Raise {A} e.

(** Stateful computations: the process state is passed explicitly. *)
Definition M (S A : Type) : Type := S -> result A * S.

Definition ret {S A} (a : A) : M S A := fun s => (Return a, s).
Definition raise {S A} (e : exn) : M S A := fun s => (Raise e, s).
Definition bind {S A B} (m : M S A) (k : A -> M S B) : M S B :=
  fun s => match m s with
           | (Return a, s') => k a s'
           | (Raise e, s') => (Raise e, s')
           end.
Definition modify {S} (f : S -> S) : M S unit := fun s => (Return tt, f s).
Definition get {S} : M S S := fun s => (Return s, s).

#[export] Instance M_ret {S} : MRet (M S) := fun A => @ret S A.
#[export] Instance M_bind {S} : MBind (M S) := fun A B k m => @bind S A B m k.

(** What [print] and [time.sleep] do to a process state. *)
Class Runtime (S : Type) := {
  stdout_write : string -> S -> S;
  clock_advance : Q -> S -> S
}.

Definition print {S} `{Runtime S} (line : string) : M S unit :=
  modify (stdout_write line).

(** [time.sleep(secs)]: a negative length is a [ValueError]. *)
Definition sleep {S} `{Runtime S} (secs : Q) : M S unit :=
  if Qle_bool 0 secs then modify (clock_advance secs)
  else raise (Exn ValueError "sleep length must be non-negative" None).

(** A Python [float] object: its binary64 value, and the identity of the
    object.  Identity matters for NaN only, the one value that is not
    equal to itself: two evaluations of [float('nan')] give two objects. *)
Record pyfloat := PyFloat {
  float_value : float;
  float_id : nat
}.

(** The object of a literal such as [1.0]. *)
Definition float_obj (value : float) : pyfloat := PyFloat value 0.

(** [a is b or a == b]: the test [dict] and [tuple] apply to their
    elements.  For numbers it is [==]; a NaN is found again only as the
    very same object. *)
Definition float_same (a b : pyfloat) : bool :=
  (float_value a =? float_value b)%float
  || (is_nan (float_value a) && is_nan (float_value b)
      && Nat.eqb (float_id a) (float_id b)).

(** [range(n)] for an integer [n]: empty when [n <= 0]. *)
Definition range (n : Z) : list Z := map Z.of_nat (seq 0 (Z.to_nat n)).

(** Truthiness of a [str]: the empty string is falsy. *)
Definition str_truthy (s : string) : bool :=
  match s with EmptyString => false | _ => true end.

(** [sub in s] for strings. *)
Fixpoint str_contains (sub s : string) : bool :=
  if String.prefix sub s then true
  else match s with
       | EmptyString => false
       | String _ rest => str_contains sub rest
       end.

End Py.

(* ===================================================================== *)
(** * Comparisons of binary64 floats                                       *)
(* ===================================================================== *)
Module FloatFacts.
Import Py.

(** The comparisons of [PrimFloat] are specified on [spec_float] by
    [SFcompare], which answers [None] when an operand is NaN. *)
Lemma SFcompare_antisym (x y : spec_float) :
  SFcompare y x = option_map CompOpp (SFcompare x y).
Proof.
  destruct x as [sx | sx | | sx mx ex], y as [sy | sy | | sy my ey]; cbn;
    try reflexivity;
    try (destruct sx; reflexivity);
    try (destruct sy; reflexivity);
    try (destruct sx, sy; reflexivity).
  assert (Hm : Pos.compare_cont Eq my mx = CompOpp (Pos.compare_cont Eq mx my))
    by (rewrite Pos.compare_cont_antisym; reflexivity).
  rewrite Hm, (Z.compare_antisym ex ey).
  destruct sx, sy, (ex ?= ey)%Z, (Pos.compare_cont Eq mx my); reflexivity.
Qed.

Lemma SFcompare_Eq (x y : spec_float) :
  SFcompare x y = Some Eq ->
  x = y \/ exists sx sy, x = S754_zero sx /\ y = S754_zero sy.
Proof.
  destruct x as [sx | sx | | sx mx ex], y as [sy | sy | | sy my ey]; cbn;
    try discriminate;
    try (destruct sx; discriminate);
    try (destruct sy; discriminate).
  - intros _. right. eauto.
  - destruct sx, sy; try discriminate; intros _; left; reflexivity.
  - destruct sx, sy; try discriminate.
    + destruct (ex ?= ey)%Z eqn:He; try discriminate.
      apply Z.compare_eq in He. subst.
      destruct (Pos.compare_cont Eq mx my) eqn:Hm; try discriminate.
      apply Pos.compare_eq in Hm. subst. intros _. left. reflexivity.
    + destruct (ex ?= ey)%Z eqn:He; try discriminate.
      apply Z.compare_eq in He. subst.
      destruct (Pos.compare_cont Eq mx my) eqn:Hm; try discriminate.
      apply Pos.compare_eq in Hm. subst. intros _. left. reflexivity.
Qed.

Lemma SFcompare_zero_l sx sy z : SFcompare (S754_zero sx) z = SFcompare (S754_zero sy) z.
Proof. destruct z; reflexivity. Qed.

Lemma eqb_sym (x y : float) : (x =? y)%float = (y =? x)%float.
Proof.
  rewrite !FloatAxioms.eqb_spec. unfold SFeqb.
  rewrite (SFcompare_antisym (Prim2SF x) (Prim2SF y)).
  destruct (SFcompare (Prim2SF x) (Prim2SF y)) as [[] |]; reflexivity.
Qed.

Lemma eqb_trans (x y z : float) :
  (x =? y)%float = true -> (y =? z)%float = true -> (x =? z)%float = true.
Proof.
  rewrite !FloatAxioms.eqb_spec. unfold SFeqb.
  destruct (SFcompare (Prim2SF x) (Prim2SF y)) as [[] |] eqn:Hxy; try discriminate.
  intros _.
  destruct (SFcompare_Eq _ _ Hxy) as [-> | (sx & sy & -> & Hy)]; [tauto |].
  rewrite Hy, (SFcompare_zero_l sy sx). tauto.
Qed.

(** A float that equals something is not NaN. *)
Lemma eqb_not_nan_l (x y : float) : (x =? y)%float = true -> is_nan x = false.
Proof.
  unfold is_nan. rewrite !FloatAxioms.eqb_spec. unfold SFeqb.
  destruct (Prim2SF x) as [sx | sx | | sx mx ex]; cbn.
  - reflexivity.
  - destruct sx; reflexivity.
  - discriminate.
  - intros _. destruct sx; rewrite Z.compare_refl, Pos.compare_cont_refl; reflexivity.
Qed.

Lemma eqb_not_nan_r (x y : float) : (x =? y)%float = true -> is_nan y = false.
Proof. rewrite eqb_sym. apply eqb_not_nan_l. Qed.

Lemma leb_not_ltb (x y : float) : (x <=? y)%float = true -> (y <? x)%float = false.
Proof.
  rewrite FloatAxioms.leb_spec, FloatAxioms.ltb_spec. unfold SFleb, SFltb.
  rewrite (SFcompare_antisym (Prim2SF x) (Prim2SF y)).
  destruct (SFcompare (Prim2SF x) (Prim2SF y)) as [[] |]; cbn; congruence.
Qed.

Lemma SFcompare_not_nan (x y : spec_float) :
  SFcompare x x <> None -> SFcompare y y <> None -> SFcompare x y <> None.
Proof.
  destruct x as [sx | sx | | sx mx ex], y as [sy | sy | | sy my ey]; cbn; congruence.
Qed.

Lemma is_nan_spec (x : float) : is_nan x = false <-> SFcompare (Prim2SF x) (Prim2SF x) <> None.
Proof.
  unfold is_nan. rewrite FloatAxioms.eqb_spec. unfold SFeqb.
  destruct (Prim2SF x) as [sx | sx | | sx mx ex]; cbn.
  - split; [discriminate | reflexivity].
  - destruct sx; (split; [discriminate | reflexivity]).
  - split; [discriminate | congruence].
  - destruct sx; rewrite Z.compare_refl, Pos.compare_cont_refl; cbn;
      (split; [discriminate | reflexivity]).
Qed.

(** Numbers are totally ordered. *)
Lemma not_leb_ltb (x y : float) :
  is_nan x = false -> is_nan y = false ->
  (x <=? y)%float = false -> (y <? x)%float = true.
Proof.
  rewrite !is_nan_spec, FloatAxioms.leb_spec, FloatAxioms.ltb_spec. unfold SFleb, SFltb.
  intros Hx Hy. pose proof (SFcompare_not_nan _ _ Hx Hy) as Hxy.
  rewrite (SFcompare_antisym (Prim2SF x) (Prim2SF y)).
  destruct (SFcompare (Prim2SF x) (Prim2SF y)) as [[] |]; cbn; congruence.
Qed.

Lemma not_ltb_leb (x y : float) :
  is_nan x = false -> is_nan y = false ->
  (x <? y)%float = false -> (y <=? x)%float = true.
Proof.
  rewrite !is_nan_spec, FloatAxioms.leb_spec, FloatAxioms.ltb_spec. unfold SFleb, SFltb.
  intros Hx Hy. pose proof (SFcompare_not_nan _ _ Hx Hy) as Hxy.
  rewrite (SFcompare_antisym (Prim2SF x) (Prim2SF y)).
  destruct (SFcompare (Prim2SF x) (Prim2SF y)) as [[] |]; cbn; congruence.
Qed.

Lemma nan_compare (x y : float) :
  is_nan x = true ->
  (x <? y)%float = false /\ (y <? x)%float = false /\ (x =? y)%float = false
  /\ (x <=? y)%float = false /\ (y <=? x)%float = false.
Proof.
  intros Hx.
  assert (Hnan : Prim2SF x = S754_nan).
  { destruct (Prim2SF x) as [sx | sx | | sx mx ex] eqn:Hp; [| | reflexivity |];
      exfalso; assert (Hn : is_nan x = false)
        by (apply is_nan_spec; rewrite Hp; cbn;
            try destruct sx; rewrite ?Z.compare_refl, ?Pos.compare_cont_refl; discriminate);
      congruence. }
  rewrite !FloatAxioms.ltb_spec, !FloatAxioms.leb_spec, FloatAxioms.eqb_spec, Hnan. unfold SFltb, SFleb, SFeqb. cbn.
  destruct (Prim2SF y); repeat split.
Qed.


(** ** Equality of float objects as container elements *)

Lemma float_same_refl (a : pyfloat) : float_same a a = true.
Proof.
  unfold float_same, is_nan. rewrite Nat.eqb_refl.
  destruct (float_value a =? float_value a)%float; reflexivity.
Qed.

Lemma float_same_sym (a b : pyfloat) : float_same a b = float_same b a.
Proof.
  unfold float_same.
  rewrite (eqb_sym (float_value a) (float_value b)), (Nat.eqb_sym (float_id a) (float_id b)),
    (andb_comm (is_nan (float_value a))).
  reflexivity.
Qed.

Lemma float_same_trans (a b c : pyfloat) :
  float_same a b = true -> float_same b c = true -> float_same a c = true.
Proof.
  unfold float_same. rewrite !orb_true_iff, !andb_true_iff.
  intros [Hab | [[Ha Hb] Hid]] [Hbc | [[Hb' Hc] Hid']].
  - left. exact (eqb_trans _ _ _ Hab Hbc).
  - rewrite (eqb_not_nan_r _ _ Hab) in Hb'. discriminate.
  - rewrite (eqb_not_nan_l _ _ Hbc) in Hb. discriminate.
  - right. repeat split; try assumption.
    apply Nat.eqb_eq in Hid, Hid'. apply Nat.eqb_eq. congruence.
Qed.

(** For numbers, sameness is [==]. *)
Lemma float_same_number (a b : pyfloat) :
  is_nan (float_value a) = false ->
  float_same a b = (float_value a =? float_value b)%float.
Proof.
  intros Ha. unfold float_same. rewrite Ha. cbn. apply orb_false_r.
Qed.

(** Two NaN objects are the same only when they are one object. *)
Lemma float_same_nan (a b : pyfloat) :
  is_nan (float_value a) = true ->
  float_same a b = is_nan (float_value b) && Nat.eqb (float_id a) (float_id b).
Proof.
  intros Ha. unfold float_same. rewrite Ha.
  destruct (nan_compare _ (float_value b) Ha) as (_ & _ & -> & _). reflexivity.
Qed.

End FloatFacts.

(* ===================================================================== *)
(** * utils/retry_logic.py                                                 *)
(* ===================================================================== *)
Module Retry.
Import Py.

Section RetryRequest.
Context {S A : Type} `{Runtime S}.

(** The message of the aggregated error:
    [f"API request failed after {retries} retries: {e}"]. *)
Definition failure_message (retries : Z) (e : exn) : string :=
  "API request failed after " +:+ pretty retries +:+ " retries: " +:+ exn_str e.

(** The [RuntimeError] raised in the handler of [e]. *)
Definition retries_exhausted (retries : Z) (e : exn) : exn :=
  Exn RuntimeError (failure_message retries e) (Some e).

(** The body of [for attempt in range(retries)], over the attempts still
    to run.  Falling off the loop returns [None]. *)
Fixpoint retry_loop (func : M S A) (retries : Z) (wait_time : Q)
    (attempts : list Z) : M S (option A) :=
  match attempts with
  | [] => ret None
  | attempt :: rest => fun s =>
      match func s with
      | (Return v, s1) => (Return (Some v), s1)
      | (Raise e, s1) =>
          if catchable e then
            if attempt =? retries - 1 then
              (Raise (retries_exhausted retries e), s1)
            else
              match sleep wait_time s1 with
              | (Return _, s2) => retry_loop func retries wait_time rest s2
              | (Raise e', s2) => (Raise (raised_while_handling e e'), s2)
              end
          else (Raise e, s1)
      end
  end.

Definition retry_request (func : M S A) (retries : Z) (wait_time : Q)
    : M S (option A) :=
  print "!";; retry_loop func retries wait_time (range retries).

End RetryRequest.

(** The defaults of the signature: [retries: int = 3], [wait_time = 0.5]. *)
Definition default_retries : Z := 3.
Definition default_wait_time : Q := 0.5.

(** A call counter around an operation, as a test double would keep. *)
Definition counted {S A} (func : M S A) : M (Z * S) A :=
  fun cs => let '(c, s) := cs in
            let '(r, s') := func s in (r, (c + 1, s')).

#[export] Instance counted_runtime {S} `{Runtime S} : Runtime (Z * S) := {
  stdout_write line cs := (fst cs, stdout_write line (snd cs));
  clock_advance secs cs := (fst cs, clock_advance secs (snd cs))
}.

(** A scripted operation: each invocation consumes the next outcome of
    the script (an exhausted script keeps raising).  Its state also keeps
    what was printed and slept. *)
Record mock_state (A : Type) := MockState {
  script : list (result A);
  printed : list string;
  slept : list Q
}.
Arguments MockState {A} _ _ _.
Arguments script {A} _.
Arguments printed {A} _.
Arguments slept {A} _.

#[export] Instance mock_runtime {A} : Runtime (mock_state A) := {
  stdout_write line m := MockState (script m) (printed m ++ [line]) (slept m);
  clock_advance secs m := MockState (script m) (printed m) (slept m ++ [secs])
}.

Definition scripted {A} : M (mock_state A) A :=
  fun m => match script m with
           | [] => (Raise (Exn APIError "script exhausted" None), m)
           | r :: rest => (r, MockState rest (printed m) (slept m))
           end.

(** ** Runs of failing attempts *)

Section Runs.
Context {S A : Type} `{Runtime S}.

(** [failures func wait k s es s']: started in [s], [func] is invoked [k]
    times; every invocation raises an exception that [except Exception]
    catches and is followed by [sleep(wait)]; [es] are the exceptions, in
    order, and [s'] is the state after the last sleep. *)
Inductive failures (func : M S A) (wait : Q) : nat -> S -> list exn -> S -> Prop :=
| failures_none s : failures func wait 0 s [] s
| failures_more k s e s1 es s' :
    func s = (Raise e, s1) ->
    catchable e = true ->
    failures func wait k (clock_advance wait s1) es s' ->
    failures func wait (Datatypes.S k) s (e :: es) s'.

End Runs.

End Retry.

(* ===================================================================== *)
(** * Properties of [retry_request]                                        *)
(* ===================================================================== *)
Module RetryFacts.
Import Py Retry.

Section Facts.
Context {S A : Type} `{Runtime S}.
Implicit Types (func : M S A) (s : S) (e : exn).

Lemma range_unfold (n : Z) : range n = map Z.of_nat (seq 0 (Z.to_nat n)).
Proof. reflexivity. Qed.

Lemma range_nonpos (n : Z) : n <= 0 -> range n = [].
Proof.
  intros Hn. unfold range.
  replace (Z.to_nat n) with 0%nat by lia. reflexivity.
Qed.

Lemma sleep_nonneg (wait : Q) s :
  (0 <= wait)%Q -> sleep wait s = (Return tt, clock_advance wait s).
Proof.
  intros Hw. unfold sleep.
  apply Qle_bool_iff in Hw. rewrite Hw. reflexivity.
Qed.

(** A run of [k] failing attempts, none of which is the last configured
    one, takes the loop from attempt [a] to attempt [a + k]. *)
Lemma retry_loop_failures func retries wait k :
  (0 <= wait)%Q ->
  forall s es sk a m,
    failures func wait k s es sk ->
    Z.of_nat (a + k) <= retries - 1 ->
    retry_loop func retries wait (map Z.of_nat (seq a (k + m))) s
    = retry_loop func retries wait (map Z.of_nat (seq (a + k) m)) sk.
Proof.
  intros Hw s es sk a m Hrun. revert a m.
  induction Hrun as [s | k s e s1 es s' Hcall Hcatch Hrun IH]; intros a m Hlast.
  - rewrite Nat.add_0_r. reflexivity.
  - cbn [Nat.add seq map retry_loop].
    rewrite Hcall, Hcatch.
    destruct (Z.eqb_spec (Z.of_nat a) (retries - 1)) as [Heq | _]; [lia |].
    rewrite sleep_nonneg by assumption.
    rewrite IH by lia.
    replace (Datatypes.S a + k)%nat with (a + Datatypes.S k)%nat by lia.
    reflexivity.
Qed.

Lemma failures_counted func wait k s es sk (c : Z) :
  failures func wait k s es sk ->
  failures (counted func) wait k (c, s) es (c + Z.of_nat k, sk).
Proof.
  intros Hrun. revert c.
  induction Hrun as [s | k s e s1 es s' Hcall Hcatch Hrun IH]; intros c.
  - replace (c + Z.of_nat 0) with c by lia. constructor.
  - econstructor.
    + unfold counted. rewrite Hcall. reflexivity.
    + assumption.
    + cbn [clock_advance counted_runtime fst snd].
      replace (c + Z.of_nat (Datatypes.S k)) with (c + 1 + Z.of_nat k) by lia.
      apply IH.
Qed.

Lemma retry_request_unfold func retries wait s :
  retry_request func retries wait s
  = retry_loop func retries wait (range retries) (stdout_write "!" s).
Proof. reflexivity. Qed.

(** The loop after [k] failures followed by a success. *)
Lemma retry_request_success func retries wait k s es sk v s' :
  (0 <= wait)%Q ->
  Z.of_nat k < retries ->
  failures func wait k (stdout_write "!" s) es sk ->
  func sk = (Return v, s') ->
  retry_request func retries wait s = (Return (Some v), s').
Proof.
  intros Hw Hk Hrun Hcall.
  rewrite retry_request_unfold, range_unfold.
  replace (Z.to_nat retries) with (k + Datatypes.S (Z.to_nat retries - Datatypes.S k))%nat by lia.
  rewrite (retry_loop_failures func retries wait k Hw _ es sk 0%nat) by (assumption || lia).
  cbn [seq map retry_loop]. rewrite Hcall. reflexivity.
Qed.

(** The loop after [retries - 1] failures followed by a last failure. *)
Lemma retry_request_failure func retries wait s es sk e s' :
  (0 <= wait)%Q ->
  0 < retries ->
  failures func wait (Z.to_nat (retries - 1)) (stdout_write "!" s) es sk ->
  func sk = (Raise e, s') ->
  catchable e = true ->
  retry_request func retries wait s = (Raise (retries_exhausted retries e), s').
Proof.
  intros Hw Hpos Hrun Hcall Hcatch.
  rewrite retry_request_unfold, range_unfold.
  replace (Z.to_nat retries) with (Z.to_nat (retries - 1) + 1)%nat by lia.
  rewrite (retry_loop_failures func retries wait _ Hw _ es sk 0%nat) by (assumption || lia).
  cbn [seq map retry_loop Nat.add]. rewrite Hcall, Hcatch.
  destruct (Z.eqb_spec (Z.of_nat (Z.to_nat (retries - 1))) (retries - 1)) as [_ | Hne]; [reflexivity | lia].
Qed.

(** A single configured attempt that fails: no sleep is involved. *)
Lemma retry_request_single_failure func wait s e s' :
  func (stdout_write "!" s) = (Raise e, s') ->
  catchable e = true ->
  retry_request func 1 wait s = (Raise (retries_exhausted 1 e), s').
Proof.
  intros Hcall Hcatch. rewrite retry_request_unfold.
  change (range 1) with [0]. cbn [retry_loop].
  rewrite Hcall, Hcatch. reflexivity.
Qed.

(** The counter does not change what the operation or the wrapper do. *)
Lemma retry_loop_counted func retries wait attempts (c : Z) s :
  let '(r, s') := retry_loop func retries wait attempts s in
  exists c', retry_loop (counted func) retries wait attempts (c, s) = (r, (c', s')).
Proof.
  revert c s. induction attempts as [| attempt rest IH]; intros c s.
  - cbn. eauto.
  - cbn [retry_loop]. unfold counted at 1.
    destruct (func s) as [[v | e] s1]; [eauto |].
    destruct (catchable e); [| eauto].
    destruct (attempt =? retries - 1); [eauto |].
    unfold sleep. destruct (Qle_bool 0 wait); cbn; [| eauto].
    apply IH.
Qed.

End Facts.

Section Claims.
Context {S A : Type} `{Runtime S}.
Implicit Types (func : M S A) (s : S) (e : exn).

(** An exception that is not an [Exception] leaves the wrapper at once,
    unchanged, whatever the number of attempts left. *)
Lemma retry_request_not_caught func retries wait s e s' :
  0 < retries ->
  func (stdout_write "!" s) = (Raise e, s') ->
  catchable e = false ->
  retry_request func retries wait s = (Raise e, s').
Proof.
  intros Hpos Hcall Hcatch.
  rewrite retry_request_unfold, range_unfold.
  replace (Z.to_nat retries) with (Datatypes.S (Z.to_nat (retries - 1))) by lia.
  cbn [seq map retry_loop]. rewrite Hcall, Hcatch. reflexivity.
Qed.

(** C4.  For every operation, every positive retry count and every
    waiting time that [time.sleep] accepts (a non-negative one; with a
    single configured attempt nothing is slept and any waiting time
    does): when each of the [retries] invocations raises an exception
    that [except Exception] catches, [retry_request] raises one
    [RuntimeError] whose message names [retries] and the text of the last
    exception, with that exception as its context, and the operation has
    been invoked exactly [retries] times (the call counter of [counted]
    advances by [retries]). *)
Theorem retry_request_exhausted func retries wait s (c : Z) es sk e s' :
  0 < retries ->
  (0 <= wait)%Q \/ retries = 1 ->
  failures func wait (Z.to_nat (retries - 1)) (stdout_write "!" s) es sk ->
  func sk = (Raise e, s') ->
  catchable e = true ->
  retry_request func retries wait s
    = (Raise (Exn RuntimeError
                ("API request failed after " +:+ pretty retries +:+ " retries: " +:+ exn_str e)
                (Some e)), s')
  /\ retry_request (counted func) retries wait (c, s)
    = (Raise (retries_exhausted retries e), (c + retries, s')).
Proof.
  intros Hpos [Hw | ->] Hrun Hcall Hcatch.
  - split.
    + apply (retry_request_failure func retries wait s es sk e s'); assumption.
    + apply (retry_request_failure (counted func) retries wait (c, s) es
               (c + Z.of_nat (Z.to_nat (retries - 1)), sk)); try assumption.
      * apply (failures_counted func wait _ (stdout_write "!" s) es sk c Hrun).
      * unfold counted. rewrite Hcall. f_equal. f_equal. lia.
  - change (Z.to_nat (1 - 1)) with 0%nat in Hrun.
    inversion Hrun; subst. split.
    + exact (retry_request_single_failure func wait s e s' Hcall Hcatch).
    + apply (retry_request_single_failure (counted func) wait (c, s) e (c + 1, s')).
      * cbn [stdout_write counted_runtime fst snd]. unfold counted.
        rewrite Hcall. reflexivity.
      * exact Hcatch.
Qed.


(** C10.  With [retries <= 0] the loop body never runs: [retry_request]
    returns [None], raises nothing and does not invoke the operation (only
    the ["!"] has been printed; the call counter is unchanged). *)
Theorem retry_request_nonpositive func retries wait s (c : Z) :
  retries <= 0 ->
  retry_request func retries wait s = (Return None, stdout_write "!" s)
  /\ retry_request (counted func) retries wait (c, s)
    = (Return None, (c, stdout_write "!" s)).
Proof.
  intros Hn.
  rewrite !retry_request_unfold, (range_nonpos retries Hn).
  split; reflexivity.
Qed.

End Claims.

(** ** Concrete runs *)

Definition boom (what : string) : exn := Exn APIError what None.

Definition always_failing : mock_state string :=
  MockState [Raise (boom "timeout 1"); Raise (boom "timeout 2"); Raise (boom "timeout 3")] [] [].

Definition third_time_lucky : mock_state string :=
  MockState [Raise (boom "timeout 1"); Raise (boom "timeout 2"); Return "Paris"] [] [].

Lemma half_second_nonneg : (0 <= default_wait_time)%Q.
Proof. discriminate. Defined.

Lemma retry_request_exhausted_witness :
  retry_request (counted scripted) 3 default_wait_time (0, always_failing)
  = (Raise (Exn RuntimeError "API request failed after 3 retries: timeout 3"
              (Some (boom "timeout 3"))),
     (3, MockState [] ["!"] [default_wait_time; default_wait_time])).
Proof.
  refine (proj2 (retry_request_exhausted scripted 3 default_wait_time always_failing 0
            [boom "timeout 1"; boom "timeout 2"]
            (MockState [Raise (boom "timeout 3")] ["!"] [default_wait_time; default_wait_time])
            (boom "timeout 3")
            (MockState [] ["!"] [default_wait_time; default_wait_time])
            _ (or_introl half_second_nonneg) _ _ _)).
  - reflexivity.
  - eapply failures_more; [reflexivity | reflexivity |].
    eapply failures_more; [reflexivity | reflexivity |].
    apply failures_none.
  - reflexivity.
  - reflexivity.
Defined.

(** Every invocation of the scripted operation raises, and yet no
    aggregated error comes out: with a negative waiting time the first
    handler is left by the [ValueError] of [time.sleep] after a single
    invocation, and an exception that is not an [Exception] (here the
    [KeyboardInterrupt] of the first invocation) leaves unwrapped. *)
Definition always_interrupted : mock_state string :=
  MockState [Raise (Exn KeyboardInterrupt "" None);
             Raise (Exn KeyboardInterrupt "" None);
             Raise (Exn KeyboardInterrupt "" None)] [] [].

Lemma retry_request_exhausted_refuted :
  retry_request (counted scripted) 3 (-1)%Q (0, always_failing)
  = (Raise (Exn ValueError "sleep length must be non-negative" (Some (boom "timeout 1"))),
     (1, MockState [Raise (boom "timeout 2"); Raise (boom "timeout 3")] ["!"] []))
  /\ retry_request (counted scripted) 3 default_wait_time (0, always_interrupted)
  = (Raise (Exn KeyboardInterrupt "" None),
     (1, MockState [Raise (Exn KeyboardInterrupt "" None);
                    Raise (Exn KeyboardInterrupt "" None)] ["!"] [])).
Proof. split; vm_compute; reflexivity. Qed.


Lemma retry_request_nonpositive_witness :
  retry_request (counted scripted) 0 default_wait_time (0, third_time_lucky)
  = (Return None, (0, stdout_write "!" third_time_lucky)).
Proof.
  refine (proj2 (retry_request_nonpositive scripted 0 default_wait_time third_time_lucky 0 _)).
  discriminate.
Defined.

End RetryFacts.

(* ===================================================================== *)
(** * utils/token_tracker.py                                               *)
(* ===================================================================== *)
Module TokenTracker.
Import Py.

(** The tracker with its rates and its cost as exact rationals.  The
    control flow, the keys of the document and the token counters are
    those of the source; the cost is the real number the [float]
    operations of Python approximate, so this module serves for what
    does not depend on the rounding: which entries a call touches, when
    it raises, how the counters and the rates table evolve, and the
    order of the costs.  The texts of its [TypeError]s name the operand
    types of the common case (a [float] cost); the rounded arithmetic and
    the exact texts are those of [TokenTracker64]. *)

(** An entry of [COST_RATES]. *)
Record rates := Rates {
  prompt_token_cost : Q;
  completion_token_cost : Q
}.

(** The values the usage document holds under its top-level keys: the
    per-model object [{"prompt_tokens": p, "completion_tokens": c}] and
    the number stored under ["overall_cost"].  The document is one flat
    JSON object: model names and ["overall_cost"] share its key space. *)
Inductive value :=
| Usage (prompt_tokens completion_tokens : Z)
| Number (n : Q).

(** The class attributes and the file they persist to.  [None] is an
    absent file ([os.path.exists] is false).  [_lock] is acquired on entry
    and released by [finally] on every path; in this sequential model it
    is always free and is left out. *)
Record tracker := Tracker {
  COST_RATES : gmap string rates;
  tokens_usage_file : option (gmap string value)
}.

(** [COST_RATES] as the class body defines it. *)
Definition configured_rates : gmap string rates :=
  <["gpt-4o" := Rates (0.0045 / 1000) (0.0135 / 1000)]>
  (<["gpt-35-turbo" := Rates (0.0018 / 1000) (0.0018 / 1000)]>
  (<["gpt-35-turbo-16k" := Rates (0.0027 / 1000) (0.0036 / 1000)]> ∅)).

Definition initial : tracker := Tracker configured_rates None.

(** [tokens_usage[model_name]["prompt_tokens"] += n]: subscripting the
    number stored under ["overall_cost"] is a [TypeError]. *)
Definition add_prompt_tokens (entry : value) (n : Z) : result value :=
  match entry with
  | Usage p c => Return (Usage (p + n) c)
  | Number _ => Raise (Exn TypeError "'float' object is not subscriptable" None)
  end.

Definition add_completion_tokens (entry : value) (n : Z) : result value :=
  match entry with
  | Usage p c => Return (Usage p (c + n))
  | Number _ => Raise (Exn TypeError "'float' object is not subscriptable" None)
  end.

(** [tokens_usage.get("overall_cost", 0) + prompt_cost + completion_cost]:
    adding a number to a per-model object is a [TypeError]. *)
Definition add_cost (doc : gmap string value) (prompt_cost completion_cost : Q)
    : result Q :=
  match doc !! "overall_cost" with
  | None => Return (0 + prompt_cost + completion_cost)%Q
  | Some (Number cost) => Return (cost + prompt_cost + completion_cost)%Q
  | Some (Usage _ _) =>
      Raise (Exn TypeError "unsupported operand type(s) for +: 'dict' and 'float'" None)
  end.

Definition zero_rates : rates := Rates 0 0.

Definition update_tokens_usage (model_name : string)
    (prompt_tokens completion_tokens : Z) : M tracker unit :=
  fun t =>
    (* Load existing data *)
    let tokens_usage := default ∅ (tokens_usage_file t) in
    (* tokens_usage.setdefault(model_name, {...}) *)
    let tokens_usage :=
      match tokens_usage !! model_name with
      | Some _ => tokens_usage
      | None => <[model_name := Usage 0 0]> tokens_usage
      end in
    let entry := default (Usage 0 0) (tokens_usage !! model_name) in
    match add_prompt_tokens entry prompt_tokens with
    | Raise e => (Raise e, t)
    | Return entry =>
    match add_completion_tokens entry completion_tokens with
    | Raise e => (Raise e, t)
    | Return entry =>
      let tokens_usage := <[model_name := entry]> tokens_usage in
      (* Update overall cost *)
      let cost_rates :=
        match COST_RATES t !! model_name with
        | Some _ => COST_RATES t
        | None => <[model_name := zero_rates]> (COST_RATES t)
        end in
      let rate := default zero_rates (cost_rates !! model_name) in
      let prompt_cost := (inject_Z prompt_tokens * prompt_token_cost rate)%Q in
      let completion_cost := (inject_Z completion_tokens * completion_token_cost rate)%Q in
      match add_cost tokens_usage prompt_cost completion_cost with
      | Raise e => (Raise e, Tracker cost_rates (tokens_usage_file t))
      | Return cost =>
          let tokens_usage := <["overall_cost" := Number cost]> tokens_usage in
          (* Save the updated data *)
          (Return tt, Tracker cost_rates (Some tokens_usage))
      end
    end
    end.

(** The per-token rates in force for a model: its [COST_RATES] entry, or
    zero for a model that has none. *)
Definition rate_of (table : gmap string rates) (model_name : string) : rates :=
  default zero_rates (table !! model_name).

(** Readings of the persisted document. *)
Definition persisted (t : tracker) : gmap string value :=
  default ∅ (tokens_usage_file t).

Definition prompt_total (t : tracker) (model_name : string) : Z :=
  match persisted t !! model_name with
  | Some (Usage p _) => p
  | _ => 0
  end.

Definition completion_total (t : tracker) (model_name : string) : Z :=
  match persisted t !! model_name with
  | Some (Usage _ c) => c
  | _ => 0
  end.

Definition overall_cost (t : tracker) : Q :=
  match persisted t !! "overall_cost" with
  | Some (Number cost) => cost
  | _ => 0%Q
  end.

Definition rates_nonneg (table : gmap string rates) : Prop :=
  forall model_name r, table !! model_name = Some r ->
    (0 <= prompt_token_cost r)%Q /\ (0 <= completion_token_cost r)%Q.

End TokenTracker.

(* ===================================================================== *)
(** * Properties of the usage tracker                                      *)
(* ===================================================================== *)
Module TokenTrackerFacts.
Import Py TokenTracker.

(** The table after a call: a model without an entry gets the zero rates. *)
Definition rates_after (model_name : string) (table : gmap string rates)
    : gmap string rates :=
  match table !! model_name with
  | Some _ => table
  | None => <[model_name := zero_rates]> table
  end.

Lemma rate_of_rates_after model_name table key :
  rate_of (rates_after model_name table) key = rate_of table key.
Proof.
  unfold rate_of, rates_after.
  destruct (table !! model_name) as [r |] eqn:Hlook; [reflexivity |].
  destruct (decide (model_name = key)) as [-> | Hne].
  - rewrite lookup_insert_eq, Hlook. reflexivity.
  - rewrite lookup_insert_ne by assumption. reflexivity.
Qed.

Lemma rates_after_nonneg model_name table :
  rates_nonneg table -> rates_nonneg (rates_after model_name table).
Proof.
  intros Hnn key r. unfold rates_after.
  destruct (table !! model_name) as [r0 |] eqn:Hlook; [apply Hnn |].
  destruct (decide (model_name = key)) as [-> | Hne].
  - rewrite lookup_insert_eq. intros [= <-]. cbn. split; apply Qle_refl.
  - rewrite lookup_insert_ne by assumption. apply Hnn.
Qed.

Lemma configured_rates_nonneg : rates_nonneg configured_rates.
Proof.
  intros key r. unfold configured_rates.
  rewrite !lookup_insert, lookup_empty.
  repeat case_decide; intros [= <-]; cbn; split; discriminate.
Qed.

(** What a call does when the model's entry and the cost entry have the
    shapes the tracker writes: the whole document is rewritten with the
    entry of the model and the cost advanced. *)
Lemma update_tokens_usage_ok model_name p c t :
  model_name <> "overall_cost" ->
  (forall n, persisted t !! model_name <> Some (Number n)) ->
  (forall a b, persisted t !! "overall_cost" <> Some (Usage a b)) ->
  update_tokens_usage model_name p c t
  = (Return tt,
     Tracker (rates_after model_name (COST_RATES t))
       (Some (<["overall_cost" :=
                  Number (overall_cost t
                          + inject_Z p * prompt_token_cost (rate_of (COST_RATES t) model_name)
                          + inject_Z c * completion_token_cost (rate_of (COST_RATES t) model_name))%Q]>
              (<[model_name := Usage (prompt_total t model_name + p)
                                     (completion_total t model_name + c)]>
                 (persisted t))))).
Proof.
  intros Hname Hentry Hcost.
  unfold update_tokens_usage, prompt_total, completion_total, overall_cost.
  fold (persisted t). fold (rates_after model_name (COST_RATES t)).
  change (default zero_rates (rates_after model_name (COST_RATES t) !! model_name))
    with (rate_of (rates_after model_name (COST_RATES t)) model_name).
  rewrite rate_of_rates_after.
  destruct (persisted t !! model_name) as [[P C | n] |] eqn:Hlook.
  - rewrite ?Hlook. cbn. unfold add_cost. rewrite lookup_insert_ne by assumption.
    destruct (persisted t !! "overall_cost") as [[a b | cost] |] eqn:Hc.
    + exfalso. exact (Hcost a b eq_refl).
    + reflexivity.
    + reflexivity.
  - exfalso. exact (Hentry n eq_refl).
  - rewrite lookup_insert_eq. cbn. unfold add_cost.
    rewrite insert_insert_eq.
    rewrite lookup_insert_ne by assumption.
    destruct (persisted t !! "overall_cost") as [[a b | cost] |] eqn:Hc.
    + exfalso. exact (Hcost a b eq_refl).
    + reflexivity.
    + reflexivity.
Qed.

(** A call that raises writes nothing. *)
Lemma update_tokens_usage_raise model_name p c t e t' :
  update_tokens_usage model_name p c t = (Raise e, t') ->
  tokens_usage_file t' = tokens_usage_file t.
Proof.
  unfold update_tokens_usage.
  destruct (add_prompt_tokens _ _) as [entry | e1]; [| intros [= _ <-]; reflexivity].
  destruct (add_completion_tokens _ _) as [entry' | e2]; [| intros [= _ <-]; reflexivity].
  destruct (add_cost _ _ _) as [cost | e3]; [discriminate |].
  intros [= _ <-]. reflexivity.
Qed.

(** The rates stay non-negative: a call only ever adds the zero rates. *)
Lemma update_tokens_usage_rates_nonneg model_name p c t :
  rates_nonneg (COST_RATES t) ->
  rates_nonneg (COST_RATES (snd (update_tokens_usage model_name p c t))).
Proof.
  intros Hnn. unfold update_tokens_usage.
  fold (rates_after model_name (COST_RATES t)).
  destruct (add_prompt_tokens _ _) as [entry | e1]; [| exact Hnn].
  destruct (add_completion_tokens _ _) as [entry' | e2]; [| exact Hnn].
  destruct (add_cost _ _ _) as [cost | e3]; cbn [snd COST_RATES];
    apply rates_after_nonneg; exact Hnn.
Qed.

(** A model called ["overall_cost"] collides with the cost entry: every
    call for it raises. *)
Lemma update_tokens_usage_collision p c t :
  exists e t', update_tokens_usage "overall_cost" p c t = (Raise e, t')
               /\ exn_cls e = TypeError.
Proof.
  unfold update_tokens_usage. fold (persisted t).
  destruct (persisted t !! "overall_cost") as [[P C | n] |] eqn:Hlook;
    rewrite ?Hlook.
  - cbn. unfold add_cost. rewrite lookup_insert_eq. eauto.
  - cbn. eauto.
  - rewrite lookup_insert_eq. cbn. unfold add_cost. rewrite lookup_insert_eq. eauto.
Qed.

Lemma rate_of_nonneg table model_name :
  rates_nonneg table ->
  (0 <= prompt_token_cost (rate_of table model_name))%Q
  /\ (0 <= completion_token_cost (rate_of table model_name))%Q.
Proof.
  intros Hnn. unfold rate_of.
  destruct (table !! model_name) as [r |] eqn:Hlook; cbn.
  - exact (Hnn model_name r Hlook).
  - split; apply Qle_refl.
Qed.

Lemma persisted_written table doc : persisted (Tracker table (Some doc)) = doc.
Proof. reflexivity. Qed.

(** The readings depend on the persisted document only. *)
Lemma readings_same_file t t' :
  tokens_usage_file t' = tokens_usage_file t ->
  (forall key, prompt_total t' key = prompt_total t key)
  /\ (forall key, completion_total t' key = completion_total t key)
  /\ overall_cost t' = overall_cost t.
Proof.
  intros Hfile.
  unfold prompt_total, completion_total, overall_cost, persisted.
  rewrite Hfile. repeat split.
Qed.

(** A call returns only on the shapes of [update_tokens_usage_ok]. *)
Lemma update_tokens_usage_return model_name p c t t' :
  update_tokens_usage model_name p c t = (Return tt, t') ->
  model_name <> "overall_cost"
  /\ (forall n, persisted t !! model_name <> Some (Number n))
  /\ (forall a b, persisted t !! "overall_cost" <> Some (Usage a b)).
Proof.
  intros Hrun.
  assert (Hname : model_name <> "overall_cost").
  { intros ->. destruct (update_tokens_usage_collision p c t) as (e & t2 & Hraise & _).
    congruence. }
  split; [exact Hname |].
  revert Hrun. unfold update_tokens_usage. fold (persisted t).
  destruct (persisted t !! model_name) as [[P C | n] |] eqn:Hentry; rewrite ?Hentry.
  - cbn. unfold add_cost. rewrite lookup_insert_ne by assumption.
    destruct (persisted t !! "overall_cost") as [[a b | cost] |] eqn:Hcost;
      [discriminate | |]; intros _; split; intros; discriminate.
  - cbn. discriminate.
  - rewrite lookup_insert_eq. cbn. unfold add_cost.
    rewrite !lookup_insert_ne by assumption.
    destruct (persisted t !! "overall_cost") as [[a b | cost] |] eqn:Hcost;
      [discriminate | |]; intros _; split; intros; discriminate.
Qed.


(** ** Concrete documents *)

(** The document after [update_tokens_usage("gpt-4o", 10, 5)] on a fresh
    tracker. *)
Definition after_first_call : tracker :=
  snd (update_tokens_usage "gpt-4o" 10 5 initial).

Example after_first_call_totals :
  prompt_total after_first_call "gpt-4o" = 10
  /\ completion_total after_first_call "gpt-4o" = 5.
Proof. vm_compute. repeat split. Qed.



End TokenTrackerFacts.

(* ===================================================================== *)
(** * utils/token_tracker.py in the arithmetic of Python                   *)
(* ===================================================================== *)
Module TokenTracker64.
Import Py.

#[local] Set Warnings "-inexact-float".

(** Python numbers: [int], unbounded, and [float], binary64. *)
Inductive number :=
| Int (n : Z)
| Float (x : float).

Definition type_name (a : number) : string :=
  match a with
  | Int _ => "int"
  | Float _ => "float"
  end.

(** The conversion of the [int] operand of a mixed operation: the nearest
    binary64 value, ties to even; an [int] beyond the range of [float] is
    an [OverflowError]. *)
Definition int_to_float (n : Z) : result float :=
  let x := SF2Prim (binary_normalize prec emax n 0 false) in
  if is_infinity x then
    Raise (Exn OverflowError "int too large to convert to float" None)
  else Return x.

#[export] Instance result_ret : MRet result := fun A a => Return a.
#[export] Instance result_bind : MBind result :=
  fun A B k r => match r with
                 | Return a => k a
                 | Raise e => Raise e
                 end.

(** [a + b] and [a * b]: exact on two [int]s; otherwise in binary64,
    rounded to nearest, after the conversion of an [int] operand.  The
    [float] operations themselves never raise: they overflow to an
    infinity. *)
Definition add (a b : number) : result number :=
  match a, b with
  | Int m, Int n => Return (Int (m + n))
  | Int m, Float y => x ← int_to_float m; Return (Float (x + y))
  | Float x, Int n => y ← int_to_float n; Return (Float (x + y))
  | Float x, Float y => Return (Float (x + y))
  end.

Definition mul (a b : number) : result number :=
  match a, b with
  | Int m, Int n => Return (Int (m * n))
  | Int m, Float y => x ← int_to_float m; Return (Float (x * y))
  | Float x, Int n => y ← int_to_float n; Return (Float (x * y))
  | Float x, Float y => Return (Float (x * y))
  end.

(** An entry of [COST_RATES]. *)
Record rates := Rates {
  prompt_token_cost : number;
  completion_token_cost : number
}.

(** The values the usage document holds under its top-level keys, for
    the documents the tracker itself writes: the per-model object
    [{"prompt_tokens": p, "completion_tokens": c}] and the number stored
    under ["overall_cost"].  The document is one flat JSON object: model
    names and ["overall_cost"] share its key space.  [json.dump] writes
    every [int] and [float] (NaN and the infinities included) in a form
    [json.load] reads back as the same number. *)
Inductive value :=
| Usage (prompt_tokens completion_tokens : number)
| Number (n : number).

(** The class attributes and the file they persist to.  [None] is an
    absent file ([os.path.exists] is false).  [_lock] is acquired on entry
    and released by [finally] on every path; in this sequential model it
    is always free and is left out. *)
Record tracker := Tracker {
  COST_RATES : gmap string rates;
  tokens_usage_file : option (gmap string value)
}.

(** [COST_RATES] as the class body computes it: each rate is the binary64
    quotient of the literal by [1000]. *)
Definition configured_rates : gmap string rates :=
  <["gpt-4o" := Rates (Float (0.0045 / 1000)) (Float (0.0135 / 1000))]>
  (<["gpt-35-turbo" := Rates (Float (0.0018 / 1000)) (Float (0.0018 / 1000))]>
  (<["gpt-35-turbo-16k" := Rates (Float (0.0027 / 1000)) (Float (0.0036 / 1000))]> ∅)).

Definition initial : tracker := Tracker configured_rates None.

(** [tokens_usage[model_name]["prompt_tokens"] += n]: subscripting the
    number stored under ["overall_cost"] is a [TypeError]. *)
Definition not_subscriptable (a : number) : exn :=
  Exn TypeError ("'" +:+ type_name a +:+ "' object is not subscriptable") None.

Definition add_prompt_tokens (entry : value) (n : Z) : result value :=
  match entry with
  | Usage p c => p' ← add p (Int n); Return (Usage p' c)
  | Number a => Raise (not_subscriptable a)
  end.

Definition add_completion_tokens (entry : value) (n : Z) : result value :=
  match entry with
  | Usage p c => c' ← add c (Int n); Return (Usage p c')
  | Number a => Raise (not_subscriptable a)
  end.

(** [tokens_usage.get("overall_cost", 0) + prompt_cost + completion_cost],
    evaluated from the left: adding a number to a per-model object is a
    [TypeError]. *)
Definition add_cost (doc : gmap string value) (prompt_cost completion_cost : number)
    : result number :=
  match default (Number (Int 0)) (doc !! "overall_cost") with
  | Number cost => partial ← add cost prompt_cost; add partial completion_cost
  | Usage _ _ =>
      Raise (Exn TypeError
               ("unsupported operand type(s) for +: 'dict' and '"
                +:+ type_name prompt_cost +:+ "'") None)
  end.

(** The rates written for a model that has none are the [int] 0. *)
Definition zero_rates : rates := Rates (Int 0) (Int 0).

Definition update_tokens_usage (model_name : string)
    (prompt_tokens completion_tokens : Z) : M tracker unit :=
  fun t =>
    (* Load existing data *)
    let tokens_usage := default ∅ (tokens_usage_file t) in
    (* tokens_usage.setdefault(model_name, {...}) *)
    let tokens_usage :=
      match tokens_usage !! model_name with
      | Some _ => tokens_usage
      | None => <[model_name := Usage (Int 0) (Int 0)]> tokens_usage
      end in
    let entry := default (Usage (Int 0) (Int 0)) (tokens_usage !! model_name) in
    match add_prompt_tokens entry prompt_tokens with
    | Raise e => (Raise e, t)
    | Return entry =>
    match add_completion_tokens entry completion_tokens with
    | Raise e => (Raise e, t)
    | Return entry =>
      let tokens_usage := <[model_name := entry]> tokens_usage in
      (* Update overall cost *)
      let cost_rates :=
        match COST_RATES t !! model_name with
        | Some _ => COST_RATES t
        | None => <[model_name := zero_rates]> (COST_RATES t)
        end in
      let rate := default zero_rates (cost_rates !! model_name) in
      match mul (Int prompt_tokens) (prompt_token_cost rate) with
      | Raise e => (Raise e, Tracker cost_rates (tokens_usage_file t))
      | Return prompt_cost =>
      match mul (Int completion_tokens) (completion_token_cost rate) with
      | Raise e => (Raise e, Tracker cost_rates (tokens_usage_file t))
      | Return completion_cost =>
      match add_cost tokens_usage prompt_cost completion_cost with
      | Raise e => (Raise e, Tracker cost_rates (tokens_usage_file t))
      | Return cost =>
          let tokens_usage := <["overall_cost" := Number cost]> tokens_usage in
          (* Save the updated data *)
          (Return tt, Tracker cost_rates (Some tokens_usage))
      end
      end
      end
    end
    end.

(** A sequence of calls for one model, each given as
    [(prompt_tokens, completion_tokens)]; the caller goes on after a call
    that raised. *)
Definition run_updates (model_name : string) (calls : list (Z * Z)) (t : tracker)
    : tracker :=
  foldl (fun t call => snd (update_tokens_usage model_name call.1 call.2 t)) t calls.

(** The per-token rates in force for a model: its [COST_RATES] entry, or
    the zero rates for a model that has none. *)
Definition rate_of (table : gmap string rates) (model_name : string) : rates :=
  default zero_rates (table !! model_name).

Definition sum_prompt (calls : list (Z * Z)) : Z :=
  foldr (fun call acc => call.1 + acc) 0 calls.
Definition sum_completion (calls : list (Z * Z)) : Z :=
  foldr (fun call acc => call.2 + acc) 0 calls.

(** The overall cost after one more call at the rates [r], as the code
    computes it: the two products first, then the two sums from the
    left. *)
Definition cost_after (r : rates) (cost : number) (call : Z * Z) : result number :=
  prompt_cost ← mul (Int call.1) (prompt_token_cost r);
  completion_cost ← mul (Int call.2) (completion_token_cost r);
  partial ← add cost prompt_cost;
  add partial completion_cost.

(** The cost accumulated call by call. *)
Fixpoint running_cost (r : rates) (cost : number) (calls : list (Z * Z))
    : result number :=
  match calls with
  | [] => Return cost
  | call :: rest => cost' ← cost_after r cost call; running_cost r cost' rest
  end.

(** The rates applied to the totals, in the same arithmetic. *)
Definition cost_of_totals (r : rates) (prompt_tokens completion_tokens : Z)
    : result number :=
  cost_after r (Int 0) (prompt_tokens, completion_tokens).

(** The document that holds the totals of one model and the cost, and
    nothing else. *)
Definition totals_document (model_name : string) (prompt_tokens completion_tokens : Z)
    (cost : number) : gmap string value :=
  <["overall_cost" := Number cost]>
  (<[model_name := Usage (Int prompt_tokens) (Int completion_tokens)]> ∅).

(** An empty persisted document: no file yet, or a file holding [{}]. *)
Definition empty_document (t : tracker) : Prop :=
  tokens_usage_file t = None \/ tokens_usage_file t = Some ∅.

(** A token count that a mixed operation can convert. *)
Definition convertible (n : Z) : Prop := exists x, int_to_float n = Return x.

End TokenTracker64.

(* ===================================================================== *)
(** * Properties of the tracker in the arithmetic of Python                *)
(* ===================================================================== *)
Module TokenTracker64Facts.
Import Py TokenTracker64.

#[local] Set Warnings "-inexact-float".

(** [COST_RATES] after a call that got as far as the cost. *)
Definition rates_after (model_name : string) (table : gmap string rates)
    : gmap string rates :=
  match table !! model_name with
  | Some _ => table
  | None => <[model_name := zero_rates]> table
  end.

Lemma rates_after_keeps_rate model_name table key :
  rate_of (rates_after model_name table) key = rate_of table key.
Proof.
  unfold rates_after, rate_of.
  destruct (table !! model_name) as [r |] eqn:Hlook; [reflexivity |].
  destruct (decide (model_name = key)) as [<- | Hne].
  - rewrite lookup_insert_eq, Hlook. reflexivity.
  - rewrite lookup_insert_ne by assumption. reflexivity.
Qed.

Lemma result_bind_return {A B} (r : result A) (k : A -> result B) (b : B) :
  (a ← r; k a) = Return b -> exists a, r = Return a /\ k a = Return b.
Proof. destruct r as [a | e]; [eauto | discriminate]. Qed.

Lemma cost_after_return r cost call cost' :
  cost_after r cost call = Return cost' ->
  exists prompt_cost completion_cost partial,
    mul (Int call.1) (prompt_token_cost r) = Return prompt_cost
    /\ mul (Int call.2) (completion_token_cost r) = Return completion_cost
    /\ add cost prompt_cost = Return partial
    /\ add partial completion_cost = Return cost'.
Proof.
  unfold cost_after. intros H.
  apply result_bind_return in H. destruct H as (pc & Hpc & H).
  apply result_bind_return in H. destruct H as (cc & Hcc & H).
  apply result_bind_return in H. destruct H as (partial & Hpartial & H).
  eauto 7.
Qed.

(** A call on a document that holds the totals of the model. *)
Lemma update_tokens_usage_step model_name p c t P C cost cost' :
  model_name <> "overall_cost" ->
  tokens_usage_file t = Some (totals_document model_name P C cost) ->
  cost_after (rate_of (COST_RATES t) model_name) cost (p, c) = Return cost' ->
  update_tokens_usage model_name p c t
  = (Return tt,
     Tracker (rates_after model_name (COST_RATES t))
       (Some (totals_document model_name (P + p) (C + c) cost'))).
Proof.
  intros Hname Hfile Hcost.
  apply cost_after_return in Hcost.
  destruct Hcost as (pc & cc & partial & Hpc & Hcc & Hpartial & Hsum).
  cbn [fst snd] in Hpc, Hcc.
  unfold update_tokens_usage. rewrite Hfile. cbn [default from_option id].
  fold (rates_after model_name (COST_RATES t)).
  fold (rate_of (rates_after model_name (COST_RATES t)) model_name).
  rewrite rates_after_keeps_rate.
  assert (Hentry : totals_document model_name P C cost !! model_name
                   = Some (Usage (Int P) (Int C))).
  { unfold totals_document. rewrite lookup_insert_ne by congruence.
    apply lookup_insert_eq. }
  rewrite Hentry. cbn beta iota zeta. rewrite Hentry.
  cbn [default from_option id add_prompt_tokens add_completion_tokens add
    mbind result_bind].
  rewrite Hpc, Hcc.
  unfold add_cost. rewrite lookup_insert_ne by congruence.
  unfold totals_document at 1. rewrite lookup_insert_eq.
  cbn [default from_option id mbind result_bind]. rewrite Hpartial.
  cbn [mbind result_bind]. rewrite Hsum.
  unfold totals_document.
  rewrite (insert_insert_ne _ model_name "overall_cost") by congruence.
  rewrite !insert_insert_eq. reflexivity.
Qed.

(** The first call on an empty document. *)
Lemma update_tokens_usage_first model_name p c t cost' :
  model_name <> "overall_cost" ->
  empty_document t ->
  cost_after (rate_of (COST_RATES t) model_name) (Int 0) (p, c) = Return cost' ->
  update_tokens_usage model_name p c t
  = (Return tt,
     Tracker (rates_after model_name (COST_RATES t))
       (Some (totals_document model_name p c cost'))).
Proof.
  intros Hname Hempty Hcost.
  apply cost_after_return in Hcost.
  destruct Hcost as (pc & cc & partial & Hpc & Hcc & Hpartial & Hsum).
  cbn [fst snd] in Hpc, Hcc.
  assert (Hdoc : default ∅ (tokens_usage_file t) = (∅ : gmap string value))
    by (destruct Hempty as [-> | ->]; reflexivity).
  unfold update_tokens_usage. rewrite Hdoc.
  fold (rates_after model_name (COST_RATES t)).
  fold (rate_of (rates_after model_name (COST_RATES t)) model_name).
  rewrite rates_after_keeps_rate.
  rewrite lookup_empty, lookup_insert_eq.
  cbn [default from_option id add_prompt_tokens add_completion_tokens add
    mbind result_bind].
  rewrite Hpc, Hcc.
  unfold add_cost. rewrite lookup_insert_ne by congruence.
  rewrite lookup_insert_ne by congruence. rewrite lookup_empty.
  cbn [default from_option id mbind result_bind]. rewrite Hpartial.
  cbn [mbind result_bind]. rewrite Hsum.
  unfold totals_document. rewrite insert_insert_eq.
  replace (0 + p) with p by lia. replace (0 + c) with c by lia.
  reflexivity.
Qed.

(** Any number of calls on a document that holds the totals. *)
Lemma run_updates_from model_name calls :
  model_name <> "overall_cost" ->
  forall t P C cost cost',
    tokens_usage_file t = Some (totals_document model_name P C cost) ->
    running_cost (rate_of (COST_RATES t) model_name) cost calls = Return cost' ->
    tokens_usage_file (run_updates model_name calls t)
    = Some (totals_document model_name (P + sum_prompt calls) (C + sum_completion calls)
              cost').
Proof.
  intros Hname. induction calls as [| [p c] calls IH]; intros t P C cost cost' Hfile Hcost.
  - cbn in Hcost. injection Hcost as <-. cbn. rewrite !Z.add_0_r. exact Hfile.
  - cbn [running_cost] in Hcost.
    apply result_bind_return in Hcost. destruct Hcost as (cost1 & Hfirst & Hrest).
    cbn [run_updates foldl fst snd].
    rewrite (update_tokens_usage_step model_name p c t P C cost cost1 Hname Hfile Hfirst).
    cbn [snd]. fold (run_updates model_name calls
                       (Tracker (rates_after model_name (COST_RATES t))
                          (Some (totals_document model_name (P + p) (C + c) cost1)))).
    rewrite (IH _ (P + p) (C + c) cost1 cost').
    + cbn [sum_prompt sum_completion foldr fst snd].
      fold (sum_prompt calls). fold (sum_completion calls).
      f_equal. f_equal; lia.
    + reflexivity.
    + cbn [COST_RATES]. rewrite rates_after_keeps_rate. exact Hrest.
Qed.

(** At the zero rates every call costs the [int] 0. *)
Lemma running_cost_zero_rates calls : running_cost zero_rates (Int 0) calls = Return (Int 0).
Proof.
  induction calls as [| [p c] calls IH]; [reflexivity |].
  cbn [running_cost]. unfold cost_after. cbn [zero_rates prompt_token_cost
    completion_token_cost mul add fst snd mbind result_bind].
  rewrite !Z.mul_0_r. cbn [Z.add]. exact IH.
Qed.

(** At [float] rates the cost is a [float] after the first call, and no
    operation can raise but the conversion of a token count. *)
Lemma running_cost_float_rates x y calls :
  Forall (fun call => convertible call.1 /\ convertible call.2) calls ->
  forall z, exists z',
    running_cost (Rates (Float x) (Float y)) (Float z) calls = Return (Float z').
Proof.
  induction 1 as [| [p c] calls [[fp Hp] [fc Hc]] _ IH]; intros z.
  - exists z. reflexivity.
  - cbn [fst snd] in Hp, Hc. cbn [running_cost]. unfold cost_after.
    cbn [prompt_token_cost completion_token_cost mul add fst snd mbind result_bind].
    rewrite Hp. cbn [mbind result_bind]. rewrite Hc. cbn [mbind result_bind add].
    apply IH.
Qed.

Lemma running_cost_float_rates_first x y calls :
  calls <> [] ->
  Forall (fun call => convertible call.1 /\ convertible call.2) calls ->
  exists z, running_cost (Rates (Float x) (Float y)) (Int 0) calls = Return (Float z).
Proof.
  intros Hne Hcalls. destruct Hcalls as [| [p c] calls [[fp Hp] [fc Hc]] Hcalls];
    [congruence |].
  cbn [fst snd] in Hp, Hc. cbn [running_cost]. unfold cost_after.
  cbn [prompt_token_cost completion_token_cost mul add fst snd mbind result_bind].
  rewrite Hp. cbn [mbind result_bind]. rewrite Hc. cbn [mbind result_bind add].
  change (int_to_float 0) with (Return 0%float : result float).
  cbn [mbind result_bind].
  apply running_cost_float_rates. exact Hcalls.
Qed.

(** The rates of the class body are [float]s. *)
Lemma configured_rates_float model_name r :
  configured_rates !! model_name = Some r ->
  exists x y, r = Rates (Float x) (Float y).
Proof.
  unfold configured_rates. intros Hlook.
  apply lookup_insert_Some in Hlook. destruct Hlook as [[_ <-] | [_ Hlook]]; [eauto |].
  apply lookup_insert_Some in Hlook. destruct Hlook as [[_ <-] | [_ Hlook]]; [eauto |].
  apply lookup_insert_Some in Hlook. destruct Hlook as [[_ <-] | [_ Hlook]]; [eauto |].
  rewrite lookup_empty in Hlook. discriminate.
Qed.


(** ** Concrete documents *)



End TokenTracker64Facts.


(* ===================================================================== *)
(** * The process and the world outside                                    *)
(* ===================================================================== *)
Module World.
Import Py.

(** The provider classes of [llm_services]. *)
Inductive provider := AzureOpenAI | HuggingFace | OpenAI.

(** Vendor client handles, as the SDK constructors are called. *)
Inductive client :=
| AzureClient (api_version api_key azure_endpoint : string)
| InferenceClient (model : option string) (token : option string)
| OpenAIClient (handle : string).

(** Message content: plain text, or the text and image parts
    [make_request_image] builds. *)
Inductive content :=
| Text (text : string)
| TextAndImage (text : content) (image_url : string).

Record message := Message {
  role : string;
  msg_content : content
}.

(** A tool parameter of the JSON schema and a tool definition. *)
Record tool_param := ToolParam {
  param_type : string;
  param_description : string;
  enum : option (list string)
}.

Record tool := Tool {
  tool_name : string;
  tool_description : string;
  properties : list (string * tool_param);
  required : list string
}.

Record tool_call := ToolCall {
  call_id : string;
  call_function : string;
  call_arguments : string
}.

Inductive response_format :=
| JsonObject
| JsonValue (json_scheme : string).

(** The keyword arguments of one chat-completion request. *)
Record request := Request {
  req_client : client;
  req_model : option string;
  req_messages : list message;
  req_temperature : pyfloat;
  req_max_tokens : Z;
  req_response_format : option response_format;
  req_tools : option (list tool);
  req_tool_choice : option string
}.

(** What the sources read of a response: [choices[0].message] and
    [usage]. *)
Record response := Response {
  resp_content : option string;
  resp_tool_calls : option (list tool_call);
  usage_prompt_tokens : Z;
  usage_completion_tokens : Z
}.

(** Effects on the outside, in the order they happen. *)
Inductive event :=
| LoadDotenv
| ListDeployedModels
| CreateClient (c : client)
| ChatCompletion (r : request)
| ReadFile (path : string)
| Printed (line : string)
| Slept (secs : Q).

Definition is_network_call (ev : event) : bool :=
  match ev with
  | ListDeployedModels | ChatCompletion _ => true
  | _ => false
  end.

Definition is_chat_completion (ev : event) : bool :=
  match ev with
  | ChatCompletion _ => true
  | _ => false
  end.

(** A service instance (the attributes [__init__] sets). *)
Record service := Service {
  service_class : provider;
  model_name : string;
  temperature : pyfloat;
  max_tokens : Z;
  service_client : client
}.

(** The key of the factory registry:
    [(model_name, provider, temperature, max_tokens)]. *)
Definition service_key : Type := string * string * pyfloat * Z.

(** The state of the Python process: the registry of the factory, the
    instances by reference, the class state of the tracker with its file,
    and the trace of effects. *)
Record process := Process {
  _services : list (service_key * nat);
  instances : list service;
  token_tracker : TokenTracker.tracker;
  trace : list event
}.

Definition fresh : process := Process [] [] TokenTracker.initial [].

(** The world outside the process: the environment variables (after
    [load_dotenv]), the models the HuggingFace API lists, the answer to
    the [n]-th chat completion sent, and the image files. *)
Record outside := Outside {
  getenv : string -> option string;
  list_deployed_models : result (list string);
  chat_completion : nat -> request -> result response;
  read_image_base64 : string -> result string;
  openai_initialize_client : string -> result client
}.

Definition emit (ev : event) : M process unit :=
  modify (fun p => Process (_services p) (instances p) (token_tracker p) (trace p ++ [ev])).

#[export] Instance process_runtime : Runtime process := {
  stdout_write line p :=
    Process (_services p) (instances p) (token_tracker p) (trace p ++ [Printed line]);
  clock_advance secs p :=
    Process (_services p) (instances p) (token_tracker p) (trace p ++ [Slept secs])
}.

(** A result of the outside, delivered into the process. *)
Definition deliver {A} (r : result A) : M process A := fun p => (r, p).

(** A call of the vendor SDK: the request goes out, then the answer (or
    the error) comes back. *)
Definition send (o : outside) (r : request) : M process response :=
  fun p =>
    let n := length (List.filter is_chat_completion (trace p)) in
    (emit (ChatCompletion r);; deliver (chat_completion o n r)) p.

(** [self.token_tracker.update_tokens_usage(...)] on the shared tracker. *)
Definition update_tokens_usage (model : string) (prompt_tokens completion_tokens : Z)
    : M process unit :=
  fun p =>
    let '(r, t) := TokenTracker.update_tokens_usage model prompt_tokens completion_tokens
                     (token_tracker p) in
    (r, Process (_services p) (instances p) t (trace p)).

(** Truthiness of an optional string or list: [None] and the empty value
    are falsy. *)
Definition opt_str_truthy (s : option string) : bool :=
  match s with Some s => str_truthy s | None => false end.

Definition opt_list_truthy {A} (l : option (list A)) : bool :=
  match l with Some (_ :: _) => true | _ => false end.

End World.

(* ===================================================================== *)
(** * llm_services/llm_interface.py                                        *)
(* ===================================================================== *)
Module LLMService.
Import Py World.

(** [LLMService.__init__], with the [initialize_client] of the subclass.
    The two checks come first; [load_dotenv] and the client follow. *)
Definition __init__ (cls : provider) (initialize_client : string -> M process client)
    (model_name : string) (temperature : pyfloat) (max_tokens : Z) : M process service :=
  if (float_value temperature <? 0)%float || (2 <? float_value temperature)%float then
    raise (Exn ValueError "Temperature must be between 0 and 2." None)
  else if max_tokens <? 1 then
    raise (Exn ValueError "Max tokens must be greater than 0." None)
  else
    emit LoadDotenv;;
    client ← initialize_client model_name;
    mret (Service cls model_name temperature max_tokens client).

(** The selection every [api_call] of [make_request_with_tools] makes from
    [response.choices[0].message], as the docstring of the interface states
    it: the tool calls when only they are asked for; otherwise the text if
    no tool is called and the tool calls if one is. *)
Inductive tool_reply :=
| ReplyText (text : option string)
| ReplyToolCalls (calls : option (list tool_call)).

Definition tool_reply_contract (return_only_tool_response : bool) (r : response)
    : tool_reply :=
  if return_only_tool_response then ReplyToolCalls (resp_tool_calls r)
  else match resp_tool_calls r with
       | Some (_ :: _) => ReplyToolCalls (resp_tool_calls r)
       | _ => ReplyText (resp_content r)
       end.

End LLMService.

(* ===================================================================== *)
(** * llm_services/azure_openai_service.py                                 *)
(* ===================================================================== *)
Module AzureOpenAIService.
Import Py World Retry LLMService.

Definition initialize_client (o : outside) (_ : string) : M process client :=
  let api_key := getenv o "AZURE_OPENAI_KEY" in
  let endpoint := getenv o "AZURE_OPENAI_ENDPOINT" in
  if negb (opt_str_truthy api_key) || negb (opt_str_truthy endpoint) then
    raise (Exn EnvironmentError
             "Azure OpenAI API key or endpoint not found in environment variables." None)
  else
    let c := AzureClient "2023-05-15" (default "" api_key) (default "" endpoint) in
    emit (CreateClient c);; mret c.

Definition __init__ (o : outside) (model_name : string) (temperature : pyfloat)
    (max_tokens : Z) : M process service :=
  LLMService.__init__ AzureOpenAI (initialize_client o) model_name temperature max_tokens.

Definition create (self : service) (messages : list message)
    (fmt : option response_format) (tools : option (list tool))
    (tool_choice : option string) : request :=
  Request (service_client self) (Some (model_name self)) messages
    (temperature self) (max_tokens self) fmt tools tool_choice.

(** The [api_call] closures: send, track the usage, return. *)
Definition api_call_content (o : outside) (self : service) (r : request)
    : M process (option string) :=
  response ← send o r;
  update_tokens_usage (model_name self) (usage_prompt_tokens response)
    (usage_completion_tokens response);;
  mret (resp_content response).

Definition make_request (o : outside) (self : service) (messages : list message)
    : M process (option (option string)) :=
  retry_request (api_call_content o self (create self messages None None None))
    default_retries default_wait_time.

Definition json_instruction : string :=
  " Your task is to return the response in JSON format.".

(** [not ("JSON" or "json" in messages[0].content)].  [in] binds tighter
    than [or], and [or] evaluates its right operand only when the left one
    is falsy. *)
Definition json_instruction_missing (messages : list message) : result bool :=
  if str_truthy "JSON" then Return (negb (str_truthy "JSON"))
  else
    match messages with
    | [] => Raise (Exn IndexError "list index out of range" None)
    | first :: _ =>
        match msg_content first with
        | Text text => Return (negb (str_contains "json" text))
        | TextAndImage _ _ => Return (negb false)
        end
    end.

(** [messages[0].content += json_instruction] (on a text content). *)
Definition append_instruction (messages : list message) : list message :=
  match messages with
  | [] => []
  | first :: rest =>
      match msg_content first with
      | Text text => Message (role first) (Text (text +:+ json_instruction)) :: rest
      | TextAndImage _ _ => first :: rest
      end
  end.

(** The caller's list after the check at the head of
    [make_request_json]. *)
Definition json_messages (messages : list message) : result (list message) :=
  match json_instruction_missing messages with
  | Return true => Return (append_instruction messages)
  | Return false => Return messages
  | Raise e => Raise e
  end.

Definition make_request_json (o : outside) (self : service)
    (messages : list message) (json_scheme : string)
    : M process (option (option string)) :=
  messages ← deliver (json_messages messages);
  retry_request
    (api_call_content o self (create self messages (Some JsonObject) None None))
    default_retries default_wait_time.

(** The choice at the end of the [api_call] of
    [make_request_with_tools]. *)
Definition response_message (return_only_tool_response : bool) (r : response)
    : tool_reply :=
  if return_only_tool_response then
    ReplyToolCalls (resp_tool_calls r)
  else
    if negb (opt_list_truthy (resp_tool_calls r)) then
      ReplyText (resp_content r)
    else
      ReplyToolCalls (resp_tool_calls r).

Definition api_call_tools (o : outside) (self : service) (r : request)
    (return_only_tool_response : bool) : M process tool_reply :=
  response ← send o r;
  update_tokens_usage (model_name self) (usage_prompt_tokens response)
    (usage_completion_tokens response);;
  mret (response_message return_only_tool_response response).

Definition make_request_with_tools (o : outside) (self : service)
    (messages : list message) (tools : list tool)
    (parallel_tool_calls return_only_tool_response : bool)
    : M process (option tool_reply) :=
  retry_request
    (api_call_tools o self (create self messages None (Some tools) (Some "auto"))
       return_only_tool_response)
    default_retries default_wait_time.

(** The allow-list of [make_request_image]. *)
Definition vision_models : list string := ["gpt-4o"; "gpt-4o-mini"; "gpt-4-turbo"].

Definition vision_error : exn :=
  Exn ValueError
    "Use a model with vision capabilities for image requests. The following models support images: gpt-4o, gpt-4o-mini, gpt-4-turbo."
    None.

(** [utils/image_encoding.py]: read the file, encode it. *)
Definition encode_image (o : outside) (image_path : string) : M process string :=
  emit (ReadFile image_path);; deliver (read_image_base64 o image_path).

(** [messages[-1] = user_prompt], with [user_prompt] built from
    [messages[-1]["content"]]. *)
Definition attach_image (messages : list message) (base64_image : string)
    : result (list message) :=
  match last messages with
  | None => Raise (Exn IndexError "list index out of range" None)
  | Some final =>
      Return (removelast messages ++
              [Message "user"
                 (TextAndImage (msg_content final)
                    ("data:image/jpeg;base64," +:+ base64_image))])%list
  end.

Definition make_request_image (o : outside) (self : service)
    (messages : list message) (image_path : string)
    : M process (option (option string)) :=
  if negb (bool_decide (model_name self ∈ vision_models)) then
    raise vision_error
  else
    base64_image ← encode_image o image_path;
    messages ← deliver (attach_image messages base64_image);
    retry_request (api_call_content o self (create self messages None None None))
      default_retries default_wait_time.

End AzureOpenAIService.

(* ===================================================================== *)
(** * llm_services/huggingface_service.py                                  *)
(* ===================================================================== *)
Module HuggingFaceService.
Import Py World Retry LLMService.

(** [_get_available_models]: one call of the HuggingFace API. *)
Definition _get_available_models (o : outside) : M process (list string) :=
  emit (CreateClient (InferenceClient None (getenv o "HUGGINGFACE_API_TOKEN")));;
  emit ListDeployedModels;;
  deliver (list_deployed_models o).

Definition initialize_client (o : outside) (model_name : string) : M process client :=
  models ← _get_available_models o;
  if negb (bool_decide (model_name ∈ models)) then
    raise (Exn ValueError
             ("Model '" +:+ model_name +:+
              "' is not available. Call `_get_available_models` to see all available models.")
             None)
  else
    let c := InferenceClient (Some model_name) (getenv o "HUGGINGFACE_API_TOKEN") in
    emit (CreateClient c);; mret c.

Definition __init__ (o : outside) (model_name : string) (temperature : pyfloat)
    (max_tokens : Z) : M process service :=
  LLMService.__init__ HuggingFace (initialize_client o) model_name temperature max_tokens.

Definition chat_completion_request (self : service) (messages : list message)
    (fmt : option response_format) (tools : option (list tool))
    (tool_choice : option string) : request :=
  Request (service_client self) None messages
    (temperature self) (max_tokens self) fmt tools tool_choice.

Definition api_call_content (o : outside) (self : service) (r : request)
    : M process (option string) :=
  response ← send o r;
  update_tokens_usage (model_name self) (usage_prompt_tokens response)
    (usage_completion_tokens response);;
  mret (resp_content response).

Definition make_request (o : outside) (self : service) (messages : list message)
    : M process (option (option string)) :=
  retry_request
    (api_call_content o self (chat_completion_request self messages None None None))
    default_retries default_wait_time.

Definition make_request_json (o : outside) (self : service)
    (messages : list message) (json_scheme : string)
    : M process (option (option string)) :=
  retry_request
    (api_call_content o self
       (chat_completion_request self messages (Some (JsonValue json_scheme)) None None))
    default_retries default_wait_time.

(** [if 'enum' in param and not param['enum']: del param['enum']]. *)
Definition strip_empty_enum (param : tool_param) : tool_param :=
  match enum param with
  | Some [] => ToolParam (param_type param) (param_description param) None
  | _ => param
  end.

Definition strip_empty_enums (tools : list tool) : list tool :=
  map (fun t => Tool (tool_name t) (tool_description t)
                  (map (fun '(name, param) => (name, strip_empty_enum param)) (properties t))
                  (required t))
      tools.

(** The choice at the end of the [api_call] of [make_request_with_tools],
    with the inner test written twice as in the source. *)
Definition response_message (return_only_tool_response : bool) (r : response)
    : tool_reply :=
  if return_only_tool_response then
    ReplyToolCalls (resp_tool_calls r)
  else
    if negb (opt_list_truthy (resp_tool_calls r)) then
      ReplyText (resp_content r)
    else
      if negb (opt_list_truthy (resp_tool_calls r)) then
        ReplyText (resp_content r)
      else
        ReplyToolCalls (resp_tool_calls r).

Definition api_call_tools (o : outside) (self : service) (r : request)
    (return_only_tool_response : bool) : M process tool_reply :=
  response ← send o r;
  update_tokens_usage (model_name self) (usage_prompt_tokens response)
    (usage_completion_tokens response);;
  mret (response_message return_only_tool_response response).

Definition make_request_with_tools (o : outside) (self : service)
    (messages : list message) (tools : list tool)
    (parallel_tool_calls return_only_tool_response : bool)
    : M process (option tool_reply) :=
  if parallel_tool_calls then
    raise (Exn ValueError "Hugging Face models do not support parallel tool calls." None)
  else
    let tools := strip_empty_enums tools in
    retry_request
      (api_call_tools o self
         (chat_completion_request self messages None (Some tools) (Some "auto"))
         return_only_tool_response)
      default_retries default_wait_time.

Definition make_request_image (o : outside) (self : service)
    (messages : list message) (image_path : string)
    : M process (option (option string)) :=
  raise (Exn NotImplementedError
           "Method `make_request_image` is not implemented for HuggingFace models." None).

End HuggingFaceService.

(* ===================================================================== *)
(** * llm_services/openai_service.py                                       *)
(* ===================================================================== *)
Module OpenAIService.
Import Py World.

(** Modelled from the spec: [llm_services/openai_service.py] is imported
    by the factory but is not among the sources.  The specification gives
    all providers the shared construction-time validation, so the
    constructor delegates to [LLMService.__init__] as its two siblings do;
    what its [initialize_client] does is left to the world outside. *)
Definition initialize_client (o : outside) (model_name : string) : M process client :=
  c ← deliver (openai_initialize_client o model_name);
  emit (CreateClient c);; mret c.

(** Modelled from the spec: the constructor of [OpenAIService], written
    as the constructors of [AzureOpenAIService] and [HuggingFaceService]
    are. *)
Definition __init__ (o : outside) (model_name : string) (temperature : pyfloat)
    (max_tokens : Z) : M process service :=
  LLMService.__init__ OpenAI (initialize_client o) model_name temperature max_tokens.

End OpenAIService.

(* ===================================================================== *)
(** * LLMServiceFactory.py                                                 *)
(* ===================================================================== *)
Module LLMServiceFactory.
Import Py World.

(** Equality of registry keys as the [dict] tests it: field by field,
    each field by identity or [==]. *)
Definition key_eqb (k1 k2 : service_key) : bool :=
  let '(model1, provider1, temperature1, max_tokens1) := k1 in
  let '(model2, provider2, temperature2, max_tokens2) := k2 in
  String.eqb model1 model2 && String.eqb provider1 provider2
  && float_same temperature1 temperature2 && (max_tokens1 =? max_tokens2).

(** [cls._services[key]], [None] when [key not in cls._services]. *)
Fixpoint lookup_service (key : service_key) (registry : list (service_key * nat))
    : option nat :=
  match registry with
  | [] => None
  | (k, ref) :: rest => if key_eqb k key then Some ref else lookup_service key rest
  end.

(** [cls._services[key] = <new instance>]: the instance is allocated and
    the key is added to the registry. *)
Definition store (key : service_key) (instance : service) : M process unit :=
  modify (fun p => Process (_services p ++ [(key, length (instances p))])
                     (instances p ++ [instance]) (token_tracker p) (trace p)).

Definition unsupported_provider (provider : string) : exn :=
  Exn ValueError
    ("Unsupported provider: " +:+ provider +:+
     ". Supported providers: AzureOpenAI, HuggingFace and OpenAI.") None.

(** The defaults of the signature. *)
Definition default_temperature : pyfloat := float_obj 1.0.
Definition default_max_tokens : Z := 4096.

Definition get_service (o : outside) (model_name provider : string)
    (temperature : pyfloat) (max_tokens : Z) : M process nat :=
  let key := (model_name, provider, temperature, max_tokens) in
  p ← get;
  (if negb (bool_decide (is_Some (lookup_service key (_services p)))) then
     if String.eqb provider "AzureOpenAI" then
       instance ← AzureOpenAIService.__init__ o model_name temperature max_tokens;
       store key instance
     else if String.eqb provider "HuggingFace" then
       instance ← HuggingFaceService.__init__ o model_name temperature max_tokens;
       store key instance
     else if String.eqb provider "OpenAI" then
       instance ← OpenAIService.__init__ o model_name temperature max_tokens;
       store key instance
     else
       raise (unsupported_provider provider)
   else mret tt);;
  p ← get;
  match lookup_service key (_services p) with
  | Some ref => mret ref
  | None => raise (Exn KeyError "key" None)
  end.

End LLMServiceFactory.

(* ===================================================================== *)
(** * Properties of the services                                           *)
(* ===================================================================== *)
Module ServiceFacts.
Import Py World Retry LLMService.

(** The constructor the factory calls for a provider class. *)
Definition construct (o : outside) (cls : provider)
    : string -> pyfloat -> Z -> M process service :=
  match cls with
  | AzureOpenAI => AzureOpenAIService.__init__ o
  | HuggingFace => HuggingFaceService.__init__ o
  | OpenAI => OpenAIService.__init__ o
  end.

(** The error of the first failing check of [LLMService.__init__]. *)
Definition validation_error (temperature : pyfloat) (max_tokens : Z) : exn :=
  if (float_value temperature <? 0)%float || (2 <? float_value temperature)%float then
    Exn ValueError "Temperature must be between 0 and 2." None
  else
    Exn ValueError "Max tokens must be greater than 0." None.

(** A temperature in the closed interval [0, 2]; false for NaN. *)
Definition in_range (temperature : pyfloat) : bool :=
  (0 <=? float_value temperature)%float && (float_value temperature <=? 2)%float.

Lemma init_rejects cls initialize_client model_name temperature max_tokens p :
  (float_value temperature <? 0)%float = true
  \/ (2 <? float_value temperature)%float = true
  \/ max_tokens < 1 ->
  LLMService.__init__ cls initialize_client model_name temperature max_tokens p
  = (Raise (validation_error temperature max_tokens), p).
Proof.
  intros Hbad. unfold LLMService.__init__, validation_error.
  destruct ((float_value temperature <? 0)%float || (2 <? float_value temperature)%float)
    eqn:Ht; [reflexivity |].
  apply orb_false_iff in Ht. destruct Ht as [Hlow Hhigh].
  destruct Hbad as [Hbad | [Hbad | Hbad]].
  - congruence.
  - congruence.
  - destruct (Z.ltb_spec max_tokens 1) as [_ | Hge]; [reflexivity | lia].
Qed.

(** A number outside [0, 2] is below 0 or above 2. *)
Lemma out_of_range_fails (temperature : pyfloat) :
  is_nan (float_value temperature) = false ->
  in_range temperature = false ->
  (float_value temperature <? 0)%float = true
  \/ (2 <? float_value temperature)%float = true.
Proof.
  intros Hnum Hout. unfold in_range in Hout. apply andb_false_iff in Hout.
  destruct Hout as [Hlow | Hhigh].
  - left. apply FloatFacts.not_leb_ltb; [reflexivity | exact Hnum | exact Hlow].
  - right. apply FloatFacts.not_leb_ltb; [exact Hnum | reflexivity | exact Hhigh].
Qed.


(** C9.  [make_request_image] of the Azure service with a model outside
    the allow-list raises the [ValueError] of the capability check; the
    HuggingFace one raises [NotImplementedError] for every service,
    whatever its model name, the names of the allow-list included.  In
    both cases the process is left as it was: no file is read and no
    request is sent. *)
Theorem make_request_image_unsupported (o : outside) (self : service)
    (messages : list message) (image_path : string) (p : process) :
  (model_name self ∉ ["gpt-4o"; "gpt-4o-mini"; "gpt-4-turbo"] ->
   AzureOpenAIService.make_request_image o self messages image_path p
   = (Raise AzureOpenAIService.vision_error, p))
  /\ exn_cls AzureOpenAIService.vision_error = ValueError
  /\ HuggingFaceService.make_request_image o self messages image_path p
    = (Raise (Exn NotImplementedError
                "Method `make_request_image` is not implemented for HuggingFace models."
                None), p).
Proof.
  split; [| split; reflexivity].
  intros Hout.
  unfold AzureOpenAIService.make_request_image.
  rewrite bool_decide_eq_false_2 by exact Hout. reflexivity.
Qed.

(** The HuggingFace service refuses whatever the model. *)
Lemma huggingface_image_always_refused o self messages image_path p :
  exists e, HuggingFaceService.make_request_image o self messages image_path p = (Raise e, p)
            /\ exn_cls e = NotImplementedError.
Proof. eexists. split; reflexivity. Qed.

Lemma azure_response_message_spec only r :
  AzureOpenAIService.response_message only r = tool_reply_contract only r.
Proof.
  unfold AzureOpenAIService.response_message, tool_reply_contract, opt_list_truthy.
  destruct only; [reflexivity |].
  destruct (resp_tool_calls r) as [[| call calls] |]; reflexivity.
Qed.

Lemma huggingface_response_message_spec only r :
  HuggingFaceService.response_message only r = tool_reply_contract only r.
Proof.
  unfold HuggingFaceService.response_message, tool_reply_contract, opt_list_truthy.
  destruct only; [reflexivity |].
  destruct (resp_tool_calls r) as [[| call calls] |]; reflexivity.
Qed.

(** ** Requests as they go out *)

Definition chat_count (p : process) : nat :=
  length (List.filter is_chat_completion (trace p)).

Definition logged (ev : event) (p : process) : process :=
  Process (_services p) (instances p) (token_tracker p) (trace p ++ [ev]).

Definition tracked (t : TokenTracker.tracker) (p : process) : process :=
  Process (_services p) (instances p) t (trace p).

Lemma send_unfold o r p :
  send o r p = (chat_completion o (chat_count p) r, logged (ChatCompletion r) p).
Proof.
  unfold send, chat_count, logged, emit, deliver, modify.
  cbn. destruct (chat_completion o _ r); reflexivity.
Qed.

Lemma chat_count_printed line p : chat_count (stdout_write line p) = chat_count p.
Proof.
  unfold chat_count. cbn [stdout_write process_runtime trace].
  rewrite List.filter_app, length_app. cbn. lia.
Qed.

(** An [api_call] whose request is answered and whose usage is recorded. *)
Lemma api_call_answered {A} (select : response -> A) o model r p resp t' :
  chat_completion o (chat_count p) r = Return resp ->
  TokenTracker.update_tokens_usage model (usage_prompt_tokens resp)
    (usage_completion_tokens resp) (token_tracker p) = (Return tt, t') ->
  (response ← send o r;
   update_tokens_usage model (usage_prompt_tokens response)
     (usage_completion_tokens response);;
   mret (select response)) p
  = (Return (select resp), tracked t' (logged (ChatCompletion r) p)).
Proof.
  intros Hanswer Htrack.
  unfold mbind, M_bind, bind. rewrite send_unfold, Hanswer.
  unfold update_tokens_usage. cbn [token_tracker logged]. rewrite Htrack.
  reflexivity.
Qed.

(** With the request answered at the first attempt, the Azure
    [make_request_with_tools] returns the reply of the contract. *)
Lemma azure_with_tools_answered o self messages tools parallel only p resp t' :
  let r := AzureOpenAIService.create self messages None (Some tools) (Some "auto") in
  chat_completion o (chat_count p) r = Return resp ->
  TokenTracker.update_tokens_usage (model_name self) (usage_prompt_tokens resp)
    (usage_completion_tokens resp) (token_tracker p) = (Return tt, t') ->
  AzureOpenAIService.make_request_with_tools o self messages tools parallel only p
  = (Return (Some (tool_reply_contract only resp)),
     tracked t' (logged (ChatCompletion r) (logged (Printed "!") p))).
Proof.
  intros r Hanswer Htrack.
  unfold AzureOpenAIService.make_request_with_tools.
  apply (RetryFacts.retry_request_success _ default_retries default_wait_time 0%nat p []
           (stdout_write "!" p)).
  - discriminate.
  - reflexivity.
  - constructor.
  - unfold AzureOpenAIService.api_call_tools.
    rewrite (api_call_answered (AzureOpenAIService.response_message only) o
               (model_name self) r (stdout_write "!" p) resp t').
    + rewrite azure_response_message_spec. reflexivity.
    + rewrite chat_count_printed. exact Hanswer.
    + exact Htrack.
Qed.

(** The same for the HuggingFace service, which refuses parallel tool
    calls and sends the tools without their empty [enum] lists. *)
Lemma huggingface_with_tools_answered o self messages tools only p resp t' :
  let r := HuggingFaceService.chat_completion_request self messages None
             (Some (HuggingFaceService.strip_empty_enums tools)) (Some "auto") in
  chat_completion o (chat_count p) r = Return resp ->
  TokenTracker.update_tokens_usage (model_name self) (usage_prompt_tokens resp)
    (usage_completion_tokens resp) (token_tracker p) = (Return tt, t') ->
  HuggingFaceService.make_request_with_tools o self messages tools false only p
  = (Return (Some (tool_reply_contract only resp)),
     tracked t' (logged (ChatCompletion r) (logged (Printed "!") p))).
Proof.
  intros r Hanswer Htrack.
  unfold HuggingFaceService.make_request_with_tools.
  apply (RetryFacts.retry_request_success _ default_retries default_wait_time 0%nat p []
           (stdout_write "!" p)).
  - discriminate.
  - reflexivity.
  - constructor.
  - unfold HuggingFaceService.api_call_tools.
    rewrite (api_call_answered (HuggingFaceService.response_message only) o
               (model_name self) r (stdout_write "!" p) resp t').
    + rewrite huggingface_response_message_spec. reflexivity.
    + rewrite chat_count_printed. exact Hanswer.
    + exact Htrack.
Qed.

Lemma huggingface_parallel_refused o self messages tools only p :
  exists e, HuggingFaceService.make_request_with_tools o self messages tools true only p
            = (Raise e, p) /\ exn_cls e = ValueError.
Proof. eexists. split; reflexivity. Qed.

(** ** The JSON instruction of the Azure service *)

(** What the comment above the test asks for: the instruction is missing
    when neither spelling occurs in the first message. *)
Definition mentions_json (text : string) : bool :=
  str_contains "JSON" text || str_contains "json" text.

(** The left operand of the [or] is a non-empty literal, so the test is
    false for every list of messages, the empty one included. *)
Lemma json_instruction_missing_never messages :
  AzureOpenAIService.json_instruction_missing messages = Return false.
Proof. reflexivity. Qed.

Lemma json_messages_unchanged messages :
  AzureOpenAIService.json_messages messages = Return messages.
Proof. reflexivity. Qed.

(** The request [make_request_json] sends first carries the messages it
    was given. *)
Lemma make_request_json_sends_unchanged o self messages json_scheme p resp t' :
  let r := AzureOpenAIService.create self messages (Some JsonObject) None None in
  chat_completion o (chat_count p) r = Return resp ->
  TokenTracker.update_tokens_usage (model_name self) (usage_prompt_tokens resp)
    (usage_completion_tokens resp) (token_tracker p) = (Return tt, t') ->
  AzureOpenAIService.make_request_json o self messages json_scheme p
  = (Return (Some (resp_content resp)),
     tracked t' (logged (ChatCompletion r) (logged (Printed "!") p))).
Proof.
  intros r Hanswer Htrack.
  unfold AzureOpenAIService.make_request_json.
  unfold mbind at 1, M_bind at 1, bind at 1, deliver at 1.
  rewrite json_messages_unchanged.
  apply (RetryFacts.retry_request_success _ default_retries default_wait_time 0%nat p []
           (stdout_write "!" p)).
  - discriminate.
  - reflexivity.
  - constructor.
  - unfold AzureOpenAIService.api_call_content.
    rewrite (api_call_answered resp_content o (model_name self) r
               (stdout_write "!" p) resp t').
    + reflexivity.
    + rewrite chat_count_printed. exact Hanswer.
    + exact Htrack.
Qed.

(** ** A concrete world *)

Definition demo_response : response := Response (Some "{}") None 12 3.

Definition demo_outside : outside := {|
  getenv name :=
    if String.eqb name "AZURE_OPENAI_KEY" then Some "secret"
    else if String.eqb name "AZURE_OPENAI_ENDPOINT" then Some "https://example.openai.azure.com"
    else None;
  list_deployed_models := Return ["meta-llama/Meta-Llama-3-8B-Instruct"];
  chat_completion _ _ := Return demo_response;
  read_image_base64 _ := Raise (Exn FileNotFoundError "No such file or directory" None);
  openai_initialize_client _ := Return (OpenAIClient "openai")
|}.

Definition demo_azure : service :=
  Service AzureOpenAI "gpt-35-turbo" (float_obj 1) 4096
    (AzureClient "2023-05-15" "secret" "https://example.openai.azure.com").

Definition demo_huggingface : service :=
  Service HuggingFace "meta-llama/Meta-Llama-3-8B-Instruct" (float_obj 1) 4096
    (InferenceClient (Some "meta-llama/Meta-Llama-3-8B-Instruct") None).

Definition plain_messages : list message :=
  [Message "system" (Text "You are a helpful assistant.");
   Message "user" (Text "List three colours.")].

(** C2 (the code at the failing input).  The first message mentions JSON
    in neither spelling, yet the request that goes out carries the
    messages as they were given: the instruction has not been appended. *)
Theorem make_request_json_instruction_not_appended :
  mentions_json "You are a helpful assistant." = false
  /\ AzureOpenAIService.json_messages plain_messages = Return plain_messages
  /\ trace (snd (AzureOpenAIService.make_request_json demo_outside demo_azure
                    plain_messages "{}" fresh))
     = [Printed "!";
        ChatCompletion
          (AzureOpenAIService.create demo_azure plain_messages (Some JsonObject) None None)].
Proof. repeat split; vm_compute; reflexivity. Qed.



(** A HuggingFace service whose model bears a name of the Azure
    allow-list. *)
Definition namesake_huggingface : service :=
  Service HuggingFace "gpt-4o" (float_obj 1) 4096 (InferenceClient (Some "gpt-4o") None).

Lemma make_request_image_unsupported_witness :
  AzureOpenAIService.make_request_image demo_outside demo_azure plain_messages
    "photo.jpg" fresh
  = (Raise AzureOpenAIService.vision_error, fresh)
  /\ HuggingFaceService.make_request_image demo_outside namesake_huggingface plain_messages
       "photo.jpg" fresh
     = (Raise (Exn NotImplementedError
                 "Method `make_request_image` is not implemented for HuggingFace models."
                 None), fresh).
Proof.
  split.
  - refine (proj1 (make_request_image_unsupported demo_outside demo_azure plain_messages
                     "photo.jpg" fresh) _).
    apply (bool_decide_eq_false_1
             (model_name demo_azure ∈ ["gpt-4o"; "gpt-4o-mini"; "gpt-4-turbo"])).
    vm_compute. reflexivity.
  - exact (proj2 (proj2 (make_request_image_unsupported demo_outside namesake_huggingface
                           plain_messages "photo.jpg" fresh))).
Defined.

End ServiceFacts.

(* ===================================================================== *)
(** * Properties of the factory                                            *)
(* ===================================================================== *)
Module FactoryFacts.
Import Py World LLMServiceFactory.

Lemma key_eqb_refl (key : service_key) : key_eqb key key = true.
Proof.
  destruct key as [[[model provider] temperature] max_tokens]. unfold key_eqb.
  rewrite !String.eqb_refl, Z.eqb_refl, FloatFacts.float_same_refl. reflexivity.
Qed.

Lemma lookup_service_app key registry key' ref :
  lookup_service key (registry ++ [(key', ref)])
  = match lookup_service key registry with
    | Some found => Some found
    | None => if key_eqb key' key then Some ref else None
    end.
Proof.
  induction registry as [| [k r] registry IH]; cbn.
  - reflexivity.
  - destruct (key_eqb k key); [reflexivity | exact IH].
Qed.

(** A registered key is answered from the registry: nothing is built and
    nothing changes. *)
Lemma get_service_hit o model_name provider temperature max_tokens p ref :
  lookup_service (model_name, provider, temperature, max_tokens) (_services p) = Some ref ->
  get_service o model_name provider temperature max_tokens p = (Return ref, p).
Proof.
  intros Hhit. unfold get_service.
  unfold mbind, M_bind, bind, get. cbn beta iota.
  rewrite Hhit.
  rewrite bool_decide_eq_true_2 by (eexists; reflexivity).
  cbn. rewrite Hhit. reflexivity.
Qed.

(** Whatever [get_service] returns is what the registry holds for the key
    afterwards. *)
Lemma get_service_registered o model_name provider temperature max_tokens p ref p' :
  get_service o model_name provider temperature max_tokens p = (Return ref, p') ->
  lookup_service (model_name, provider, temperature, max_tokens) (_services p') = Some ref.
Proof.
  unfold get_service. unfold mbind at 1, M_bind at 1, bind at 1, get at 1.
  unfold mbind at 1, M_bind at 1, bind at 1.
  match goal with |- context [match ?body p with _ => _ end] =>
    destruct (body p) as [[[] | e] p2] end; [| discriminate].
  unfold mbind, M_bind, bind, get.
  destruct (lookup_service _ (_services p2)) as [found |] eqn:Hfound.
  - cbn. intros [= <- <-]. exact Hfound.
  - cbn. discriminate.
Qed.

(** Keys that are equal as Python tuples (for instance with the
    temperature given as [1] and as [1.0]) name the same entry. *)
Lemma key_eqb_sym (k1 k2 : service_key) : key_eqb k1 k2 = key_eqb k2 k1.
Proof.
  destruct k1 as [[[m1 p1] t1] n1], k2 as [[[m2 p2] t2] n2]. unfold key_eqb.
  rewrite (String.eqb_sym m1 m2), (String.eqb_sym p1 p2), (Z.eqb_sym n1 n2).
  rewrite (FloatFacts.float_same_sym t1 t2). reflexivity.
Qed.

Lemma key_eqb_trans (k1 k2 k3 : service_key) :
  key_eqb k1 k2 = true -> key_eqb k2 k3 = true -> key_eqb k1 k3 = true.
Proof.
  destruct k1 as [[[m1 p1] t1] n1], k2 as [[[m2 p2] t2] n2], k3 as [[[m3 p3] t3] n3].
  unfold key_eqb. rewrite !andb_true_iff.
  intros [[[Hm Hp] Ht] Hn] [[[Hm' Hp'] Ht'] Hn'].
  apply String.eqb_eq in Hm, Hp, Hm', Hp'. apply Z.eqb_eq in Hn, Hn'. subst.
  repeat split.
  - apply String.eqb_refl.
  - apply String.eqb_refl.
  - exact (FloatFacts.float_same_trans _ _ _ Ht Ht').
  - apply Z.eqb_refl.
Qed.

Lemma lookup_service_equal_keys k1 k2 registry :
  key_eqb k1 k2 = true -> lookup_service k1 registry = lookup_service k2 registry.
Proof.
  intros Heq. induction registry as [| [k r] registry IH]; cbn; [reflexivity |].
  assert (Hk : key_eqb k k1 = key_eqb k k2).
  { destruct (key_eqb k k1) eqn:H1, (key_eqb k k2) eqn:H2; try reflexivity.
    - rewrite (key_eqb_trans k k1 k2 H1 Heq) in H2. discriminate.
    - rewrite key_eqb_sym in Heq.
      rewrite (key_eqb_trans k k2 k1 H2 Heq) in H1. discriminate. }
  rewrite Hk, IH. reflexivity.
Qed.

Lemma get_service_equal_keys o o' model_name provider temperature max_tokens
    model_name' provider' temperature' max_tokens' p p' ref :
  key_eqb (model_name, provider, temperature, max_tokens)
          (model_name', provider', temperature', max_tokens') = true ->
  get_service o model_name provider temperature max_tokens p = (Return ref, p') ->
  get_service o' model_name' provider' temperature' max_tokens' p' = (Return ref, p').
Proof.
  intros Heq Hfirst. apply get_service_hit.
  rewrite <- (lookup_service_equal_keys _ _ (_services p') Heq).
  exact (get_service_registered o model_name provider temperature max_tokens p ref p' Hfirst).
Qed.

(** A provider name outside the three recognised ones, for a key that is
    not registered, raises [ValueError] and changes nothing. *)
Lemma get_service_unsupported o model_name provider temperature max_tokens p :
  lookup_service (model_name, provider, temperature, max_tokens) (_services p) = None ->
  provider <> "AzureOpenAI" -> provider <> "HuggingFace" -> provider <> "OpenAI" ->
  get_service o model_name provider temperature max_tokens p
  = (Raise (unsupported_provider provider), p).
Proof.
  intros Hmiss Hazure Hhf Hopenai. unfold get_service.
  unfold mbind, M_bind, bind, get. cbn beta iota.
  rewrite Hmiss.
  rewrite bool_decide_eq_false_2 by (intros [x Hx]; discriminate).
  cbn [negb].
  apply String.eqb_neq in Hazure, Hhf, Hopenai.
  rewrite Hazure, Hhf, Hopenai. reflexivity.
Qed.

Definition after_first_request : process :=
  snd (get_service ServiceFacts.demo_outside "gpt-4o" "AzureOpenAI"
         default_temperature default_max_tokens fresh).

Example first_request_builds :
  get_service ServiceFacts.demo_outside "gpt-4o" "AzureOpenAI"
    default_temperature default_max_tokens fresh
  = (Return 0%nat,
     Process [(("gpt-4o", "AzureOpenAI", default_temperature, default_max_tokens), 0%nat)]
       [Service AzureOpenAI "gpt-4o" default_temperature default_max_tokens
          (AzureClient "2023-05-15" "secret" "https://example.openai.azure.com")]
       TokenTracker.initial
       [LoadDotenv;
        CreateClient (AzureClient "2023-05-15" "secret" "https://example.openai.azure.com")]).
Proof. vm_compute. reflexivity. Qed.

(** The same model and provider with another temperature is another key:
    a second instance is built and registered. *)
Example other_temperature_builds_again :
  fst (get_service ServiceFacts.demo_outside "gpt-4o" "AzureOpenAI"
         (float_obj 0.5) default_max_tokens after_first_request)
  = Return 1%nat.
Proof. vm_compute. reflexivity. Qed.

End FactoryFacts.

(* ===================================================================== *)
(** * More on [retry_request]: what it never does                          *)
(* ===================================================================== *)
Module RetryMore.
Import Py Retry RetryFacts.

Section Bounds.
Context {S A : Type} `{Runtime S}.
Implicit Types (func : M S A) (s : S) (e : exn).

(** The attempts [a, a+1, ..., a+n-1]. *)
Definition attempts_from (a n : nat) : list Z := map Z.of_nat (seq a n).

(** A loop whose last attempt is [retries - 1] never falls off its end. *)
Lemma retry_loop_ends_inside func retries wait n :
  forall a s,
    Z.of_nat (a + n) = retries - 1 ->
    fst (retry_loop func retries wait (attempts_from a (Datatypes.S n)) s) <> Return None.
Proof.
  induction n as [| n IH]; intros a s Hlast.
  - cbn [attempts_from seq map retry_loop].
    destruct (func s) as [[v | e] s1]; [discriminate |].
    destruct (catchable e); [| discriminate].
    destruct (Z.eqb_spec (Z.of_nat a) (retries - 1)) as [_ | Hne]; [discriminate | lia].
  - change (attempts_from a (Datatypes.S (Datatypes.S n)))
      with (Z.of_nat a :: attempts_from (Datatypes.S a) (Datatypes.S n)).
    cbn [retry_loop].
    destruct (func s) as [[v | e] s1]; [discriminate |].
    destruct (catchable e); [| discriminate].
    destruct (Z.of_nat a =? retries - 1); [discriminate |].
    destruct (sleep wait s1) as [[[] | e'] s2]; [| discriminate].
    apply IH. lia.
Qed.

(** Every attempt of the loop invokes the operation at most once. *)
Lemma retry_loop_invocations func retries wait attempts :
  forall (c : Z) s,
    let '(_, (c', _)) := retry_loop (counted func) retries wait attempts (c, s) in
    c <= c' <= c + Z.of_nat (length attempts).
Proof.
  induction attempts as [| attempt rest IH]; intros c s.
  - cbn. lia.
  - cbn [retry_loop length]. unfold counted at 1.
    destruct (func s) as [[v | e] s1]; [lia |].
    destruct (catchable e); [| lia].
    destruct (attempt =? retries - 1); [lia |].
    unfold sleep. destruct (Qle_bool 0 wait).
    + cbn. specialize (IH (c + 1) (clock_advance wait s1)).
      change (clock_advance wait (c + 1, s1)) with (c + 1, clock_advance wait s1).
      destruct (retry_loop (counted func) retries wait rest (c + 1, clock_advance wait s1))
        as [r [c' s']].
      lia.
    + cbn. lia.
Qed.

Lemma retry_loop_invoked_once func retries wait attempt rest (c : Z) s :
  let '(_, (c', _)) := retry_loop (counted func) retries wait (attempt :: rest) (c, s) in
  c < c'.
Proof.
  cbn [retry_loop]. unfold counted at 1.
  destruct (func s) as [[v | e] s1]; [lia |].
  destruct (catchable e); [| lia].
  destruct (attempt =? retries - 1); [lia |].
  unfold sleep. destruct (Qle_bool 0 wait).
  - cbn. pose proof (retry_loop_invocations func retries wait rest (c + 1)
                       (clock_advance wait s1)) as Hrest.
    change (clock_advance wait (c + 1, s1)) with (c + 1, clock_advance wait s1).
    destruct (retry_loop (counted func) retries wait rest (c + 1, clock_advance wait s1))
      as [r [c' s']].
    lia.
  - cbn. lia.
Qed.

Lemma length_range (n : Z) : Z.of_nat (length (range n)) = Z.max 0 n.
Proof. unfold range. rewrite length_map, length_seq. lia. Qed.

End Bounds.

Section Extras.
Context {S A : Type} `{Runtime S}.
Implicit Types (func : M S A) (s : S) (e : exn).

(** X1.  With a positive retry count [retry_request] never returns the
    [None] of a loop that ran out: whatever the operation does, the call
    ends with a value of the operation or with an exception. *)
Theorem retry_request_never_falls_through func retries wait s :
  0 < retries ->
  fst (retry_request func retries wait s) <> Return None.
Proof.
  intros Hpos. rewrite retry_request_unfold, range_unfold.
  replace (Z.to_nat retries) with (Datatypes.S (Z.to_nat (retries - 1))) by lia.
  apply (retry_loop_ends_inside func retries wait (Z.to_nat (retries - 1)) 0%nat).
  lia.
Qed.

(** X2.  Whatever the operation does, [retry_request] invokes it at most
    [retries] times (never for [retries <= 0]) and, when [retries] is
    positive, at least once. *)
Theorem retry_request_invocations_bounded func retries wait s (c : Z) :
  let c' := fst (snd (retry_request (counted func) retries wait (c, s))) in
  c <= c' <= c + Z.max 0 retries /\ (retries <= 0 \/ c < c').
Proof.
  cbn zeta. rewrite retry_request_unfold.
  change (stdout_write "!" (c, s)) with (c, stdout_write "!" s).
  pose proof (retry_loop_invocations func retries wait (range retries) c
                (stdout_write "!" s)) as Hmost.
  rewrite length_range in Hmost.
  destruct (Z.le_gt_cases retries 0) as [Hn | Hpos].
  - destruct (retry_loop (counted func) retries wait (range retries) (c, stdout_write "!" s))
      as [r [c' s']]. cbn [fst snd]. split; [exact Hmost | left; exact Hn].
  - assert (Hcons : range retries = 0 :: attempts_from 1 (Z.to_nat (retries - 1))).
    { rewrite range_unfold.
      replace (Z.to_nat retries) with (Datatypes.S (Z.to_nat (retries - 1))) by lia.
      reflexivity. }
    pose proof (retry_loop_invoked_once func retries wait 0
                  (attempts_from 1 (Z.to_nat (retries - 1))) c (stdout_write "!" s)) as Hleast.
    rewrite <- Hcons in Hleast.
    destruct (retry_loop (counted func) retries wait (range retries) (c, stdout_write "!" s))
      as [r [c' s']]. cbn [fst snd]. split; [exact Hmost | right; exact Hleast].
Qed.

(** X3.  An exception that does not derive from [Exception] (such as
    [KeyboardInterrupt]) is not retried: after [k] caught failures it
    leaves [retry_request] as it is, without the wrapping [RuntimeError],
    after [k + 1] invocations. *)
Theorem retry_request_propagates_uncaught func retries wait k s (c : Z) es sk e s' :
  (0 <= wait)%Q ->
  Z.of_nat k < retries ->
  failures func wait k (stdout_write "!" s) es sk ->
  func sk = (Raise e, s') ->
  catchable e = false ->
  retry_request (counted func) retries wait (c, s) = (Raise e, (c + Z.of_nat k + 1, s')).
Proof.
  intros Hw Hk Hrun Hcall Hcatch.
  rewrite retry_request_unfold, range_unfold.
  replace (Z.to_nat retries) with (k + Datatypes.S (Z.to_nat retries - Datatypes.S k))%nat by lia.
  change (stdout_write "!" (c, s)) with (c, stdout_write "!" s).
  rewrite (retry_loop_failures (counted func) retries wait k Hw _ es
             (c + Z.of_nat k, sk) 0%nat).
  - cbn [seq map retry_loop]. unfold counted at 1. rewrite Hcall, Hcatch. reflexivity.
  - apply failures_counted. exact Hrun.
  - lia.
Qed.

(** X4.  With a negative waiting time and at least two attempts
    configured, the first failure ends the call: [time.sleep] raises its
    [ValueError] inside the handler, so the operation has been invoked
    once and the error of the operation survives only as the context. *)
Theorem retry_request_negative_wait func retries wait s (c : Z) e s' :
  (wait < 0)%Q ->
  1 < retries ->
  func (stdout_write "!" s) = (Raise e, s') ->
  catchable e = true ->
  retry_request (counted func) retries wait (c, s)
  = (Raise (Exn ValueError "sleep length must be non-negative" (Some e)), (c + 1, s')).
Proof.
  intros Hneg Hretries Hcall Hcatch.
  rewrite retry_request_unfold, range_unfold.
  replace (Z.to_nat retries) with (Datatypes.S (Z.to_nat (retries - 1))) by lia.
  change (stdout_write "!" (c, s)) with (c, stdout_write "!" s).
  cbn [seq map retry_loop]. unfold counted at 1. rewrite Hcall, Hcatch.
  destruct (Z.eqb_spec (Z.of_nat 0) (retries - 1)) as [Heq | _]; [cbn in Heq; lia |].
  unfold sleep.
  destruct (Qle_bool 0 wait) eqn:Hle.
  - apply Qle_bool_iff in Hle. exfalso. exact (Qlt_not_le _ _ Hneg Hle).
  - reflexivity.
Qed.

End Extras.

(** ** Concrete runs *)

Definition interrupted : mock_state string :=
  MockState [Raise (boom "timeout 1"); Raise (Exn KeyboardInterrupt "" None); Return "late"] [] [].

Lemma retry_request_never_falls_through_witness :
  fst (retry_request scripted default_retries default_wait_time third_time_lucky)
  <> Return None.
Proof.
  apply (retry_request_never_falls_through scripted default_retries default_wait_time
           third_time_lucky).
  reflexivity.
Defined.

Lemma retry_request_propagates_uncaught_witness :
  retry_request (counted scripted) default_retries default_wait_time (0, interrupted)
  = (Raise (Exn KeyboardInterrupt "" None),
     (2, MockState [Return "late"] ["!"] [default_wait_time])).
Proof.
  refine (retry_request_propagates_uncaught scripted default_retries default_wait_time
            1%nat interrupted 0 [boom "timeout 1"]
            (MockState [Raise (Exn KeyboardInterrupt "" None); Return "late"] ["!"]
               [default_wait_time])
            (Exn KeyboardInterrupt "" None)
            (MockState [Return "late"] ["!"] [default_wait_time])
            half_second_nonneg _ _ _ _).
  - reflexivity.
  - eapply failures_more; [reflexivity | reflexivity |]. apply failures_none.
  - reflexivity.
  - reflexivity.
Defined.

Lemma retry_request_negative_wait_witness :
  retry_request (counted scripted) default_retries (-1) (0, always_failing)
  = (Raise (Exn ValueError "sleep length must be non-negative" (Some (boom "timeout 1"))),
     (1, MockState [Raise (boom "timeout 2"); Raise (boom "timeout 3")] ["!"] [])).
Proof.
  refine (retry_request_negative_wait scripted default_retries (-1) always_failing 0
            (boom "timeout 1")
            (MockState [Raise (boom "timeout 2"); Raise (boom "timeout 3")] ["!"] [])
            _ _ _ _); reflexivity.
Defined.

End RetryMore.

(* ===================================================================== *)
(** * More on the usage tracker: errors, frame, several models             *)
(* ===================================================================== *)
Module TokenTrackerMore.
Import Py TokenTracker TokenTrackerFacts.

(** The shape of the documents the tracker writes: a number under
    ["overall_cost"] and per-model objects under every other key. *)
Definition well_formed (doc : gmap string value) : Prop :=
  (forall a b, doc !! "overall_cost" <> Some (Usage a b))
  /\ (forall key n, key <> "overall_cost" -> doc !! key <> Some (Number n)).

(** Calls for several models: [(model_name, prompt_tokens, completion_tokens)]. *)
Definition run_calls (calls : list (string * Z * Z)) (t : tracker) : tracker :=
  foldl (fun t call => snd (update_tokens_usage call.1.1 call.1.2 call.2 t)) t calls.

Definition prompt_sum_for (model_name : string) (calls : list (string * Z * Z)) : Z :=
  foldr (fun call acc => (if String.eqb call.1.1 model_name then call.1.2 else 0) + acc)
        0 calls.

Definition completion_sum_for (model_name : string) (calls : list (string * Z * Z)) : Z :=
  foldr (fun call acc => (if String.eqb call.1.1 model_name then call.2 else 0) + acc)
        0 calls.

Lemma well_formed_empty : well_formed ∅.
Proof. split; intros; rewrite lookup_empty; discriminate. Qed.

Lemma well_formed_ok model_name t :
  model_name <> "overall_cost" ->
  well_formed (persisted t) ->
  (forall n, persisted t !! model_name <> Some (Number n))
  /\ (forall a b, persisted t !! "overall_cost" <> Some (Usage a b)).
Proof. intros Hname [Hcost Hentries]. split; [intros n; apply Hentries; exact Hname | exact Hcost]. Qed.

(** The readings after a call on a document of the written shape. *)
Lemma update_tokens_usage_readings model_name p c t :
  model_name <> "overall_cost" ->
  well_formed (persisted t) ->
  let t' := snd (update_tokens_usage model_name p c t) in
  well_formed (persisted t')
  /\ (forall key, rate_of (COST_RATES t') key = rate_of (COST_RATES t) key)
  /\ (forall key, key <> "overall_cost" ->
        prompt_total t' key
        = prompt_total t key + (if String.eqb model_name key then p else 0))
  /\ (forall key, key <> "overall_cost" ->
        completion_total t' key
        = completion_total t key + (if String.eqb model_name key then c else 0))
  /\ overall_cost t'
     = (overall_cost t
        + inject_Z p * prompt_token_cost (rate_of (COST_RATES t) model_name)
        + inject_Z c * completion_token_cost (rate_of (COST_RATES t) model_name))%Q.
Proof.
  intros Hname Hwf t'.
  destruct (well_formed_ok model_name t Hname Hwf) as [Hentry Hcost].
  subst t'. rewrite (update_tokens_usage_ok model_name p c t Hname Hentry Hcost).
  cbn [snd]. destruct Hwf as [Hwf1 Hwf2].
  split; [| split; [| split; [| split]]].
  - rewrite persisted_written. split.
    + intros a b. rewrite lookup_insert_eq. discriminate.
    + intros key n Hkey. rewrite lookup_insert_ne by congruence.
      destruct (decide (model_name = key)) as [<- | Hne].
      * rewrite lookup_insert_eq. discriminate.
      * rewrite lookup_insert_ne by assumption. apply Hwf2. exact Hkey.
  - intros key. cbn [COST_RATES]. apply rate_of_rates_after.
  - intros key Hkey. unfold prompt_total at 1. rewrite persisted_written.
    rewrite lookup_insert_ne by congruence.
    destruct (String.eqb_spec model_name key) as [<- | Hne].
    + rewrite lookup_insert_eq. reflexivity.
    + rewrite lookup_insert_ne by assumption. unfold prompt_total. lia.
  - intros key Hkey. unfold completion_total at 1. rewrite persisted_written.
    rewrite lookup_insert_ne by congruence.
    destruct (String.eqb_spec model_name key) as [<- | Hne].
    + rewrite lookup_insert_eq. reflexivity.
    + rewrite lookup_insert_ne by assumption. unfold completion_total. lia.
  - unfold overall_cost at 1. rewrite persisted_written, lookup_insert_eq. reflexivity.
Qed.

(** X6.  A call touches two keys of the document only, the one of its
    model and ["overall_cost"]: every other entry is persisted as it was,
    whether the call returns or raises. *)
Theorem update_tokens_usage_frame model_name p c t key :
  key <> model_name ->
  key <> "overall_cost" ->
  persisted (snd (update_tokens_usage model_name p c t)) !! key = persisted t !! key.
Proof.
  intros Hmodel Hcost.
  destruct (update_tokens_usage model_name p c t) as [[[] | e] t'] eqn:Hrun.
  - destruct (update_tokens_usage_return model_name p c t t' Hrun) as (Hname & Hentry & Hoc).
    rewrite (update_tokens_usage_ok model_name p c t Hname Hentry Hoc) in Hrun.
    injection Hrun as <-. cbn [snd]. rewrite persisted_written.
    rewrite !lookup_insert_ne by congruence. reflexivity.
  - cbn [snd]. unfold persisted.
    rewrite (update_tokens_usage_raise model_name p c t e t' Hrun). reflexivity.
Qed.



(** X9.  [COST_RATES] only grows: a call never changes or removes an
    entry, and a call that returns leaves the model with an entry, the
    zero rates when it had none. *)
Theorem update_tokens_usage_rates_grow model_name p c t key r :
  COST_RATES t !! key = Some r ->
  let t' := snd (update_tokens_usage model_name p c t) in
  COST_RATES t' !! key = Some r
  /\ (fst (update_tokens_usage model_name p c t) = Return tt ->
      COST_RATES t' !! model_name = Some (rate_of (COST_RATES t) model_name)).
Proof.
  intros Hkey t'.
  assert (Hafter : rates_after model_name (COST_RATES t) !! key = Some r).
  { unfold rates_after. destruct (COST_RATES t !! model_name) eqn:Hm; [exact Hkey |].
    rewrite lookup_insert_ne by congruence. exact Hkey. }
  assert (Hmodel : rates_after model_name (COST_RATES t) !! model_name
                   = Some (rate_of (COST_RATES t) model_name)).
  { unfold rates_after, rate_of. destruct (COST_RATES t !! model_name) eqn:Hm.
    - exact Hm.
    - rewrite lookup_insert_eq. reflexivity. }
  subst t'. unfold update_tokens_usage.
  fold (rates_after model_name (COST_RATES t)).
  destruct (add_prompt_tokens _ _) as [entry | e1]; [| split; [exact Hkey | discriminate]].
  destruct (add_completion_tokens _ _) as [entry' | e2]; [| split; [exact Hkey | discriminate]].
  destruct (add_cost _ _ _) as [cost | e3]; cbn [fst snd COST_RATES].
  - split; [exact Hafter | intros _; exact Hmodel].
  - split; [exact Hafter | discriminate].
Qed.

(** ** Concrete documents *)

Definition mixed_calls : list (string * Z * Z) :=
  [("gpt-4o", 10, 5); ("my-model", 7, 1); ("gpt-4o", 3, 2)].

Lemma well_formed_initial : well_formed (persisted initial).
Proof. exact well_formed_empty. Defined.

Lemma update_tokens_usage_frame_witness :
  persisted (snd (update_tokens_usage "gpt-35-turbo" 4 4 after_first_call)) !! "gpt-4o"
  = persisted after_first_call !! "gpt-4o".
Proof.
  apply (update_tokens_usage_frame "gpt-35-turbo" 4 4 after_first_call "gpt-4o");
    discriminate.
Defined.



Example mixed_calls_totals :
  let t' := run_calls mixed_calls initial in
  prompt_total t' "gpt-4o" = 13 /\ prompt_total t' "my-model" = 7
  /\ completion_total t' "gpt-4o" = 7 /\ completion_total t' "my-model" = 1.
Proof. vm_compute. repeat split. Qed.

Lemma update_tokens_usage_rates_grow_witness :
  let t' := snd (update_tokens_usage "my-model" 7 1 initial) in
  COST_RATES t' !! "gpt-4o" = Some (Rates (0.0045 / 1000) (0.0135 / 1000))
  /\ (fst (update_tokens_usage "my-model" 7 1 initial) = Return tt ->
      COST_RATES t' !! "my-model" = Some (rate_of (COST_RATES initial) "my-model")).
Proof.
  apply (update_tokens_usage_rates_grow "my-model" 7 1 initial "gpt-4o").
  vm_compute. reflexivity.
Defined.

End TokenTrackerMore.

(* ===================================================================== *)
(** * More on the request methods                                          *)
(* ===================================================================== *)
Module RequestFacts.
Import Py World Retry LLMService RetryFacts ServiceFacts.
#[local] Open Scope list_scope.

(** The common shape of the [api_call] closures: send the request, record
    the usage of the answer, return what [select] reads from it. *)
Definition api_call {A} (select : response -> A) (o : outside) (model : string)
    (r : request) : M process A :=
  response ← send o r;
  update_tokens_usage model (usage_prompt_tokens response)
    (usage_completion_tokens response);;
  mret (select response).

Lemma azure_api_call_content o self r :
  AzureOpenAIService.api_call_content o self r = api_call resp_content o (model_name self) r.
Proof. reflexivity. Qed.

Lemma azure_api_call_tools o self r only :
  AzureOpenAIService.api_call_tools o self r only
  = api_call (AzureOpenAIService.response_message only) o (model_name self) r.
Proof. reflexivity. Qed.

Lemma huggingface_api_call_content o self r :
  HuggingFaceService.api_call_content o self r = api_call resp_content o (model_name self) r.
Proof. reflexivity. Qed.

Lemma huggingface_api_call_tools o self r only :
  HuggingFaceService.api_call_tools o self r only
  = api_call (HuggingFaceService.response_message only) o (model_name self) r.
Proof. reflexivity. Qed.

(** The three ways an [api_call] ends. *)
Lemma api_call_refused {A} (select : response -> A) o model r p e :
  chat_completion o (chat_count p) r = Raise e ->
  api_call select o model r p = (Raise e, logged (ChatCompletion r) p).
Proof.
  intros Hrefused. unfold api_call, mbind, M_bind, bind.
  rewrite send_unfold, Hrefused. reflexivity.
Qed.

Lemma api_call_recorded {A} (select : response -> A) o model r p resp t' :
  chat_completion o (chat_count p) r = Return resp ->
  TokenTracker.update_tokens_usage model (usage_prompt_tokens resp)
    (usage_completion_tokens resp) (token_tracker p) = (Return tt, t') ->
  api_call select o model r p
  = (Return (select resp), tracked t' (logged (ChatCompletion r) p)).
Proof. intros Hanswer Htrack. exact (api_call_answered select o model r p resp t' Hanswer Htrack). Qed.

Lemma api_call_untracked {A} (select : response -> A) o model r p resp e t' :
  chat_completion o (chat_count p) r = Return resp ->
  TokenTracker.update_tokens_usage model (usage_prompt_tokens resp)
    (usage_completion_tokens resp) (token_tracker p) = (Raise e, t') ->
  api_call select o model r p = (Raise e, tracked t' (logged (ChatCompletion r) p)).
Proof.
  intros Hanswer Htrack. unfold api_call, mbind, M_bind, bind.
  rewrite send_unfold, Hanswer.
  unfold update_tokens_usage. cbn [token_tracker logged]. rewrite Htrack. reflexivity.
Qed.

Lemma chat_count_logged_chat r p :
  chat_count (logged (ChatCompletion r) p) = Datatypes.S (chat_count p).
Proof.
  unfold chat_count, logged. cbn [trace].
  rewrite List.filter_app, length_app. cbn. lia.
Qed.

Lemma chat_count_slept secs p : chat_count (clock_advance secs p) = chat_count p.
Proof.
  unfold chat_count. cbn [clock_advance process_runtime trace].
  rewrite List.filter_app, length_app. cbn. lia.
Qed.

Lemma chat_count_tracked t p : chat_count (tracked t p) = chat_count p.
Proof. reflexivity. Qed.

(** ** What a request method leaves alone *)

(** [p'] differs from [p] by the tracker and by new effects at the end of
    the trace, among them at most [n] chat completions. *)
Definition extends (n : nat) (p p' : process) : Prop :=
  _services p' = _services p
  /\ instances p' = instances p
  /\ (exists evs : list event, trace p' = (trace p ++ evs)%list)
  /\ (chat_count p' <= chat_count p + n)%nat.

Lemma extends_refl n p : extends n p p.
Proof. repeat split. - exists []. symmetry. apply app_nil_r. - lia. Qed.

Lemma extends_trans n m p1 p2 p3 :
  extends n p1 p2 -> extends m p2 p3 -> extends (n + m) p1 p3.
Proof.
  intros (Hs & Hi & [evs Ht] & Hc) (Hs' & Hi' & [evs' Ht'] & Hc').
  repeat split; try congruence.
  - exists (evs ++ evs'). rewrite Ht', Ht, app_assoc. reflexivity.
  - lia.
Qed.

Lemma extends_weaken n m p p' : (n <= m)%nat -> extends n p p' -> extends m p p'.
Proof. intros Hnm (Hs & Hi & Ht & Hc). repeat split; try assumption. lia. Qed.

Lemma extends_logged ev p :
  extends (if is_chat_completion ev then 1 else 0) p (logged ev p).
Proof.
  repeat split.
  - exists [ev]. reflexivity.
  - unfold chat_count, logged. cbn [trace].
    rewrite List.filter_app, length_app. cbn.
    destruct (is_chat_completion ev); cbn; lia.
Qed.

Lemma extends_tracked t p : extends 0 p (tracked t p).
Proof. repeat split. - exists []. cbn. symmetry. apply app_nil_r. - cbn. unfold chat_count. cbn. lia. Qed.

Lemma api_call_extends {A} (select : response -> A) o model r p :
  extends 1 p (snd (api_call select o model r p)).
Proof.
  unfold api_call, mbind, M_bind, bind. rewrite send_unfold.
  destruct (chat_completion o (chat_count p) r) as [resp | e]; cbn [snd].
  - unfold update_tokens_usage. cbn [token_tracker logged].
    destruct (TokenTracker.update_tokens_usage _ _ _ _) as [[[] | e] t']; cbn [snd].
    + apply (extends_trans 1 0 p (logged (ChatCompletion r) p)).
      * exact (extends_logged (ChatCompletion r) p).
      * exact (extends_tracked t' (logged (ChatCompletion r) p)).
    + apply (extends_trans 1 0 p (logged (ChatCompletion r) p)).
      * exact (extends_logged (ChatCompletion r) p).
      * exact (extends_tracked t' (logged (ChatCompletion r) p)).
  - exact (extends_logged (ChatCompletion r) p).
Qed.

Lemma retry_loop_extends {A} (func : M process A) retries wait attempts :
  (forall p, extends 1 p (snd (func p))) ->
  forall p, extends (length attempts) p (snd (retry_loop func retries wait attempts p)).
Proof.
  intros Hfunc. induction attempts as [| attempt rest IH]; intros p.
  - cbn. apply extends_refl.
  - cbn [retry_loop length].
    pose proof (Hfunc p) as Hstep.
    destruct (func p) as [[v | e] p1]; cbn [snd] in *.
    + apply (extends_weaken 1); [lia | exact Hstep].
    + destruct (catchable e); [| apply (extends_weaken 1); [lia | exact Hstep]].
      destruct (attempt =? retries - 1); [apply (extends_weaken 1); [lia | exact Hstep] |].
      unfold sleep. destruct (Qle_bool 0 wait); cbn.
      * change (Datatypes.S (length rest)) with (1 + length rest)%nat.
        apply (extends_trans 1 (length rest) p p1 _ Hstep).
        replace (length rest) with (0 + length rest)%nat by lia.
        apply (extends_trans 0 (length rest) p1 (clock_advance wait p1)).
        -- exact (extends_logged (Slept wait) p1).
        -- apply IH.
      * apply (extends_weaken 1); [lia | exact Hstep].
Qed.

Lemma retry_request_extends {A} (func : M process A) :
  (forall p, extends 1 p (snd (func p))) ->
  forall p, extends 3 p (snd (retry_request func default_retries default_wait_time p)).
Proof.
  intros Hfunc p. rewrite retry_request_unfold.
  replace 3%nat with (0 + 3)%nat by lia.
  apply (extends_trans 0 3 p (stdout_write "!" p)).
  - exact (extends_logged (Printed "!") p).
  - exact (retry_loop_extends func default_retries default_wait_time
             (range default_retries) Hfunc (stdout_write "!" p)).
Qed.

(** ** Refused attempts *)

(** The process after [k] refused attempts of the request [r], each
    followed by the default sleep. *)
Fixpoint after_refusals (r : request) (k : nat) (q : process) : process :=
  match k with
  | O => q
  | Datatypes.S k' =>
      after_refusals r k' (clock_advance default_wait_time (logged (ChatCompletion r) q))
  end.

Lemma chat_count_after_refusals r k q :
  chat_count (after_refusals r k q) = (chat_count q + k)%nat.
Proof.
  revert q. induction k as [| k IH]; intros q; cbn [after_refusals]; [lia |].
  rewrite IH, chat_count_slept, chat_count_logged_chat. lia.
Qed.

Lemma after_refusals_store r k q :
  _services (after_refusals r k q) = _services q
  /\ instances (after_refusals r k q) = instances q
  /\ token_tracker (after_refusals r k q) = token_tracker q.
Proof.
  revert q. induction k as [| k IH]; intros q; cbn [after_refusals]; [repeat split |].
  destruct (IH (clock_advance default_wait_time (logged (ChatCompletion r) q)))
    as (H1 & H2 & H3).
  rewrite H1, H2, H3. repeat split.
Qed.

Lemma trace_after_refusals r k q :
  trace (after_refusals r k q)
  = trace q ++ concat (replicate k [ChatCompletion r; Slept default_wait_time]).
Proof.
  revert q. induction k as [| k IH]; intros q; cbn [after_refusals replicate concat].
  - symmetry. apply app_nil_r.
  - rewrite IH. cbn [clock_advance process_runtime logged trace].
    rewrite <- !app_assoc. reflexivity.
Qed.

(** [k] attempts that the vendor refuses are [k] failures of the
    [api_call]. *)
Lemma refusals_are_failures {A} (select : response -> A) o model r (err : nat -> exn) k :
  forall q,
    (forall i, (i < k)%nat ->
       chat_completion o (chat_count q + i) r = Raise (err i)
       /\ catchable (err i) = true) ->
    failures (api_call select o model r) default_wait_time k q
      (map err (seq 0 k)) (after_refusals r k q).
Proof.
  revert err. induction k as [| k IH]; intros err q Hrefused.
  - constructor.
  - cbn [seq map after_refusals].
    destruct (Hrefused 0%nat ltac:(lia)) as [H0 C0].
    rewrite Nat.add_0_r in H0.
    eapply failures_more.
    + exact (api_call_refused select o model r q (err 0%nat) H0).
    + exact C0.
    + rewrite <- seq_shift, map_map.
      apply (IH (fun i => err (Datatypes.S i))).
      intros i Hi. rewrite chat_count_slept, chat_count_logged_chat.
      replace (Datatypes.S (chat_count q) + i)%nat with (chat_count q + Datatypes.S i)%nat by lia.
      apply Hrefused. lia.
Qed.

(** A request refused [k < 3] times and then answered. *)
Lemma retry_api_call_answered {A} (select : response -> A) o model r err k p resp t' :
  (k < 3)%nat ->
  (forall i, (i < k)%nat ->
     chat_completion o (chat_count p + i) r = Raise (err i)
     /\ catchable (err i) = true) ->
  chat_completion o (chat_count p + k) r = Return resp ->
  TokenTracker.update_tokens_usage model (usage_prompt_tokens resp)
    (usage_completion_tokens resp) (token_tracker p) = (Return tt, t') ->
  retry_request (api_call select o model r) default_retries default_wait_time p
  = (Return (Some (select resp)),
     tracked t' (logged (ChatCompletion r) (after_refusals r k (stdout_write "!" p)))).
Proof.
  intros Hk Hrefused Hanswer Htrack.
  apply (retry_request_success _ default_retries default_wait_time k p (map err (seq 0 k))
           (after_refusals r k (stdout_write "!" p))).
  - discriminate.
  - unfold default_retries. lia.
  - apply refusals_are_failures. intros i Hi. rewrite chat_count_printed.
    apply Hrefused. exact Hi.
  - apply api_call_recorded.
    + rewrite chat_count_after_refusals, chat_count_printed. exact Hanswer.
    + destruct (after_refusals_store r k (stdout_write "!" p)) as (_ & _ & ->).
      exact Htrack.
Qed.

(** A request refused at each of the three attempts. *)
Lemma retry_api_call_refused {A} (select : response -> A) o model r err p :
  (forall i, (i < 3)%nat ->
     chat_completion o (chat_count p + i) r = Raise (err i)
     /\ catchable (err i) = true) ->
  retry_request (api_call select o model r) default_retries default_wait_time p
  = (Raise (retries_exhausted default_retries (err 2%nat)),
     logged (ChatCompletion r) (after_refusals r 2 (stdout_write "!" p))).
Proof.
  intros Hrefused.
  destruct (Hrefused 2%nat ltac:(lia)) as [H2 C2].
  apply (retry_request_failure _ default_retries default_wait_time p
           (map err (seq 0 2)) (after_refusals r 2 (stdout_write "!" p))).
  - discriminate.
  - reflexivity.
  - apply (refusals_are_failures select o model r err 2).
    intros i Hi. rewrite chat_count_printed. apply Hrefused. lia.
  - apply api_call_refused.
    rewrite chat_count_after_refusals, chat_count_printed. exact H2.
  - exact C2.
Qed.

(** The effects of a request sent [k + 1] times. *)
Definition attempts_trace (r : request) (k : nat) : list event :=
  Printed "!" :: concat (replicate k [ChatCompletion r; Slept default_wait_time])
  ++ [ChatCompletion r].

Lemma trace_of_attempts r k t' p :
  trace (tracked t' (logged (ChatCompletion r) (after_refusals r k (stdout_write "!" p))))
  = trace p ++ attempts_trace r k.
Proof.
  unfold tracked, logged, attempts_trace. cbn [trace].
  rewrite trace_after_refusals. cbn [stdout_write process_runtime trace].
  rewrite <- !app_assoc. reflexivity.
Qed.

End RequestFacts.

(* ===================================================================== *)
(** * The request methods end to end                                       *)
(* ===================================================================== *)
Module RequestMore.
Import Py World Retry LLMService RetryFacts ServiceFacts RequestFacts.
#[local] Open Scope list_scope.

(** The four methods that return the text of the answer. *)
Inductive text_method :=
| AzureMakeRequest
| AzureMakeRequestJson (json_scheme : string)
| HuggingFaceMakeRequest
| HuggingFaceMakeRequestJson (json_scheme : string).

Definition run_text_method (m : text_method) (o : outside) (self : service)
    (messages : list message) : M process (option (option string)) :=
  match m with
  | AzureMakeRequest => AzureOpenAIService.make_request o self messages
  | AzureMakeRequestJson json_scheme =>
      AzureOpenAIService.make_request_json o self messages json_scheme
  | HuggingFaceMakeRequest => HuggingFaceService.make_request o self messages
  | HuggingFaceMakeRequestJson json_scheme =>
      HuggingFaceService.make_request_json o self messages json_scheme
  end.

(** The keyword arguments each of them passes to the vendor client. *)
Definition request_of (m : text_method) (self : service) (messages : list message)
    : request :=
  match m with
  | AzureMakeRequest =>
      Request (service_client self) (Some (model_name self)) messages
        (temperature self) (max_tokens self) None None None
  | AzureMakeRequestJson _ =>
      Request (service_client self) (Some (model_name self)) messages
        (temperature self) (max_tokens self) (Some JsonObject) None None
  | HuggingFaceMakeRequest =>
      Request (service_client self) None messages
        (temperature self) (max_tokens self) None None None
  | HuggingFaceMakeRequestJson json_scheme =>
      Request (service_client self) None messages
        (temperature self) (max_tokens self) (Some (JsonValue json_scheme)) None None
  end.

Lemma run_text_method_unfold m o self messages p :
  run_text_method m o self messages p
  = retry_request (api_call resp_content o (model_name self) (request_of m self messages))
      default_retries default_wait_time p.
Proof. destruct m; reflexivity. Qed.

(** X10.  A text request that the vendor refuses [k] times ([k < 3]) and
    then answers returns the content of that answer; the same request has
    gone out [k + 1] times with a sleep of the default length after each
    refusal, the usage of the answer has been recorded once, and the
    registry and the instances are untouched. *)
Theorem text_request_answered (m : text_method) (o : outside) (self : service)
    (messages : list message) (p : process) (err : nat -> exn) (k : nat)
    (resp : response) (t' : TokenTracker.tracker) :
  let r := request_of m self messages in
  (k < 3)%nat ->
  (forall i, (i < k)%nat ->
     chat_completion o (chat_count p + i) r = Raise (err i) /\ catchable (err i) = true) ->
  chat_completion o (chat_count p + k) r = Return resp ->
  TokenTracker.update_tokens_usage (model_name self) (usage_prompt_tokens resp)
    (usage_completion_tokens resp) (token_tracker p) = (Return tt, t') ->
  run_text_method m o self messages p
  = (Return (Some (resp_content resp)),
     Process (_services p) (instances p) t' (trace p ++ attempts_trace r k)).
Proof.
  intros r Hk Hrefused Hanswer Htrack.
  rewrite run_text_method_unfold. fold r.
  rewrite (retry_api_call_answered resp_content o (model_name self) r err k p resp t'
             Hk Hrefused Hanswer Htrack).
  f_equal.
  rewrite <- (trace_of_attempts r k t' p).
  destruct (after_refusals_store r k (stdout_write "!" p)) as (Hs & Hi & _).
  unfold tracked, logged. cbn [_services instances token_tracker trace].
  rewrite Hs, Hi. reflexivity.
Qed.

(** X11.  A text request that the vendor refuses at each of the three
    attempts raises the [RuntimeError] of [retry_request], built from the
    third refusal; three requests and two sleeps have happened, and the
    tracker, the registry and the instances are untouched. *)
Theorem text_request_refused (m : text_method) (o : outside) (self : service)
    (messages : list message) (p : process) (err : nat -> exn) :
  let r := request_of m self messages in
  (forall i, (i < 3)%nat ->
     chat_completion o (chat_count p + i) r = Raise (err i) /\ catchable (err i) = true) ->
  run_text_method m o self messages p
  = (Raise (Exn RuntimeError
              ("API request failed after 3 retries: " +:+ exn_str (err 2%nat))
              (Some (err 2%nat))),
     Process (_services p) (instances p) (token_tracker p)
       (trace p ++ attempts_trace r 2)).
Proof.
  intros r Hrefused.
  rewrite run_text_method_unfold. fold r.
  rewrite (retry_api_call_refused resp_content o (model_name self) r err p Hrefused).
  f_equal.
  rewrite <- (trace_of_attempts r 2 (token_tracker p) p).
  destruct (after_refusals_store r 2 (stdout_write "!" p)) as (Hs & Hi & Ht).
  unfold tracked, logged. cbn [_services instances token_tracker trace].
  rewrite Hs, Hi, Ht. reflexivity.
Qed.

(** An answered request whose usage cannot be recorded because the model
    is called ["overall_cost"]. *)
Lemma api_call_collides {A} (select : response -> A) o r q resp :
  chat_completion o (chat_count q) r = Return resp ->
  exists e t',
    api_call select o "overall_cost" r q
    = (Raise e, tracked t' (logged (ChatCompletion r) q))
    /\ exn_cls e = TypeError
    /\ TokenTracker.tokens_usage_file t'
       = TokenTracker.tokens_usage_file (token_tracker q).
Proof.
  intros Hanswer.
  destruct (TokenTrackerFacts.update_tokens_usage_collision (usage_prompt_tokens resp)
              (usage_completion_tokens resp) (token_tracker q)) as (e & t' & Hraise & Hcls).
  exists e, t'. split; [| split].
  - exact (api_call_untracked select o "overall_cost" r q resp e t' Hanswer Hraise).
  - exact Hcls.
  - exact (TokenTrackerFacts.update_tokens_usage_raise _ _ _ _ _ _ Hraise).
Qed.

(** X12.  The usage is recorded inside the retried closure: when the
    tracker raises (here because the model is called ["overall_cost"]), an
    answered request counts as a failed attempt.  The request is sent
    three times although each one is answered, the call ends with the
    [RuntimeError] wrapping the [TypeError] of the tracker, and nothing is
    persisted. *)
Theorem text_request_untracked_is_resent (m : text_method) (o : outside) (self : service)
    (messages : list message) (p : process) :
  let r := request_of m self messages in
  model_name self = "overall_cost" ->
  (forall i, (i < 3)%nat -> exists resp, chat_completion o (chat_count p + i) r = Return resp) ->
  exists e p',
    run_text_method m o self messages p = (Raise (retries_exhausted default_retries e), p')
    /\ exn_cls e = TypeError
    /\ chat_count p' = (chat_count p + 3)%nat
    /\ TokenTracker.tokens_usage_file (token_tracker p')
       = TokenTracker.tokens_usage_file (token_tracker p).
Proof.
  intros r Hmodel Hanswered.
  rewrite run_text_method_unfold. fold r. rewrite Hmodel.
  set (q0 := stdout_write "!" p).
  destruct (Hanswered 0%nat ltac:(lia)) as [resp0 H0].
  destruct (Hanswered 1%nat ltac:(lia)) as [resp1 H1].
  destruct (Hanswered 2%nat ltac:(lia)) as [resp2 H2].
  rewrite Nat.add_0_r in H0.
  destruct (api_call_collides resp_content o r q0 resp0) as (e0 & t0 & Hc0 & Hk0 & Hf0).
  { subst q0. rewrite chat_count_printed. exact H0. }
  set (q1 := clock_advance default_wait_time (tracked t0 (logged (ChatCompletion r) q0))).
  destruct (api_call_collides resp_content o r q1 resp1) as (e1 & t1 & Hc1 & Hk1 & Hf1).
  { subst q1 q0. rewrite chat_count_slept, chat_count_tracked, chat_count_logged_chat,
      chat_count_printed. replace (Datatypes.S (chat_count p)) with (chat_count p + 1)%nat by lia.
    exact H1. }
  set (q2 := clock_advance default_wait_time (tracked t1 (logged (ChatCompletion r) q1))).
  destruct (api_call_collides resp_content o r q2 resp2) as (e2 & t2 & Hc2 & Hk2 & Hf2).
  { subst q2 q1 q0.
    rewrite !chat_count_slept, !chat_count_tracked, !chat_count_logged_chat,
      chat_count_slept, chat_count_tracked, chat_count_logged_chat, chat_count_printed.
    replace (Datatypes.S (Datatypes.S (chat_count p))) with (chat_count p + 2)%nat by lia.
    exact H2. }
  assert (Hcatch : forall e, exn_cls e = TypeError -> catchable e = true).
  { intros e He. unfold catchable. rewrite He. reflexivity. }
  exists e2, (tracked t2 (logged (ChatCompletion r) q2)).
  split; [| split; [exact Hk2 | split]].
  - apply (retry_request_failure _ default_retries default_wait_time p [e0; e1] q2).
    + discriminate.
    + reflexivity.
    + eapply failures_more; [exact Hc0 | exact (Hcatch e0 Hk0) |].
      eapply failures_more; [exact Hc1 | exact (Hcatch e1 Hk1) |].
      apply failures_none.
    + exact Hc2.
    + exact (Hcatch e2 Hk2).
  - subst q2 q1 q0.
    rewrite chat_count_tracked, chat_count_logged_chat, chat_count_slept, chat_count_tracked,
      chat_count_logged_chat, chat_count_slept, chat_count_tracked, chat_count_logged_chat,
      chat_count_printed. lia.
  - cbn [tracked token_tracker]. rewrite Hf2. subst q2. cbn [clock_advance process_runtime tracked token_tracker].
    rewrite Hf1. subst q1. cbn [clock_advance process_runtime tracked token_tracker].
    rewrite Hf0. reflexivity.
Qed.

End RequestMore.

(* ===================================================================== *)
(** * Tools, images and construction                                       *)
(* ===================================================================== *)
Module ProviderMore.
Import Py World Retry LLMService RetryFacts ServiceFacts RequestFacts.
#[local] Open Scope list_scope.

(** ** The empty [enum] lists of the HuggingFace tools *)

Definition has_empty_enum (t : tool) : Prop :=
  exists name param, In (name, param) (properties t) /\ enum param = Some [].

Definition strip_params (params : list (string * tool_param)) : list (string * tool_param) :=
  map (fun '(name, param) => (name, HuggingFaceService.strip_empty_enum param)) params.

Lemma strip_empty_enum_clean param :
  enum (HuggingFaceService.strip_empty_enum param) <> Some [].
Proof.
  unfold HuggingFaceService.strip_empty_enum.
  destruct (enum param) as [[| value values] |] eqn:Henum; cbn; congruence.
Qed.

Lemma strip_empty_enum_keeps param :
  enum param <> Some [] -> HuggingFaceService.strip_empty_enum param = param.
Proof.
  intros Hne. unfold HuggingFaceService.strip_empty_enum.
  destruct (enum param) as [[| value values] |]; congruence.
Qed.

Lemma strip_empty_enum_idem param :
  HuggingFaceService.strip_empty_enum (HuggingFaceService.strip_empty_enum param)
  = HuggingFaceService.strip_empty_enum param.
Proof. apply strip_empty_enum_keeps, strip_empty_enum_clean. Qed.

Lemma strip_params_idem params : strip_params (strip_params params) = strip_params params.
Proof.
  unfold strip_params. rewrite map_map. apply map_ext.
  intros [name param]. rewrite strip_empty_enum_idem. reflexivity.
Qed.

Lemma strip_params_names params : map fst (strip_params params) = map fst params.
Proof.
  unfold strip_params. rewrite map_map. apply map_ext. intros [name param]. reflexivity.
Qed.

(** X13.  After [strip_empty_enums] no parameter of any tool has an empty
    [enum]; stripping twice is stripping once; and the tools keep their
    order, names, descriptions, required lists and parameter names. *)
Theorem strip_empty_enums_clean (tools : list tool) :
  Forall (fun t => ~ has_empty_enum t) (HuggingFaceService.strip_empty_enums tools)
  /\ HuggingFaceService.strip_empty_enums (HuggingFaceService.strip_empty_enums tools)
     = HuggingFaceService.strip_empty_enums tools
  /\ map (fun t => (tool_name t, tool_description t, required t, map fst (properties t)))
         (HuggingFaceService.strip_empty_enums tools)
     = map (fun t => (tool_name t, tool_description t, required t, map fst (properties t)))
           tools.
Proof.
  unfold HuggingFaceService.strip_empty_enums.
  split; [| split].
  - apply Forall_forall. intros t Hin. apply list_elem_of_In in Hin.
    apply in_map_iff in Hin. destruct Hin as (t0 & <- & _).
    intros (name & param & Hparam & Hempty). cbn [properties] in Hparam.
    apply in_map_iff in Hparam. destruct Hparam as ([name0 param0] & Heq & _).
    injection Heq as _ <-. exact (strip_empty_enum_clean param0 Hempty).
  - rewrite map_map. apply map_ext. intros t. cbn [tool_name tool_description properties required].
    f_equal. apply strip_params_idem.
  - rewrite map_map. apply map_ext. intros t. cbn [tool_name tool_description properties required].
    f_equal. apply strip_params_names.
Qed.


(** C3.  [make_request_with_tools] of both services, for every
    response that reaches it: the vendor refuses the request [k < 3]
    times (with errors that [except Exception] catches) and then answers
    with [resp], whose usage the tracker records.  The method then returns
    the tool calls of [resp], be they a list, an empty list or [None],
    when [return_only_tool_response] is set; otherwise the text of [resp]
    when it has no tool call ([None] or an empty list) and its tool calls
    when it has at least one.  The HuggingFace method, with its inner
    test written twice, answers as the Azure one does (it is called
    without parallel tool calls, which it refuses before sending). *)
Theorem make_request_with_tools_reply (o : outside) (self : service)
    (messages : list message) (tools : list tool) (parallel only : bool)
    (p : process) (err : nat -> exn) (k : nat) (resp : response)
    (t' : TokenTracker.tracker) :
  let azure :=
    AzureOpenAIService.create self messages None (Some tools) (Some "auto") in
  let huggingface :=
    HuggingFaceService.chat_completion_request self messages None
      (Some (HuggingFaceService.strip_empty_enums tools)) (Some "auto") in
  let reply :=
    if only then ReplyToolCalls (resp_tool_calls resp)
    else match resp_tool_calls resp with
         | None => ReplyText (resp_content resp)
         | Some [] => ReplyText (resp_content resp)
         | Some (call :: calls) => ReplyToolCalls (Some (call :: calls))
         end in
  (k < 3)%nat ->
  TokenTracker.update_tokens_usage (model_name self) (usage_prompt_tokens resp)
    (usage_completion_tokens resp) (token_tracker p) = (Return tt, t') ->
  ((forall i, (i < k)%nat ->
      chat_completion o (chat_count p + i) azure = Raise (err i)
      /\ catchable (err i) = true) ->
   chat_completion o (chat_count p + k) azure = Return resp ->
   AzureOpenAIService.make_request_with_tools o self messages tools parallel only p
   = (Return (Some reply),
      tracked t' (logged (ChatCompletion azure)
                    (after_refusals azure k (stdout_write "!" p)))))
  /\ ((forall i, (i < k)%nat ->
         chat_completion o (chat_count p + i) huggingface = Raise (err i)
         /\ catchable (err i) = true) ->
      chat_completion o (chat_count p + k) huggingface = Return resp ->
      HuggingFaceService.make_request_with_tools o self messages tools false only p
      = (Return (Some reply),
         tracked t' (logged (ChatCompletion huggingface)
                       (after_refusals huggingface k (stdout_write "!" p))))).
Proof.
  intros azure huggingface reply Hk Htrack.
  assert (Hazure : AzureOpenAIService.response_message only resp = reply).
  { subst reply. unfold AzureOpenAIService.response_message, opt_list_truthy.
    destruct only; [reflexivity |].
    destruct (resp_tool_calls resp) as [[| call calls] |]; reflexivity. }
  assert (Hhuggingface : HuggingFaceService.response_message only resp = reply).
  { subst reply. unfold HuggingFaceService.response_message, opt_list_truthy.
    destruct only; [reflexivity |].
    destruct (resp_tool_calls resp) as [[| call calls] |]; reflexivity. }
  split; intros Hrefused Hanswer.
  - unfold AzureOpenAIService.make_request_with_tools.
    fold azure. rewrite azure_api_call_tools, <- Hazure.
    exact (retry_api_call_answered (AzureOpenAIService.response_message only) o
             (model_name self) azure err k p resp t' Hk Hrefused Hanswer Htrack).
  - unfold HuggingFaceService.make_request_with_tools.
    fold huggingface. rewrite huggingface_api_call_tools, <- Hhuggingface.
    exact (retry_api_call_answered (HuggingFaceService.response_message only) o
             (model_name self) huggingface err k p resp t' Hk Hrefused Hanswer Htrack).
Qed.

(** X15.  [make_request_with_tools] answered at the first attempt returns
    the reply of the contract, for both providers; the Azure request
    carries the tools as given and the HuggingFace one the tools without
    their empty [enum] lists, both with [tool_choice="auto"]; the
    HuggingFace service refuses parallel tool calls before sending
    anything, the Azure one ignores the flag. *)
Theorem tools_request_answered (o : outside) (self : service) (messages : list message)
    (tools : list tool) (parallel only : bool) (p : process) (resp : response)
    (t' : TokenTracker.tracker) :
  let azure :=
    Request (service_client self) (Some (model_name self)) messages
      (temperature self) (max_tokens self) None (Some tools) (Some "auto") in
  let huggingface :=
    Request (service_client self) None messages (temperature self) (max_tokens self) None
      (Some (HuggingFaceService.strip_empty_enums tools)) (Some "auto") in
  TokenTracker.update_tokens_usage (model_name self) (usage_prompt_tokens resp)
    (usage_completion_tokens resp) (token_tracker p) = (Return tt, t') ->
  (chat_completion o (chat_count p) azure = Return resp ->
   AzureOpenAIService.make_request_with_tools o self messages tools parallel only p
   = (Return (Some (tool_reply_contract only resp)),
      Process (_services p) (instances p) t'
        (trace p ++ [Printed "!"; ChatCompletion azure])))
  /\ (chat_completion o (chat_count p) huggingface = Return resp ->
      HuggingFaceService.make_request_with_tools o self messages tools false only p
      = (Return (Some (tool_reply_contract only resp)),
         Process (_services p) (instances p) t'
           (trace p ++ [Printed "!"; ChatCompletion huggingface])))
  /\ HuggingFaceService.make_request_with_tools o self messages tools true only p
     = (Raise (Exn ValueError "Hugging Face models do not support parallel tool calls." None),
        p).
Proof.
  intros azure huggingface Htrack. split; [| split].
  - intros Hanswer.
    rewrite (azure_with_tools_answered o self messages tools parallel only p resp t'
               Hanswer Htrack).
    unfold tracked, logged. cbn [_services instances token_tracker trace].
    rewrite <- app_assoc. reflexivity.
  - intros Hanswer.
    rewrite (huggingface_with_tools_answered o self messages tools only p resp t'
               Hanswer Htrack).
    unfold tracked, logged. cbn [_services instances token_tracker trace].
    rewrite <- app_assoc. reflexivity.
  - reflexivity.
Qed.

(** ** The image request of the Azure service *)

(** X16.  [attach_image] fails on an empty list of messages; otherwise
    it keeps the number of messages and every message but the last, and
    replaces the last by a message of role ["user"], whatever its role
    was, whose content is the former content together with the image as a
    [data:image/jpeg;base64,] URL. *)
Theorem attach_image_replaces_last (messages : list message) (base64_image : string) :
  match AzureOpenAIService.attach_image messages base64_image with
  | Raise e => messages = [] /\ exn_cls e = IndexError
  | Return messages' =>
      length messages' = length messages
      /\ (forall i, (Datatypes.S i < length messages)%nat ->
            nth_error messages' i = nth_error messages i)
      /\ exists final,
           last messages = Some final
           /\ last messages'
              = Some (Message "user"
                        (TextAndImage (msg_content final)
                           ("data:image/jpeg;base64," +:+ base64_image)))
  end.
Proof.
  unfold AzureOpenAIService.attach_image.
  destruct (last messages) as [final |] eqn:Hlast.
  - assert (Hsplit : messages = removelast messages ++ [final]).
    { destruct (exists_last (l := messages)) as (front & final' & Heq).
      - intros ->. discriminate.
      - rewrite Heq in Hlast |- *. rewrite last_snoc in Hlast. injection Hlast as ->.
        rewrite removelast_last. reflexivity. }
    split; [| split].
    + rewrite Hsplit at 2. rewrite !length_app. reflexivity.
    + intros i Hi. rewrite Hsplit at 2.
      assert (Hlen : (i < length (removelast messages))%nat).
      { rewrite Hsplit, length_app in Hi. cbn in Hi. lia. }
      rewrite !nth_error_app1 by exact Hlen. reflexivity.
    + exists final. split; [reflexivity | apply last_snoc].
  - split; [| reflexivity].
    destruct messages as [| m rest]; [reflexivity |].
    exfalso. destruct (exists_last (l := m :: rest)) as (front & final & Heq); [discriminate |].
    rewrite Heq, last_snoc in Hlast. discriminate.
Qed.

(** X17.  For a model of the allow-list, [make_request_image] reads the
    file before anything else.  An error of the read leaves the method at
    once, and so does an empty list of messages (after the read): neither
    is retried and no request is sent. *)
Theorem make_request_image_fails_before_sending (o : outside) (self : service)
    (messages : list message) (image_path : string) (p : process) :
  In (model_name self) ["gpt-4o"; "gpt-4o-mini"; "gpt-4-turbo"] ->
  (forall e, read_image_base64 o image_path = Raise e ->
     AzureOpenAIService.make_request_image o self messages image_path p
     = (Raise e, Process (_services p) (instances p) (token_tracker p)
                   (trace p ++ [ReadFile image_path])))
  /\ (forall base64_image, read_image_base64 o image_path = Return base64_image ->
        messages = [] ->
        AzureOpenAIService.make_request_image o self messages image_path p
        = (Raise (Exn IndexError "list index out of range" None),
           Process (_services p) (instances p) (token_tracker p)
             (trace p ++ [ReadFile image_path]))).
Proof.
  intros Hvision.
  assert (Hguard : bool_decide (model_name self ∈ AzureOpenAIService.vision_models) = true).
  { apply bool_decide_eq_true_2. apply list_elem_of_In. exact Hvision. }
  split.
  - intros e Hread. unfold AzureOpenAIService.make_request_image. rewrite Hguard.
    cbn [negb]. unfold AzureOpenAIService.encode_image, mbind, M_bind, bind, emit, modify,
      deliver. cbn. rewrite Hread. reflexivity.
  - intros base64_image Hread ->. unfold AzureOpenAIService.make_request_image.
    rewrite Hguard. cbn [negb].
    unfold AzureOpenAIService.encode_image, mbind, M_bind, bind, emit, modify, deliver.
    cbn. rewrite Hread. reflexivity.
Qed.

(** X18.  For a model of the allow-list, a readable file and a non-empty
    list of messages, [make_request_image] answered at the first attempt
    returns the content of the answer; the one request sent carries the
    messages with the image attached to the last one, and the usage is
    recorded. *)
Theorem make_request_image_answered (o : outside) (self : service)
    (messages messages' : list message) (image_path base64_image : string) (p : process)
    (resp : response) (t' : TokenTracker.tracker) :
  let r := Request (service_client self) (Some (model_name self)) messages'
             (temperature self) (max_tokens self) None None None in
  In (model_name self) ["gpt-4o"; "gpt-4o-mini"; "gpt-4-turbo"] ->
  read_image_base64 o image_path = Return base64_image ->
  AzureOpenAIService.attach_image messages base64_image = Return messages' ->
  chat_completion o (chat_count p) r = Return resp ->
  TokenTracker.update_tokens_usage (model_name self) (usage_prompt_tokens resp)
    (usage_completion_tokens resp) (token_tracker p) = (Return tt, t') ->
  AzureOpenAIService.make_request_image o self messages image_path p
  = (Return (Some (resp_content resp)),
     Process (_services p) (instances p) t'
       (trace p ++ [ReadFile image_path; Printed "!"; ChatCompletion r])).
Proof.
  intros r Hvision Hread Hattach Hanswer Htrack.
  assert (Hguard : bool_decide (model_name self ∈ AzureOpenAIService.vision_models) = true).
  { apply bool_decide_eq_true_2. apply list_elem_of_In. exact Hvision. }
  unfold AzureOpenAIService.make_request_image. rewrite Hguard. cbn [negb].
  unfold AzureOpenAIService.encode_image.
  unfold mbind at 1 2 3, M_bind at 1 2 3, bind at 1 2 3, emit, modify, deliver.
  cbn beta iota. rewrite Hread, Hattach.
  set (q := Process (_services p) (instances p) (token_tracker p)
              (trace p ++ [ReadFile image_path])).
  rewrite azure_api_call_content.
  change (AzureOpenAIService.create self messages' None None None) with r.
  rewrite (retry_api_call_answered resp_content o (model_name self) r (fun _ => Exn APIError "" None)
             0%nat q resp t').
  - f_equal. unfold tracked, logged, q. cbn [after_refusals _services instances token_tracker trace
      stdout_write process_runtime]. rewrite <- !app_assoc. reflexivity.
  - lia.
  - intros i Hi. lia.
  - rewrite Nat.add_0_r.
    replace (chat_count q) with (chat_count p); [exact Hanswer |].
    unfold chat_count, q. cbn [trace]. rewrite List.filter_app, length_app. cbn. lia.
  - exact Htrack.
Qed.

End ProviderMore.

(* ===================================================================== *)
(** * Construction of the services                                         *)
(* ===================================================================== *)
Module ConstructionMore.
Import Py World Retry LLMService RetryFacts ServiceFacts RequestFacts.
#[local] Open Scope list_scope.

(** Parameters within the documented bounds: a temperature in [0, 2]
    and at least one token. *)
Definition valid_parameters (temperature : pyfloat) (max_tokens : Z) : Prop :=
  (0 <=? float_value temperature)%float = true
  /\ (float_value temperature <=? 2)%float = true
  /\ 1 <= max_tokens.

(** The parameters the two checks of [LLMService.__init__] let through:
    the valid ones, and a NaN temperature as well, for which both
    comparisons of the first check are false. *)
Definition passes_checks (temperature : pyfloat) (max_tokens : Z) : Prop :=
  (float_value temperature <? 0)%float || (2 <? float_value temperature)%float = false
  /\ 1 <= max_tokens.

Lemma valid_passes_checks temperature max_tokens :
  valid_parameters temperature max_tokens -> passes_checks temperature max_tokens.
Proof.
  intros (Hlow & Hhigh & Htokens). split; [| exact Htokens].
  apply orb_false_iff. split.
  - exact (FloatFacts.leb_not_ltb _ _ Hlow).
  - exact (FloatFacts.leb_not_ltb _ _ Hhigh).
Qed.

Lemma passes_checks_number temperature max_tokens :
  passes_checks temperature max_tokens ->
  is_nan (float_value temperature) = false ->
  valid_parameters temperature max_tokens.
Proof.
  intros [Ht Htokens] Hnum. apply orb_false_iff in Ht. destruct Ht as [Hlow Hhigh].
  split; [| split; [| exact Htokens]].
  - apply FloatFacts.not_ltb_leb; [exact Hnum | reflexivity | exact Hlow].
  - apply FloatFacts.not_ltb_leb; [reflexivity | exact Hnum | exact Hhigh].
Qed.

(** [p'] is [p] with more effects at the end of its trace. *)
Definition only_logs (p p' : process) : Prop :=
  exists evs, p' = Process (_services p) (instances p) (token_tracker p) (trace p ++ evs).

Lemma only_logs_refl p : only_logs p p.
Proof. exists []. rewrite app_nil_r. destruct p; reflexivity. Qed.

Lemma only_logs_trans p1 p2 p3 : only_logs p1 p2 -> only_logs p2 p3 -> only_logs p1 p3.
Proof.
  intros [evs ->] [evs' ->]. exists (evs ++ evs'). cbn. rewrite app_assoc. reflexivity.
Qed.

Lemma only_logs_logged ev p : only_logs p (logged ev p).
Proof. exists [ev]. reflexivity. Qed.

Lemma init_passes cls initialize_client model_name temperature max_tokens p :
  passes_checks temperature max_tokens ->
  LLMService.__init__ cls initialize_client model_name temperature max_tokens p
  = match initialize_client model_name (logged LoadDotenv p) with
    | (Return c, p') => (Return (Service cls model_name temperature max_tokens c), p')
    | (Raise e, p') => (Raise e, p')
    end.
Proof.
  intros [Ht Htokens].
  assert (Hm : (max_tokens <? 1) = false) by (apply Z.ltb_ge; exact Htokens).
  unfold LLMService.__init__. rewrite Ht, Hm.
  unfold mbind, M_bind, bind, emit, modify, mret, M_ret, ret. cbn.
  fold (logged LoadDotenv p).
  destruct (initialize_client model_name (logged LoadDotenv p)) as [[c | e] p']; reflexivity.
Qed.

Lemma init_valid cls initialize_client model_name temperature max_tokens p :
  valid_parameters temperature max_tokens ->
  LLMService.__init__ cls initialize_client model_name temperature max_tokens p
  = match initialize_client model_name (logged LoadDotenv p) with
    | (Return c, p') => (Return (Service cls model_name temperature max_tokens c), p')
    | (Raise e, p') => (Raise e, p')
    end.
Proof. intros Hvalid. apply init_passes, valid_passes_checks, Hvalid. Qed.

(** A constructor that returns has passed both checks. *)
Lemma init_returns cls initialize_client model_name temperature max_tokens p svc p' :
  LLMService.__init__ cls initialize_client model_name temperature max_tokens p
  = (Return svc, p') ->
  passes_checks temperature max_tokens
  /\ exists c, svc = Service cls model_name temperature max_tokens c
               /\ initialize_client model_name (logged LoadDotenv p) = (Return c, p').
Proof.
  intros Hinit.
  assert (Hpasses : passes_checks temperature max_tokens).
  { unfold passes_checks.
    destruct ((float_value temperature <? 0)%float || (2 <? float_value temperature)%float)
      eqn:Ht.
    { apply orb_true_iff in Ht.
      rewrite init_rejects in Hinit by tauto. discriminate. }
    destruct (Z.lt_ge_cases max_tokens 1) as [Htok | Htok].
    { rewrite init_rejects in Hinit by (right; right; exact Htok). discriminate. }
    split; [reflexivity | exact Htok]. }
  split; [exact Hpasses |].
  rewrite (init_passes _ _ _ _ _ _ Hpasses) in Hinit.
  destruct (initialize_client model_name (logged LoadDotenv p)) as [[c | e] p1];
    [| discriminate].
  injection Hinit as <- <-. exists c. split; reflexivity.
Qed.

(** X19.  The bounds of the checks are inclusive: with a temperature in
    [0, 2] (0 and 2 included) and [max_tokens >= 1], [LLMService.__init__]
    loads the environment file first and then ends as [initialize_client]
    does, returning an instance with exactly the given attributes or
    passing the error of [initialize_client] on unchanged. *)
Theorem init_accepts_valid_parameters (cls : provider)
    (initialize_client : string -> M process client) (model_name : string)
    (temperature : pyfloat) (max_tokens : Z) (p : process) :
  (0 <=? float_value temperature)%float = true ->
  (float_value temperature <=? 2)%float = true ->
  1 <= max_tokens ->
  LLMService.__init__ cls initialize_client model_name temperature max_tokens p
  = match initialize_client model_name
            (Process (_services p) (instances p) (token_tracker p) (trace p ++ [LoadDotenv]))
    with
    | (Return c, p') => (Return (Service cls model_name temperature max_tokens c), p')
    | (Raise e, p') => (Raise e, p')
    end.
Proof.
  intros Hlow Hhigh Htokens.
  exact (init_valid cls initialize_client model_name temperature max_tokens p
           (conj Hlow (conj Hhigh Htokens))).
Qed.

(** ** The Azure client *)

Definition azure_credentials_error : exn :=
  Exn EnvironmentError
    "Azure OpenAI API key or endpoint not found in environment variables." None.

Lemma opt_str_truthy_false (v : option string) :
  opt_str_truthy v = false <-> v = None \/ v = Some "".
Proof.
  destruct v as [[| ch rest] |]; cbn.
  - split; [intros _; right; reflexivity | reflexivity].
  - split; [discriminate | intros [H | H]; discriminate].
  - split; [intros _; left; reflexivity | reflexivity].
Qed.

Lemma opt_str_truthy_true (v : option string) (s : string) :
  v = Some s -> s <> "" -> opt_str_truthy v = true.
Proof. intros -> Hne. destruct s; [contradiction | reflexivity]. Qed.

(** X20.  With valid parameters, constructing an Azure service fails
    with an [EnvironmentError] exactly when the key or the endpoint is
    unset or empty, and then after [load_dotenv] only, without creating a
    client; otherwise it returns an instance whose client holds the key,
    the endpoint and the fixed API version. *)
Theorem azure_construction (o : outside) (model_name : string) (temperature : pyfloat)
    (max_tokens : Z) (p : process) :
  valid_parameters temperature max_tokens ->
  let key := getenv o "AZURE_OPENAI_KEY" in
  let endpoint := getenv o "AZURE_OPENAI_ENDPOINT" in
  ((key = None \/ key = Some "" \/ endpoint = None \/ endpoint = Some "") ->
     AzureOpenAIService.__init__ o model_name temperature max_tokens p
     = (Raise azure_credentials_error,
        Process (_services p) (instances p) (token_tracker p) (trace p ++ [LoadDotenv])))
  /\ (forall k e, key = Some k -> k <> "" -> endpoint = Some e -> e <> "" ->
        AzureOpenAIService.__init__ o model_name temperature max_tokens p
        = (Return (Service AzureOpenAI model_name temperature max_tokens
                     (AzureClient "2023-05-15" k e)),
           Process (_services p) (instances p) (token_tracker p)
             (trace p ++ [LoadDotenv; CreateClient (AzureClient "2023-05-15" k e)]))).
Proof.
  intros Hvalid key endpoint. split.
  - intros Hmissing.
    unfold AzureOpenAIService.__init__. rewrite (init_valid _ _ _ _ _ _ Hvalid).
    unfold AzureOpenAIService.initialize_client. fold key endpoint.
    assert (Hguard : negb (opt_str_truthy key) || negb (opt_str_truthy endpoint) = true).
    { apply orb_true_iff.
      destruct Hmissing as [H | [H | [H | H]]].
      - left. apply negb_true_iff, opt_str_truthy_false. left. exact H.
      - left. apply negb_true_iff, opt_str_truthy_false. right. exact H.
      - right. apply negb_true_iff, opt_str_truthy_false. left. exact H.
      - right. apply negb_true_iff, opt_str_truthy_false. right. exact H. }
    rewrite Hguard. reflexivity.
  - intros k e Hk Hkne He Hene.
    unfold AzureOpenAIService.__init__. rewrite (init_valid _ _ _ _ _ _ Hvalid).
    unfold AzureOpenAIService.initialize_client. fold key endpoint.
    rewrite (opt_str_truthy_true key k Hk Hkne), (opt_str_truthy_true endpoint e He Hene).
    rewrite Hk, He.
    unfold mbind, M_bind, bind, emit, modify, mret, M_ret, ret, logged. cbn.
    rewrite <- app_assoc. reflexivity.
Qed.

(** ** The HuggingFace client *)

Definition model_unavailable (model_name : string) : exn :=
  Exn ValueError
    ("Model '" +:+ model_name +:+
     "' is not available. Call `_get_available_models` to see all available models.")
    None.

(** The effects of the availability check. *)
Definition availability_check (o : outside) : list event :=
  [LoadDotenv; CreateClient (InferenceClient None (getenv o "HUGGINGFACE_API_TOKEN"));
   ListDeployedModels].

(** X21.  With valid parameters, constructing a HuggingFace service asks
    the API once for the deployed text-generation models.  An error of
    that call is passed on; a model that is not listed is refused with a
    [ValueError] naming it, before any client for the model exists; a
    listed model gives an instance whose client is bound to the model. *)
Theorem huggingface_construction (o : outside) (model_name : string) (temperature : pyfloat)
    (max_tokens : Z) (p : process) :
  valid_parameters temperature max_tokens ->
  let checked :=
    Process (_services p) (instances p) (token_tracker p)
      (trace p ++ availability_check o) in
  (forall e, list_deployed_models o = Raise e ->
     HuggingFaceService.__init__ o model_name temperature max_tokens p = (Raise e, checked))
  /\ (forall models, list_deployed_models o = Return models -> ~ In model_name models ->
        HuggingFaceService.__init__ o model_name temperature max_tokens p
        = (Raise (model_unavailable model_name), checked))
  /\ (forall models, list_deployed_models o = Return models -> In model_name models ->
        let c := InferenceClient (Some model_name) (getenv o "HUGGINGFACE_API_TOKEN") in
        HuggingFaceService.__init__ o model_name temperature max_tokens p
        = (Return (Service HuggingFace model_name temperature max_tokens c),
           Process (_services p) (instances p) (token_tracker p)
             (trace p ++ availability_check o ++ [CreateClient c]))).
Proof.
  intros Hvalid checked.
  assert (Hprobe : forall q,
    HuggingFaceService._get_available_models o q
    = (list_deployed_models o,
       Process (_services q) (instances q) (token_tracker q)
         (trace q ++ [CreateClient (InferenceClient None (getenv o "HUGGINGFACE_API_TOKEN"));
                      ListDeployedModels]))).
  { intros q. unfold HuggingFaceService._get_available_models, mbind, M_bind, bind, emit,
      modify, deliver. cbn. rewrite <- app_assoc.
    destruct (list_deployed_models o); reflexivity. }
  assert (Hchecked : forall evs,
    Process (_services (logged LoadDotenv p)) (instances (logged LoadDotenv p))
      (token_tracker (logged LoadDotenv p)) (trace (logged LoadDotenv p) ++ evs)
    = Process (_services p) (instances p) (token_tracker p) (trace p ++ LoadDotenv :: evs)).
  { intros evs. cbn. rewrite <- app_assoc. reflexivity. }
  split; [| split].
  - intros e Hlist.
    unfold HuggingFaceService.__init__. rewrite (init_valid _ _ _ _ _ _ Hvalid).
    unfold HuggingFaceService.initialize_client, mbind, M_bind, bind.
    rewrite Hprobe, Hlist, Hchecked. reflexivity.
  - intros models Hlist Hout.
    unfold HuggingFaceService.__init__. rewrite (init_valid _ _ _ _ _ _ Hvalid).
    unfold HuggingFaceService.initialize_client, mbind, M_bind, bind.
    rewrite Hprobe, Hlist, Hchecked.
    rewrite bool_decide_eq_false_2 by (rewrite list_elem_of_In; exact Hout).
    reflexivity.
  - intros models Hlist Hin c.
    unfold HuggingFaceService.__init__. rewrite (init_valid _ _ _ _ _ _ Hvalid).
    unfold HuggingFaceService.initialize_client, mbind, M_bind, bind.
    rewrite Hprobe, Hlist, Hchecked.
    rewrite bool_decide_eq_true_2 by (rewrite list_elem_of_In; exact Hin).
    cbn. unfold availability_check. rewrite <- !app_assoc. reflexivity.
Qed.

(** ** Constructors only log *)

Lemma init_only_logs cls initialize_client model_name temperature max_tokens p :
  (forall q, only_logs q (snd (initialize_client model_name q))) ->
  only_logs p (snd (LLMService.__init__ cls initialize_client model_name temperature
                      max_tokens p)).
Proof.
  intros Hclient. unfold LLMService.__init__.
  destruct (_ || _); [apply only_logs_refl |].
  destruct (max_tokens <? 1); [apply only_logs_refl |].
  unfold mbind, M_bind, bind, emit, modify, mret, M_ret, ret. cbn.
  fold (logged LoadDotenv p).
  pose proof (Hclient (logged LoadDotenv p)) as Hstep.
  destruct (initialize_client model_name (logged LoadDotenv p)) as [[c | e] p'];
    cbn [snd] in *;
    exact (only_logs_trans _ _ _ (only_logs_logged LoadDotenv p) Hstep).
Qed.

Lemma azure_initialize_client_only_logs o model_name q :
  only_logs q (snd (AzureOpenAIService.initialize_client o model_name q)).
Proof.
  unfold AzureOpenAIService.initialize_client.
  destruct (negb _ || negb _); [apply only_logs_refl |].
  cbn. eexists [_]. reflexivity.
Qed.

Lemma huggingface_initialize_client_only_logs o model_name q :
  only_logs q (snd (HuggingFaceService.initialize_client o model_name q)).
Proof.
  unfold HuggingFaceService.initialize_client, HuggingFaceService._get_available_models,
    mbind, M_bind, bind, emit, modify, deliver. cbn.
  destruct (list_deployed_models o) as [models | e]; cbn.
  - destruct (bool_decide _); cbn.
    + eexists [_; _; _]. rewrite <- !app_assoc. reflexivity.
    + eexists [_; _]. rewrite <- !app_assoc. reflexivity.
  - eexists [_; _]. rewrite <- !app_assoc. reflexivity.
Qed.

Lemma openai_initialize_client_only_logs o model_name q :
  only_logs q (snd (OpenAIService.initialize_client o model_name q)).
Proof.
  unfold OpenAIService.initialize_client, mbind, M_bind, bind, emit, modify, deliver.
  destruct (openai_initialize_client o model_name) as [c | e]; cbn.
  - eexists [_]. reflexivity.
  - apply only_logs_refl.
Qed.

Lemma construct_only_logs o cls model_name temperature max_tokens p :
  only_logs p (snd (construct o cls model_name temperature max_tokens p)).
Proof.
  destruct cls; cbn [construct];
    unfold AzureOpenAIService.__init__, HuggingFaceService.__init__, OpenAIService.__init__;
    apply init_only_logs; intros q.
  - apply azure_initialize_client_only_logs.
  - apply huggingface_initialize_client_only_logs.
  - apply openai_initialize_client_only_logs.
Qed.

Lemma construct_returns o cls model_name temperature max_tokens p svc p' :
  construct o cls model_name temperature max_tokens p = (Return svc, p') ->
  passes_checks temperature max_tokens
  /\ exists c, svc = Service cls model_name temperature max_tokens c.
Proof.
  destruct cls; cbn [construct];
    unfold AzureOpenAIService.__init__, HuggingFaceService.__init__, OpenAIService.__init__;
    intros Hinit; apply init_returns in Hinit;
    destruct Hinit as (Hvalid & c & -> & _); (split; [exact Hvalid | eauto]).
Qed.

End ConstructionMore.

(* ===================================================================== *)
(** * What the request methods leave alone                                 *)
(* ===================================================================== *)
Module RequestBounds.
Import Py World Retry LLMService RetryFacts ServiceFacts RequestFacts.
#[local] Open Scope list_scope.

Lemma api_call_content_extends_azure o self r p :
  extends 1 p (snd (AzureOpenAIService.api_call_content o self r p)).
Proof. rewrite azure_api_call_content. apply api_call_extends. Qed.

Lemma api_call_content_extends_huggingface o self r p :
  extends 1 p (snd (HuggingFaceService.api_call_content o self r p)).
Proof. rewrite huggingface_api_call_content. apply api_call_extends. Qed.

(** A call of a request method of one of the two services whose sources
    are given. *)
Inductive request_call :=
| AzureCallText (messages : list message)
| AzureCallJson (messages : list message) (json_scheme : string)
| AzureCallWithTools (messages : list message) (tools : list tool)
    (parallel_tool_calls return_only_tool_response : bool)
| AzureCallImage (messages : list message) (image_path : string)
| HuggingFaceCallText (messages : list message)
| HuggingFaceCallJson (messages : list message) (json_scheme : string)
| HuggingFaceCallWithTools (messages : list message) (tools : list tool)
    (parallel_tool_calls return_only_tool_response : bool)
| HuggingFaceCallImage (messages : list message) (image_path : string).

(** The process after the call, whether it returned or raised. *)
Definition after_request (o : outside) (self : service) (call : request_call)
    (p : process) : process :=
  match call with
  | AzureCallText messages =>
      snd (AzureOpenAIService.make_request o self messages p)
  | AzureCallJson messages json_scheme =>
      snd (AzureOpenAIService.make_request_json o self messages json_scheme p)
  | AzureCallWithTools messages tools parallel only =>
      snd (AzureOpenAIService.make_request_with_tools o self messages tools parallel only p)
  | AzureCallImage messages image_path =>
      snd (AzureOpenAIService.make_request_image o self messages image_path p)
  | HuggingFaceCallText messages =>
      snd (HuggingFaceService.make_request o self messages p)
  | HuggingFaceCallJson messages json_scheme =>
      snd (HuggingFaceService.make_request_json o self messages json_scheme p)
  | HuggingFaceCallWithTools messages tools parallel only =>
      snd (HuggingFaceService.make_request_with_tools o self messages tools parallel only p)
  | HuggingFaceCallImage messages image_path =>
      snd (HuggingFaceService.make_request_image o self messages image_path p)
  end.

Lemma after_request_extends o self call p : extends 3 p (after_request o self call p).
Proof.
  destruct call as [messages | messages json_scheme | messages tools parallel only
                    | messages image_path | messages | messages json_scheme
                    | messages tools parallel only | messages image_path];
    cbn [after_request].
  - apply retry_request_extends. intros q. apply api_call_content_extends_azure.
  - unfold AzureOpenAIService.make_request_json, mbind, M_bind, bind, deliver.
    rewrite json_messages_unchanged.
    apply retry_request_extends. intros q. apply api_call_content_extends_azure.
  - apply retry_request_extends. intros q.
    rewrite azure_api_call_tools. apply api_call_extends.
  - unfold AzureOpenAIService.make_request_image.
    destruct (negb _); [apply extends_refl |].
    unfold AzureOpenAIService.encode_image, mbind, M_bind, bind, emit, modify, deliver.
    cbn beta iota. fold (logged (ReadFile image_path) p).
    destruct (read_image_base64 o image_path) as [base64_image | e]; cbn [snd].
    + destruct (AzureOpenAIService.attach_image messages base64_image)
        as [messages' | e]; cbn [snd].
      * apply (extends_trans 0 3 p (logged (ReadFile image_path) p)).
        -- exact (extends_logged (ReadFile image_path) p).
        -- apply retry_request_extends. intros q. apply api_call_content_extends_azure.
      * apply (extends_weaken 0); [lia |]. exact (extends_logged (ReadFile image_path) p).
    + apply (extends_weaken 0); [lia |]. exact (extends_logged (ReadFile image_path) p).
  - apply retry_request_extends. intros q. apply api_call_content_extends_huggingface.
  - apply retry_request_extends. intros q. apply api_call_content_extends_huggingface.
  - unfold HuggingFaceService.make_request_with_tools.
    destruct parallel; [apply extends_refl |].
    apply retry_request_extends. intros q.
    rewrite huggingface_api_call_tools. apply api_call_extends.
  - apply extends_refl.
Qed.

(** X22.  Whatever the vendor and the tracker do, none of the eight
    request methods touches the registry of the factory or the instances;
    each one only adds effects at the end of the trace, among them at
    most three chat completions. *)
Theorem request_methods_extend (o : outside) (self : service) (messages : list message)
    (json_scheme image_path : string) (tools : list tool) (parallel only : bool)
    (p : process) :
  extends 3 p (snd (AzureOpenAIService.make_request o self messages p))
  /\ extends 3 p (snd (AzureOpenAIService.make_request_json o self messages json_scheme p))
  /\ extends 3 p (snd (AzureOpenAIService.make_request_with_tools o self messages tools
                         parallel only p))
  /\ extends 3 p (snd (AzureOpenAIService.make_request_image o self messages image_path p))
  /\ extends 3 p (snd (HuggingFaceService.make_request o self messages p))
  /\ extends 3 p (snd (HuggingFaceService.make_request_json o self messages json_scheme p))
  /\ extends 3 p (snd (HuggingFaceService.make_request_with_tools o self messages tools
                         parallel only p))
  /\ extends 3 p (snd (HuggingFaceService.make_request_image o self messages image_path p)).
Proof.
  split; [| split; [| split; [| split; [| split; [| split; [| split]]]]]].
  - exact (after_request_extends o self (AzureCallText messages) p).
  - exact (after_request_extends o self (AzureCallJson messages json_scheme) p).
  - exact (after_request_extends o self
             (AzureCallWithTools messages tools parallel only) p).
  - exact (after_request_extends o self (AzureCallImage messages image_path) p).
  - exact (after_request_extends o self (HuggingFaceCallText messages) p).
  - exact (after_request_extends o self (HuggingFaceCallJson messages json_scheme) p).
  - exact (after_request_extends o self
             (HuggingFaceCallWithTools messages tools parallel only) p).
  - exact (after_request_extends o self (HuggingFaceCallImage messages image_path) p).
Qed.

End RequestBounds.

(* ===================================================================== *)
(** * The registry of the factory                                          *)
(* ===================================================================== *)
Module FactoryMore.
Import Py World LLMServiceFactory ServiceFacts FactoryFacts ConstructionMore.
#[local] Open Scope list_scope.

(** The provider class a provider name selects. *)
Definition class_of (provider : string) : option World.provider :=
  if String.eqb provider "AzureOpenAI" then Some AzureOpenAI
  else if String.eqb provider "HuggingFace" then Some HuggingFace
  else if String.eqb provider "OpenAI" then Some OpenAI
  else None.

(** The instance a key stands for: built by the class the provider name
    selects, from the model name, the temperature object and the token
    limit of the key, which have passed the checks of the constructor. *)
Definition describes (key : service_key) (svc : service) : Prop :=
  let '(model, provider, temp, tokens) := key in
  model_name svc = model
  /\ class_of provider = Some (service_class svc)
  /\ temperature svc = temp
  /\ max_tokens svc = tokens
  /\ passes_checks temp tokens.

(** The registry is sound: every entry refers to an instance built for
    its key, and no two entries share an instance. *)
Definition registry_ok (p : process) : Prop :=
  NoDup (map snd (_services p))
  /\ forall key ref, In (key, ref) (_services p) ->
       exists svc, nth_error (instances p) ref = Some svc /\ describes key svc.

(** How [get_service] ends for a key that is not registered. *)
Definition stored (key : service_key) (svc : service) (p : process) : process :=
  Process (_services p ++ [(key, length (instances p))]) (instances p ++ [svc])
    (token_tracker p) (trace p).

Lemma get_service_miss o model_name provider temperature max_tokens p :
  lookup_service (model_name, provider, temperature, max_tokens) (_services p) = None ->
  get_service o model_name provider temperature max_tokens p
  = match class_of provider with
    | None => (Raise (unsupported_provider provider), p)
    | Some cls =>
        match construct o cls model_name temperature max_tokens p with
        | (Return svc, p1) =>
            (Return (length (instances p1)),
             stored (model_name, provider, temperature, max_tokens) svc p1)
        | (Raise e, p1) => (Raise e, p1)
        end
    end.
Proof.
  intros Hmiss.
  assert (Hbuilt : forall (init : M process service),
    (forall q, only_logs q (snd (init q))) ->
    ((instance ← init;
      store (model_name, provider, temperature, max_tokens) instance);;
     p1 ← get;
     match lookup_service (model_name, provider, temperature, max_tokens) (_services p1) with
     | Some ref => mret ref
     | None => raise (Exn KeyError "key" None)
     end) p
    = match init p with
      | (Return svc, p1) =>
          (Return (length (instances p1)),
           stored (model_name, provider, temperature, max_tokens) svc p1)
      | (Raise e, p1) => (Raise e, p1)
      end).
  { intros init Hinit. unfold mbind, M_bind, bind, get, store, modify.
    pose proof (Hinit p) as [evs Hlogs].
    destruct (init p) as [[svc | e] p1]; [| reflexivity].
    cbn [snd] in Hlogs. cbn beta iota. cbn [_services].
    rewrite lookup_service_app.
    assert (Hmiss1 : lookup_service (model_name, provider, temperature, max_tokens)
                       (_services p1) = None) by (rewrite Hlogs; exact Hmiss).
    rewrite Hmiss1, key_eqb_refl. reflexivity. }
  unfold get_service.
  unfold mbind at 1, M_bind at 1, bind at 1, get at 1. cbn beta iota.
  rewrite Hmiss.
  rewrite bool_decide_eq_false_2 by (intros [x Hx]; discriminate).
  cbn [negb]. unfold class_of.
  destruct (String.eqb provider "AzureOpenAI").
  { exact (Hbuilt (AzureOpenAIService.__init__ o model_name temperature max_tokens)
             (construct_only_logs o AzureOpenAI model_name temperature max_tokens)). }
  destruct (String.eqb provider "HuggingFace").
  { exact (Hbuilt (HuggingFaceService.__init__ o model_name temperature max_tokens)
             (construct_only_logs o HuggingFace model_name temperature max_tokens)). }
  destruct (String.eqb provider "OpenAI").
  { exact (Hbuilt (OpenAIService.__init__ o model_name temperature max_tokens)
             (construct_only_logs o OpenAI model_name temperature max_tokens)). }
  reflexivity.
Qed.

Lemma get_service_cases o model_name provider temperature max_tokens p :
  let key := (model_name, provider, temperature, max_tokens) in
  (exists ref, lookup_service key (_services p) = Some ref
               /\ get_service o model_name provider temperature max_tokens p = (Return ref, p))
  \/ (lookup_service key (_services p) = None
      /\ exists e p1, get_service o model_name provider temperature max_tokens p = (Raise e, p1)
                      /\ only_logs p p1)
  \/ (lookup_service key (_services p) = None
      /\ exists cls svc p1,
           class_of provider = Some cls
           /\ construct o cls model_name temperature max_tokens p = (Return svc, p1)
           /\ only_logs p p1
           /\ get_service o model_name provider temperature max_tokens p
              = (Return (length (instances p1)), stored key svc p1)).
Proof.
  intros key.
  destruct (lookup_service key (_services p)) as [ref |] eqn:Hlook.
  - left. exists ref. split; [reflexivity | apply get_service_hit; exact Hlook].
  - right. rewrite (get_service_miss o model_name provider temperature max_tokens p Hlook).
    destruct (class_of provider) as [cls |] eqn:Hcls.
    + pose proof (construct_only_logs o cls model_name temperature max_tokens p) as Hlogs.
      destruct (construct o cls model_name temperature max_tokens p) as [[svc | e] p1] eqn:Hc;
        cbn [snd] in Hlogs.
      * right. split; [reflexivity |]. exists cls, svc, p1. repeat split; assumption.
      * left. split; [reflexivity |]. exists e, p1. split; [reflexivity | exact Hlogs].
    + left. split; [reflexivity |]. eexists _, p. split; [reflexivity | apply only_logs_refl].
Qed.

Lemma lookup_service_found key registry ref :
  lookup_service key registry = Some ref ->
  exists k, In (k, ref) registry /\ key_eqb k key = true.
Proof.
  induction registry as [| [k r] registry IH]; cbn; [discriminate |].
  destruct (key_eqb k key) eqn:Heq.
  - intros [= ->]. exists k. split; [left; reflexivity | exact Heq].
  - intros Hrest. destruct (IH Hrest) as (k' & Hin & Hk'). exists k'. split; [right |]; assumption.
Qed.

Lemma lookup_service_keeps key registry ref entry :
  lookup_service key registry = Some ref ->
  lookup_service key (registry ++ [entry]) = Some ref.
Proof. intros Hlook. destruct entry as [k r]. rewrite lookup_service_app, Hlook. reflexivity. Qed.

Lemma NoDup_snd_In {A B} (l : list (A * B)) a1 a2 b :
  NoDup (map snd l) -> In (a1, b) l -> In (a2, b) l -> a1 = a2.
Proof.
  induction l as [| [a b'] l IH]; cbn; [contradiction |].
  rewrite NoDup_cons. intros [Hnotin Hnodup] [H1 | H1] [H2 | H2].
  - congruence.
  - injection H1 as -> ->. exfalso. apply Hnotin. apply list_elem_of_In.
    apply in_map_iff. exists (a2, b). split; [reflexivity | exact H2].
  - injection H2 as -> ->. exfalso. apply Hnotin. apply list_elem_of_In.
    apply in_map_iff. exists (a1, b). split; [reflexivity | exact H1].
  - exact (IH Hnodup H1 H2).
Qed.

Lemma nth_error_Some_lt {A} (l : list A) n x :
  nth_error l n = Some x -> (n < length l)%nat.
Proof. intros Hnth. apply nth_error_Some. congruence. Qed.

Lemma registry_ok_fresh : registry_ok fresh.
Proof. split; [constructor | intros key ref []]. Qed.

Lemma registry_ok_same_store p p' :
  _services p' = _services p -> instances p' = instances p ->
  registry_ok p -> registry_ok p'.
Proof. intros Hs Hi [Hnodup Hentries]. split; rewrite ?Hs, ?Hi; assumption. Qed.

Lemma registry_ok_only_logs p p' : only_logs p p' -> registry_ok p -> registry_ok p'.
Proof. intros [evs ->]. apply registry_ok_same_store; reflexivity. Qed.

Lemma registry_ok_stored key svc p :
  registry_ok p -> describes key svc -> registry_ok (stored key svc p).
Proof.
  intros [Hnodup Hentries] Hdesc. split; cbn [stored _services instances].
  - rewrite map_app. cbn [map snd]. apply NoDup_app. split; [exact Hnodup |]. split.
    + intros ref Hold Hnew. apply list_elem_of_In in Hold, Hnew.
      destruct Hnew as [<- | []].
      apply in_map_iff in Hold. destruct Hold as ([k r] & Hr & Hin). cbn in Hr. subst r.
      destruct (Hentries k _ Hin) as (svc0 & Hnth & _).
      apply nth_error_Some_lt in Hnth. lia.
    + apply NoDup_singleton.
  - intros k ref Hin. apply in_app_or in Hin. destruct Hin as [Hold | [Hnew | []]].
    + destruct (Hentries k ref Hold) as (svc0 & Hnth & Hd). exists svc0. split; [| exact Hd].
      rewrite nth_error_app1 by (apply nth_error_Some_lt in Hnth; exact Hnth). exact Hnth.
    + injection Hnew as <- <-. exists svc. split; [| exact Hdesc].
      rewrite nth_error_app2 by lia. rewrite Nat.sub_diag. reflexivity.
Qed.

(** The registry stays sound across [get_service], however the call ends. *)
Lemma get_service_registry_ok o model_name provider temperature max_tokens p :
  registry_ok p ->
  registry_ok (snd (get_service o model_name provider temperature max_tokens p)).
Proof.
  intros Hok.
  destruct (get_service_cases o model_name provider temperature max_tokens p)
    as [(ref & _ & ->) | [(_ & e & p1 & -> & Hlogs) | (_ & cls & svc & p1 & Hcls & Hc & Hlogs & ->)]];
    cbn [snd].
  - exact Hok.
  - exact (registry_ok_only_logs p p1 Hlogs Hok).
  - apply registry_ok_stored; [exact (registry_ok_only_logs p p1 Hlogs Hok) |].
    destruct (construct_returns o cls model_name temperature max_tokens p svc p1 Hc)
      as (Hvalid & c & ->).
    cbn. repeat split; try assumption; apply Hvalid.
Qed.

(** X23.  A call of [get_service] that raises caches nothing: the
    registry, the instances and the tracker are as before, only the trace
    of effects has grown. *)
Theorem get_service_failure_caches_nothing (o : outside) (model_name provider : string)
    (temperature : pyfloat) (max_tokens : Z) (p p' : process) (e : exn) :
  get_service o model_name provider temperature max_tokens p = (Raise e, p') ->
  _services p' = _services p
  /\ instances p' = instances p
  /\ token_tracker p' = token_tracker p
  /\ exists evs, trace p' = trace p ++ evs.
Proof.
  intros Hraise.
  destruct (get_service_cases o model_name provider temperature max_tokens p)
    as [(ref & _ & Hrun) | [(_ & e1 & p1 & Hrun & Hlogs) | (_ & cls & svc & p1 & _ & _ & _ & Hrun)]];
    rewrite Hrun in Hraise; try discriminate.
  injection Hraise as _ <-. destruct Hlogs as [evs ->].
  repeat split. exists evs. reflexivity.
Qed.

(** What is registered stays registered across [get_service]. *)
Lemma get_service_keeps o model_name provider temperature max_tokens p key ref svc :
  lookup_service key (_services p) = Some ref ->
  nth_error (instances p) ref = Some svc ->
  let p' := snd (get_service o model_name provider temperature max_tokens p) in
  lookup_service key (_services p') = Some ref
  /\ nth_error (instances p') ref = Some svc.
Proof.
  intros Hlook Hnth p'. subst p'.
  destruct (get_service_cases o model_name provider temperature max_tokens p)
    as [(r & _ & ->) | [(_ & e & p1 & -> & [evs ->]) | (_ & cls & s & p1 & _ & _ & [evs ->] & ->)]];
    cbn [snd stored _services instances].
  - split; assumption.
  - split; assumption.
  - split.
    + apply lookup_service_keeps. exact Hlook.
    + rewrite nth_error_app1 by (apply nth_error_Some_lt in Hnth; exact Hnth). exact Hnth.
Qed.

(** X24.  The registry never evicts or replaces: a key that is
    registered keeps its reference, and the reference its instance, across
    any later call of [get_service], whatever its arguments and however it
    ends. *)
Theorem get_service_never_evicts (o : outside) (model_name provider : string)
    (temperature : pyfloat) (max_tokens : Z) (p : process) (key : service_key) (ref : nat)
    (svc : service) :
  lookup_service key (_services p) = Some ref ->
  nth_error (instances p) ref = Some svc ->
  let p' := snd (get_service o model_name provider temperature max_tokens p) in
  lookup_service key (_services p') = Some ref
  /\ nth_error (instances p') ref = Some svc.
Proof.
  exact (get_service_keeps o model_name provider temperature max_tokens p key ref svc).
Qed.

(** What [get_service] returns on a sound registry. *)
Lemma get_service_designates o model_name provider temperature max_tokens p ref p' :
  registry_ok p ->
  get_service o model_name provider temperature max_tokens p = (Return ref, p') ->
  registry_ok p'
  /\ exists svc,
       nth_error (instances p') ref = Some svc
       /\ World.model_name svc = model_name
       /\ class_of provider = Some (service_class svc)
       /\ float_same (World.temperature svc) temperature = true
       /\ World.max_tokens svc = max_tokens
       /\ passes_checks (World.temperature svc) (World.max_tokens svc).
Proof.
  intros Hok Hrun. split.
  - pose proof (get_service_registry_ok o model_name provider temperature max_tokens p Hok)
      as Hok'.
    rewrite Hrun in Hok'. exact Hok'.
  - pose proof (get_service_registry_ok o model_name provider temperature max_tokens p Hok)
      as [_ Hentries].
    rewrite Hrun in Hentries. cbn [snd] in Hentries.
    pose proof (get_service_registered o model_name provider temperature max_tokens p ref p'
                  Hrun) as Hlook.
    destruct (lookup_service_found _ _ _ Hlook) as ([[[m pr] t] n] & Hin & Heq).
    destruct (Hentries _ _ Hin) as (svc & Hnth & Hm & Hc & Ht & Hn & Hpasses).
    unfold key_eqb in Heq. rewrite !andb_true_iff in Heq.
    destruct Heq as [[[Hm' Hp'] Ht'] Hn'].
    apply String.eqb_eq in Hm', Hp'. apply Z.eqb_eq in Hn'.
    subst m pr n. exists svc. rewrite Ht, Hn.
    split; [exact Hnth |]. split; [exact Hm |]. split; [exact Hc |].
    split; [exact Ht' |]. split; [reflexivity | exact Hpasses].
Qed.

(** X25.  On a sound registry (that of a fresh process, and of every
    process reached from it), the reference [get_service] returns
    designates an instance of the requested provider class with the
    requested model name, temperature and [max_tokens], for a cached
    instance as for a new one.  These parameters have passed the checks
    of the constructor: the temperature is neither below 0 nor above 2,
    so it lies in [0, 2] unless it is NaN; [max_tokens] is at least 1.
    The registry is sound again afterwards. *)
Theorem get_service_returns_requested (o : outside) (model_name provider : string)
    (temperature : pyfloat) (max_tokens : Z) (p p' : process) (ref : nat) :
  registry_ok p ->
  get_service o model_name provider temperature max_tokens p = (Return ref, p') ->
  registry_ok p'
  /\ exists svc,
       nth_error (instances p') ref = Some svc
       /\ World.model_name svc = model_name
       /\ class_of provider = Some (service_class svc)
       /\ float_same (World.temperature svc) temperature = true
       /\ World.max_tokens svc = max_tokens
       /\ (float_value (World.temperature svc) <? 0)%float = false
       /\ (2 <? float_value (World.temperature svc))%float = false
       /\ 1 <= World.max_tokens svc
       /\ (is_nan (float_value (World.temperature svc)) = false ->
           (0 <=? float_value (World.temperature svc))%float = true
           /\ (float_value (World.temperature svc) <=? 2)%float = true).
Proof.
  intros Hok Hrun.
  destruct (get_service_designates o model_name provider temperature max_tokens p ref p'
              Hok Hrun) as (Hok' & svc & Hnth & Hm & Hc & Ht & Hn & Hpasses).
  split; [exact Hok' |]. exists svc.
  pose proof Hpasses as [Hchecks Htokens]. apply orb_false_iff in Hchecks.
  destruct Hchecks as [Hlow Hhigh].
  split; [exact Hnth |]. split; [exact Hm |]. split; [exact Hc |].
  split; [exact Ht |]. split; [exact Hn |].
  split; [exact Hlow |]. split; [exact Hhigh |]. split; [exact Htokens |].
  intros Hnum. destruct (passes_checks_number _ _ Hpasses Hnum) as (H0 & H2 & _).
  split; assumption.
Qed.

(** X26.  On a sound registry, two calls whose argument tuples differ
    return different instances. *)
Theorem get_service_distinct_keys (o o' : outside) (model1 provider1 : string)
    (temperature1 : pyfloat) (max_tokens1 : Z) (model2 provider2 : string)
    (temperature2 : pyfloat)
    (max_tokens2 : Z) (p p1 p2 : process) (ref1 ref2 : nat) :
  registry_ok p ->
  key_eqb (model1, provider1, temperature1, max_tokens1)
          (model2, provider2, temperature2, max_tokens2) = false ->
  get_service o model1 provider1 temperature1 max_tokens1 p = (Return ref1, p1) ->
  get_service o' model2 provider2 temperature2 max_tokens2 p1 = (Return ref2, p2) ->
  ref1 <> ref2.
Proof.
  intros Hok Hdiff Hfirst Hsecond Hsame. subst ref2.
  pose proof (get_service_registry_ok o model1 provider1 temperature1 max_tokens1 p Hok) as Hok1.
  rewrite Hfirst in Hok1. cbn [snd] in Hok1.
  pose proof (get_service_registry_ok o' model2 provider2 temperature2 max_tokens2 p1 Hok1)
    as Hok2.
  rewrite Hsecond in Hok2. cbn [snd] in Hok2.
  pose proof (get_service_registered _ _ _ _ _ _ _ _ Hfirst) as Hlook1.
  pose proof (get_service_registered _ _ _ _ _ _ _ _ Hsecond) as Hlook2.
  destruct (lookup_service_found _ _ _ Hlook1) as (k1 & Hin1 & Heq1).
  destruct (proj2 Hok1 _ _ Hin1) as (svc & Hnth & _).
  destruct (get_service_keeps o' model2 provider2 temperature2 max_tokens2 p1
              (model1, provider1, temperature1, max_tokens1) ref1 svc Hlook1 Hnth)
    as [Hlook1' _].
  rewrite Hsecond in Hlook1'. cbn [snd] in Hlook1'.
  destruct (lookup_service_found _ _ _ Hlook1') as (ka & Hina & Heqa).
  destruct (lookup_service_found _ _ _ Hlook2) as (kb & Hinb & Heqb).
  pose proof (NoDup_snd_In _ _ _ _ (proj1 Hok2) Hina Hinb) as ->.
  rewrite key_eqb_sym in Heqa.
  rewrite (key_eqb_trans _ _ _ Heqa Heqb) in Hdiff. discriminate.
Qed.

(** X27.  On a sound registry a provider name other than the three
    recognised ones is never served from the cache: every call with it
    raises the [ValueError] that lists the supported providers and changes
    nothing. *)
Theorem get_service_unknown_provider (o : outside) (model_name provider : string)
    (temperature : pyfloat) (max_tokens : Z) (p : process) :
  registry_ok p ->
  provider <> "AzureOpenAI" -> provider <> "HuggingFace" -> provider <> "OpenAI" ->
  get_service o model_name provider temperature max_tokens p
  = (Raise (Exn ValueError
              ("Unsupported provider: " +:+ provider +:+
               ". Supported providers: AzureOpenAI, HuggingFace and OpenAI.") None), p).
Proof.
  intros [_ Hentries] Hazure Hhf Hopenai.
  assert (Hnone : class_of provider = None).
  { unfold class_of. apply String.eqb_neq in Hazure, Hhf, Hopenai.
    rewrite Hazure, Hhf, Hopenai. reflexivity. }
  apply get_service_unsupported; try assumption.
  destruct (lookup_service _ (_services p)) as [ref |] eqn:Hlook; [| reflexivity].
  exfalso.
  destruct (lookup_service_found _ _ _ Hlook) as ([[[m pr] t] n] & Hin & Heq).
  destruct (Hentries _ _ Hin) as (svc & _ & _ & Hcls & _).
  unfold key_eqb in Heq. rewrite !andb_true_iff in Heq.
  destruct Heq as [[[_ Hp'] _] _]. apply String.eqb_eq in Hp'. subst pr.
  congruence.
Qed.

End FactoryMore.

(* ===================================================================== *)
(** * The cache of the factory over time                                   *)
(* ===================================================================== *)
Module FactoryCaching.
Import Py World LLMServiceFactory ServiceFacts RequestFacts RequestBounds FactoryFacts
  ConstructionMore FactoryMore.
#[local] Open Scope list_scope.

(** [later p q]: the process [q] is reached from [p] by calls of
    [get_service] and of the request methods, with any arguments, in any
    world outside, however each call ends. *)
Inductive later (p : process) : process -> Prop :=
| later_now : later p p
| later_get_service q o model_name provider temperature max_tokens :
    later p q ->
    later p (snd (get_service o model_name provider temperature max_tokens q))
| later_request q o self call :
    later p q ->
    later p (after_request o self call q).

Lemma later_keeps p q key ref svc :
  later p q ->
  lookup_service key (_services p) = Some ref ->
  nth_error (instances p) ref = Some svc ->
  lookup_service key (_services q) = Some ref
  /\ nth_error (instances q) ref = Some svc.
Proof.
  intros Hlater Hlook Hnth.
  induction Hlater as [| q o model_name provider temperature max_tokens _ [IHl IHn]
                       | q o self call _ [IHl IHn]].
  - split; assumption.
  - exact (get_service_keeps o model_name provider temperature max_tokens q key ref svc
             IHl IHn).
  - destruct (after_request_extends o self call q) as (Hs & Hi & _).
    rewrite Hs, Hi. split; assumption.
Qed.

Lemma later_registry_ok p q : later p q -> registry_ok p -> registry_ok q.
Proof.
  intros Hlater Hok.
  induction Hlater as [| q o model_name provider temperature max_tokens _ IH
                       | q o self call _ IH].
  - exact Hok.
  - exact (get_service_registry_ok o model_name provider temperature max_tokens q IH).
  - destruct (after_request_extends o self call q) as (Hs & Hi & _).
    exact (registry_ok_same_store q _ Hs Hi IH).
Qed.

(** Every process reached from a fresh one has a sound registry. *)
Lemma reachable_registry_ok q : later fresh q -> registry_ok q.
Proof. intros Hlater. exact (later_registry_ok fresh q Hlater registry_ok_fresh). Qed.

(** Two temperatures of the same value that is not NaN are the same key
    field. *)
Lemma float_same_identical (a b : pyfloat) :
  is_nan (float_value a) = false ->
  float_value b = float_value a ->
  float_same a b = true.
Proof.
  intros Hnum Hvalue. rewrite (FloatFacts.float_same_number a b Hnum), Hvalue.
  unfold is_nan in Hnum. apply negb_false_iff in Hnum. exact Hnum.
Qed.


(** ** Concrete runs *)

Definition after_first_call : process :=
  snd (get_service demo_outside "gpt-4o" "AzureOpenAI" (float_obj 1) 4096 fresh).

(** A second request for the same tuple, after a request for another
    service and a request sent through it, in a world where nothing could
    be built any more. *)
Definition busy_afterwards : process :=
  after_request demo_outside demo_azure (AzureCallText plain_messages)
    (snd (get_service demo_outside "gpt-35-turbo" "AzureOpenAI" (float_obj 0.5) 256
            after_first_call)).

Definition unreachable_outside : outside := {|
  getenv _ := None;
  list_deployed_models := Raise (Exn APIError "503" None);
  chat_completion _ _ := Raise (Exn APIError "503" None);
  read_image_base64 _ := Raise (Exn FileNotFoundError "No such file or directory" None);
  openai_initialize_client _ := Raise (Exn APIError "503" None)
|}.



End FactoryCaching.

(* ===================================================================== *)
(** * Concrete runs of the services and of the factory                     *)
(* ===================================================================== *)
Module Runs.
Import Py World Retry LLMService RetryFacts ServiceFacts RequestFacts RequestMore
  ProviderMore ConstructionMore LLMServiceFactory FactoryFacts FactoryMore.
#[local] Open Scope list_scope.

(** A vendor that refuses the first request and answers the later ones,
    and one that refuses them all. *)
Definition flaky_outside : outside := {|
  getenv := getenv demo_outside;
  list_deployed_models := list_deployed_models demo_outside;
  chat_completion n _ := if (n =? 0)%nat then Raise (boom "timeout") else Return demo_response;
  read_image_base64 _ := Return "aGVsbG8=";
  openai_initialize_client := openai_initialize_client demo_outside
|}.

Definition down_outside : outside := {|
  getenv _ := None;
  list_deployed_models := Raise (boom "503");
  chat_completion _ _ := Raise (boom "503");
  read_image_base64 := read_image_base64 demo_outside;
  openai_initialize_client := openai_initialize_client demo_outside
|}.

Definition vision_azure : service :=
  Service AzureOpenAI "gpt-4o" (float_obj 1) 4096
    (AzureClient "2023-05-15" "secret" "https://example.openai.azure.com").

Definition collision_azure : service :=
  Service AzureOpenAI "overall_cost" (float_obj 1) 4096
    (AzureClient "2023-05-15" "secret" "https://example.openai.azure.com").

(** The tracker after the usage of [demo_response] for a model. *)
Definition tracked_for (model : string) : TokenTracker.tracker :=
  snd (TokenTracker.update_tokens_usage model 12 3 TokenTracker.initial).

Definition weather_tools : list tool :=
  [Tool "get_weather" "Weather of a city."
     [("city", ToolParam "string" "Name of the city." None);
      ("unit", ToolParam "string" "Unit." (Some ["celsius"; "fahrenheit"]))]
     ["city"]].

Definition loose_tools : list tool :=
  [Tool "get_weather" "Weather of a city."
     [("city", ToolParam "string" "Name of the city." (Some []))] ["city"]].

Lemma text_request_answered_witness :
  run_text_method AzureMakeRequest flaky_outside demo_azure plain_messages fresh
  = (Return (Some (Some "{}")),
     Process [] [] (tracked_for "gpt-35-turbo")
       ([] ++ attempts_trace (request_of AzureMakeRequest demo_azure plain_messages) 1)).
Proof.
  apply (text_request_answered AzureMakeRequest flaky_outside demo_azure plain_messages fresh
           (fun _ => boom "timeout") 1 demo_response (tracked_for "gpt-35-turbo")).
  - lia.
  - intros i Hi. assert (i = 0%nat) as -> by lia. split; reflexivity.
  - reflexivity.
  - vm_compute. reflexivity.
Defined.

Lemma text_request_refused_witness :
  run_text_method HuggingFaceMakeRequest down_outside demo_huggingface plain_messages fresh
  = (Raise (Exn RuntimeError "API request failed after 3 retries: 503" (Some (boom "503"))),
     Process [] [] TokenTracker.initial
       ([] ++ attempts_trace
                (request_of HuggingFaceMakeRequest demo_huggingface plain_messages) 2)).
Proof.
  apply (text_request_refused HuggingFaceMakeRequest down_outside demo_huggingface
           plain_messages fresh (fun _ => boom "503")).
  intros i Hi. split; reflexivity.
Defined.

Lemma text_request_untracked_is_resent_witness :
  exists e p',
    run_text_method AzureMakeRequest demo_outside collision_azure plain_messages fresh
    = (Raise (retries_exhausted default_retries e), p')
    /\ exn_cls e = TypeError
    /\ chat_count p' = (chat_count fresh + 3)%nat
    /\ TokenTracker.tokens_usage_file (token_tracker p')
       = TokenTracker.tokens_usage_file (token_tracker fresh).
Proof.
  apply (text_request_untracked_is_resent AzureMakeRequest demo_outside collision_azure
           plain_messages fresh).
  - reflexivity.
  - intros i Hi. exists demo_response. reflexivity.
Defined.


Example loose_tools_stripped :
  HuggingFaceService.strip_empty_enums loose_tools
  = [Tool "get_weather" "Weather of a city."
       [("city", ToolParam "string" "Name of the city." None)] ["city"]].
Proof. reflexivity. Qed.

Lemma tools_request_answered_witness :
  HuggingFaceService.make_request_with_tools demo_outside demo_huggingface plain_messages
    loose_tools false false fresh
  = (Return (Some (tool_reply_contract false demo_response)),
     Process [] [] (tracked_for "meta-llama/Meta-Llama-3-8B-Instruct")
       ([] ++ [Printed "!";
               ChatCompletion
                 (Request (service_client demo_huggingface) None plain_messages
                    (float_obj 1) 4096 None
                    (Some (HuggingFaceService.strip_empty_enums loose_tools))
                    (Some "auto"))])).
Proof.
  refine (proj1 (proj2 (tools_request_answered demo_outside demo_huggingface plain_messages
                          loose_tools false false fresh demo_response
                          (tracked_for "meta-llama/Meta-Llama-3-8B-Instruct") _)) _).
  - vm_compute. reflexivity.
  - reflexivity.
Defined.

(** A vendor that refuses the first request and then answers with a
    tool call. *)
Definition calling_response : response :=
  Response None (Some [ToolCall "call_1" "get_weather" "{}"]) 20 9.

Definition calling_outside : outside := {|
  getenv := getenv demo_outside;
  list_deployed_models := list_deployed_models demo_outside;
  chat_completion n _ :=
    if (n =? 0)%nat then Raise (boom "timeout") else Return calling_response;
  read_image_base64 := read_image_base64 demo_outside;
  openai_initialize_client := openai_initialize_client demo_outside
|}.

Lemma make_request_with_tools_reply_witness :
  fst (AzureOpenAIService.make_request_with_tools calling_outside demo_azure plain_messages
         weather_tools false false fresh)
  = Return (Some (ReplyToolCalls (Some [ToolCall "call_1" "get_weather" "{}"]))).
Proof.
  refine (f_equal fst
            (proj1 (make_request_with_tools_reply calling_outside demo_azure plain_messages
                      weather_tools false false fresh (fun _ => boom "timeout") 1
                      calling_response
                      (snd (TokenTracker.update_tokens_usage "gpt-35-turbo" 20 9
                              TokenTracker.initial)) _ _) _ _)).
  - lia.
  - vm_compute. reflexivity.
  - intros i Hi. assert (i = 0%nat) as -> by lia. split; reflexivity.
  - reflexivity.
Defined.

(** A response that reaches the method and is not returned: for a
    deployment called ["overall_cost"] the tracker raises inside the
    retried closure, so each of the three answers is thrown away and the
    method ends with the [RuntimeError] of the exhausted retries. *)
Lemma make_request_with_tools_reply_refuted :
  exists e p',
    AzureOpenAIService.make_request_with_tools demo_outside collision_azure plain_messages
      weather_tools false true fresh = (Raise e, p')
    /\ exn_cls e = RuntimeError
    /\ option_map exn_cls (exn_context e) = Some TypeError
    /\ chat_count p' = 3%nat
    /\ chat_completion demo_outside 0
         (AzureOpenAIService.create collision_azure plain_messages None
            (Some weather_tools) (Some "auto"))
       = Return demo_response.
Proof.
  eexists. eexists. split; [vm_compute; reflexivity |].
  repeat split.
Qed.

Lemma make_request_image_fails_before_sending_witness :
  AzureOpenAIService.make_request_image demo_outside vision_azure plain_messages
    "photo.jpg" fresh
  = (Raise (Exn FileNotFoundError "No such file or directory" None),
     Process [] [] TokenTracker.initial ([] ++ [ReadFile "photo.jpg"])).
Proof.
  refine (proj1 (make_request_image_fails_before_sending demo_outside vision_azure
                   plain_messages "photo.jpg" fresh _) _ _).
  - left. reflexivity.
  - reflexivity.
Defined.

Definition pictured_messages : list message :=
  [Message "system" (Text "You are a helpful assistant.");
   Message "user"
     (TextAndImage (Text "List three colours.") "data:image/jpeg;base64,aGVsbG8=")].

Lemma make_request_image_answered_witness :
  AzureOpenAIService.make_request_image
    {| getenv := getenv demo_outside;
       list_deployed_models := list_deployed_models demo_outside;
       chat_completion := chat_completion demo_outside;
       read_image_base64 := read_image_base64 flaky_outside;
       openai_initialize_client := openai_initialize_client demo_outside |}
    vision_azure plain_messages "photo.jpg" fresh
  = (Return (Some (Some "{}")),
     Process [] [] (tracked_for "gpt-4o")
       ([] ++ [ReadFile "photo.jpg"; Printed "!";
               ChatCompletion
                 (Request (service_client vision_azure) (Some "gpt-4o") pictured_messages
                    (float_obj 1) 4096 None None None)])).
Proof.
  apply (make_request_image_answered _ vision_azure plain_messages pictured_messages
           "photo.jpg" "aGVsbG8=" fresh demo_response (tracked_for "gpt-4o")).
  - left. reflexivity.
  - reflexivity.
  - reflexivity.
  - reflexivity.
  - vm_compute. reflexivity.
Defined.

Lemma init_accepts_valid_parameters_witness :
  LLMService.__init__ AzureOpenAI (AzureOpenAIService.initialize_client demo_outside)
    "gpt-4o" (float_obj 2) 1 fresh
  = match AzureOpenAIService.initialize_client demo_outside "gpt-4o"
            (Process [] [] TokenTracker.initial ([] ++ [LoadDotenv]))
    with
    | (Return c, p') => (Return (Service AzureOpenAI "gpt-4o" (float_obj 2) 1 c), p')
    | (Raise e, p') => (Raise e, p')
    end.
Proof.
  apply (init_accepts_valid_parameters AzureOpenAI
           (AzureOpenAIService.initialize_client demo_outside) "gpt-4o" (float_obj 2) 1 fresh);
    [reflexivity | reflexivity | discriminate].
Defined.

Lemma valid_defaults : valid_parameters default_temperature default_max_tokens.
Proof. split; [reflexivity | split; [reflexivity | discriminate]]. Defined.

Lemma azure_construction_witness :
  AzureOpenAIService.__init__ down_outside "gpt-4o" default_temperature default_max_tokens
    fresh
  = (Raise azure_credentials_error,
     Process [] [] TokenTracker.initial ([] ++ [LoadDotenv])).
Proof.
  refine (proj1 (azure_construction down_outside "gpt-4o" default_temperature
                   default_max_tokens fresh valid_defaults) _).
  left. reflexivity.
Defined.

Lemma huggingface_construction_witness :
  HuggingFaceService.__init__ demo_outside "gpt2" default_temperature default_max_tokens
    fresh
  = (Raise (model_unavailable "gpt2"),
     Process [] [] TokenTracker.initial ([] ++ availability_check demo_outside)).
Proof.
  refine (proj1 (proj2 (huggingface_construction demo_outside "gpt2" default_temperature
                          default_max_tokens fresh valid_defaults))
            ["meta-llama/Meta-Llama-3-8B-Instruct"] _ _).
  - reflexivity.
  - intros [H | []]. discriminate.
Defined.

Lemma get_service_failure_caches_nothing_witness :
  _services (snd (get_service demo_outside "gpt-4o" "AzureOpenAI" (float_obj 3) 4096 fresh))
    = _services fresh
  /\ instances (snd (get_service demo_outside "gpt-4o" "AzureOpenAI" (float_obj 3) 4096 fresh))
     = instances fresh
  /\ token_tracker (snd (get_service demo_outside "gpt-4o" "AzureOpenAI" (float_obj 3) 4096 fresh))
     = token_tracker fresh
  /\ exists evs,
       trace (snd (get_service demo_outside "gpt-4o" "AzureOpenAI" (float_obj 3) 4096 fresh))
       = trace fresh ++ evs.
Proof.
  apply (get_service_failure_caches_nothing demo_outside "gpt-4o" "AzureOpenAI" (float_obj 3) 4096 fresh
           _ (Exn ValueError "Temperature must be between 0 and 2." None)).
  vm_compute. reflexivity.
Defined.

Definition first_instance : service :=
  Service AzureOpenAI "gpt-4o" default_temperature default_max_tokens
    (AzureClient "2023-05-15" "secret" "https://example.openai.azure.com").

Lemma get_service_never_evicts_witness :
  let p' := snd (get_service down_outside "gpt2" "HuggingFace" (float_obj 1) 10 after_first_request) in
  lookup_service ("gpt-4o", "AzureOpenAI", default_temperature, default_max_tokens)
    (_services p') = Some 0%nat
  /\ nth_error (instances p') 0 = Some first_instance.
Proof.
  apply (get_service_never_evicts down_outside "gpt2" "HuggingFace" (float_obj 1) 10 after_first_request
           ("gpt-4o", "AzureOpenAI", default_temperature, default_max_tokens) 0 first_instance).
  - vm_compute. reflexivity.
  - vm_compute. reflexivity.
Defined.

Lemma get_service_returns_requested_witness :
  registry_ok after_first_request
  /\ exists svc,
       nth_error (instances after_first_request) 0 = Some svc
       /\ model_name svc = "gpt-4o"
       /\ class_of "AzureOpenAI" = Some (service_class svc)
       /\ float_same (temperature svc) default_temperature = true
       /\ max_tokens svc = default_max_tokens
       /\ (float_value (temperature svc) <? 0)%float = false
       /\ (2 <? float_value (temperature svc))%float = false
       /\ 1 <= max_tokens svc
       /\ (is_nan (float_value (temperature svc)) = false ->
           (0 <=? float_value (temperature svc))%float = true
           /\ (float_value (temperature svc) <=? 2)%float = true).
Proof.
  apply (get_service_returns_requested demo_outside "gpt-4o" "AzureOpenAI"
           default_temperature default_max_tokens fresh after_first_request 0).
  - exact registry_ok_fresh.
  - vm_compute. reflexivity.
Defined.

Lemma get_service_distinct_keys_witness : 0%nat <> 1%nat.
Proof.
  apply (get_service_distinct_keys demo_outside demo_outside
           "gpt-4o" "AzureOpenAI" default_temperature default_max_tokens
           "gpt-4o" "AzureOpenAI" (float_obj 0.5) default_max_tokens
           fresh after_first_request
           (snd (get_service demo_outside "gpt-4o" "AzureOpenAI" (float_obj 0.5) default_max_tokens
                   after_first_request))).
  - exact registry_ok_fresh.
  - reflexivity.
  - vm_compute. reflexivity.
  - vm_compute. reflexivity.
Defined.

Lemma get_service_unknown_provider_witness :
  get_service demo_outside "claude" "Anthropic" default_temperature default_max_tokens fresh
  = (Raise (Exn ValueError
              "Unsupported provider: Anthropic. Supported providers: AzureOpenAI, HuggingFace and OpenAI."
              None), fresh).
Proof.
  apply (get_service_unknown_provider demo_outside "claude" "Anthropic" default_temperature
           default_max_tokens fresh).
  - exact registry_ok_fresh.
  - discriminate.
  - discriminate.
  - discriminate.
Defined.

End Runs.
